(** * Black Magic Debug: ADIv5 transport, CoreSight discovery, EFM32 driver

    A shallow embedding of [src/target/adiv5.c] and [src/target/efm32.c].

    Every call that leaves the two source files (the function pointers of
    the debug port, the Cortex-M/Cortex-A probes, the target layer, the
    allocator) is an _external call_: it is appended to a log of events
    together with the value it returned.  The value is chosen by an
    environment [env], a function of the log so far and of the call, so that
    any deterministic probe hardware is an instance.  The release build is
    modelled: the [DEBUG] macro expands to nothing and its arguments are not
    evaluated. *)

From Stdlib Require Import String ZArith List Bool Lia.
Import ListNotations.
Local Open Scope Z_scope.

(** ** Machine integers *)

Definition u8 (x : Z) : Z := x mod 2 ^ 8.
Definition u16 (x : Z) : Z := x mod 2 ^ 16.
Definition u32 (x : Z) : Z := x mod 2 ^ 32.
Definition u64 (x : Z) : Z := x mod 2 ^ 64.

(** [size_t] of the probe firmware (a 32-bit Cortex-M). *)
Definition size_t_bits : Z := 32.
Definition usize (x : Z) : Z := x mod 2 ^ size_t_bits.

(** ** Register map

    Modelled from the spec: [adiv5.h] is not among the sources.  The AP
    register offsets and the DP register addresses are those of the spec's
    section 6; [ADIV5_APnDP] is the flag by which the header tells an AP
    register from the DP register of the same low address, and the fields
    of CSW sit where the ADIv5 architecture (ARM IHI 0031) puts them.  No
    property below depends on the numeric value of a CSW field. *)

Definition ADIV5_APnDP : Z := 0x100.
Definition ADIV5_DP_REG (x : Z) : Z := x.
Definition ADIV5_AP_REG (x : Z) : Z := Z.lor ADIV5_APnDP x.

Definition ADIV5_DP_IDCODE : Z := ADIV5_DP_REG 0x0.
Definition ADIV5_DP_CTRLSTAT : Z := ADIV5_DP_REG 0x4.
Definition ADIV5_DP_SELECT : Z := ADIV5_DP_REG 0x8.
Definition ADIV5_DP_RDBUFF : Z := ADIV5_DP_REG 0xC.

Definition ADIV5_AP_CSW : Z := ADIV5_AP_REG 0x00.
Definition ADIV5_AP_TAR : Z := ADIV5_AP_REG 0x04.
Definition ADIV5_AP_DRW : Z := ADIV5_AP_REG 0x0C.
Definition ADIV5_AP_CFG : Z := ADIV5_AP_REG 0xF4.
Definition ADIV5_AP_BASE : Z := ADIV5_AP_REG 0xF8.
Definition ADIV5_AP_IDR : Z := ADIV5_AP_REG 0xFC.

Definition ADIV5_AP_BASE_PRESENT : Z := 1.

Definition ADIV5_AP_CSW_TRINPROG : Z := Z.shiftl 1 7.
Definition ADIV5_AP_CSW_ADDRINC_MASK : Z := Z.shiftl 3 4.
Definition ADIV5_AP_CSW_ADDRINC_SINGLE : Z := Z.shiftl 1 4.
Definition ADIV5_AP_CSW_SIZE_BYTE : Z := 0.
Definition ADIV5_AP_CSW_SIZE_HALFWORD : Z := 1.
Definition ADIV5_AP_CSW_SIZE_WORD : Z := 2.
Definition ADIV5_AP_CSW_SIZE_MASK : Z := 7.

Definition ADIV5_ROM_ROMENTRY_PRESENT : Z := 1.
Definition ADIV5_ROM_ROMENTRY_OFFSET : Z := 0xFFFFF000.

Definition ADIV5_LOW_WRITE : Z := 0.
Definition ADIV5_LOW_READ : Z := 1.

(** Modelled from the spec: [enum align] of [target.h], the base-two
    logarithm of the transfer size in bytes. *)
Inductive align : Type := ALIGN_BYTE | ALIGN_HALFWORD | ALIGN_WORD | ALIGN_DWORD.

Definition align_val (a : align) : Z :=
  match a with
  | ALIGN_BYTE => 0
  | ALIGN_HALFWORD => 1
  | ALIGN_WORD => 2
  | ALIGN_DWORD => 3
  end.

(** [1 << align], the number of bytes of one transfer. *)
Definition align_size (a : align) : Z := Z.shiftl 1 (align_val a).

Definition ALIGNOF (x : Z) : align :=
  if Z.land x 3 =? 0 then ALIGN_WORD
  else if Z.land x 1 =? 0 then ALIGN_HALFWORD else ALIGN_BYTE.

(** Modelled from the spec: the macro [MIN] of [general.h], the smaller
    of two values, here of two [enum align]. *)
Definition MIN (a b : align) : align :=
  if align_val a <? align_val b then a else b.

(** ** External calls and the event log *)

(** The two command tables of [efm32.c]. *)
Inductive cmd_list : Type := efm32_cmd_list | efm32_aap_cmd_list.

Inductive call : Type :=
| LowAccess (RnW addr value : Z)
| DpRead (addr : Z)
| DpError
| Malloc
| CortexmProbe (apsel : Z) (forced : bool)
| CortexaProbe (apsel debug_base : Z)
| KinetisMdmProbe (apsel : Z)
| Nrf51MdmProbe (apsel : Z)
| TargetNew
| TargetAddCommands (cmds : cmd_list)
| TargetMemRead32 (addr : Z)
| TargetMemWrite32 (addr value : Z)
| TargetCheckError
| TargetAddRam (start len : Z)
| TargetAddFlash (start length blocksize : Z)
| TcPrintf.

Record event : Type := Ev { ev_call : call; ev_ret : Z }.

Definition world : Type := list event.

(** Computations that cannot fail or diverge. *)
Definition M (A : Type) : Type := world -> A * world.

Definition ret {A : Type} (a : A) : M A := fun w => (a, w).

Definition bind {A B : Type} (m : M A) (f : A -> M B) : M B :=
  fun w => let (a, w') := m w in f a w'.

(** Computations that may run out of fuel. *)
Definition F (A : Type) : Type := world -> option (A * world).

Definition retF {A : Type} (a : A) : F A := fun w => Some (a, w).

Definition bindF {A B : Type} (m : F A) (f : A -> F B) : F B :=
  fun w => match m w with Some (a, w') => f a w' | None => None end.

Definition liftF {A : Type} (m : M A) : F A := fun w => Some (m w).

Declare Scope m_scope.
Delimit Scope m_scope with M.
Notation "x <- m ;; k" := (bind m (fun x => k))
  (at level 61, m at next level, right associativity) : m_scope.
Notation "' p <- m ;; k" := (bind m (fun x => match x with p => k end))
  (at level 61, p pattern, m at next level, right associativity) : m_scope.

Declare Scope f_scope.
Delimit Scope f_scope with F.
Notation "x <- m ;; k" := (bindF m (fun x => k))
  (at level 61, m at next level, right associativity) : f_scope.
Notation "' p <- m ;; k" := (bindF m (fun x => match x with p => k end))
  (at level 61, p pattern, m at next level, right associativity) : f_scope.

(** What a read stores into the caller's buffer: the offset from the
    buffer's start, the width, and the value. *)
Record store : Type := St { st_off : Z; st_align : align; st_val : Z }.

(** [extract]: lane selection of a read; returns the store done through
    [dest] and the advanced pointer. *)
Definition extract (dest src val : Z) (a : align) : store * Z :=
  (match a with
   | ALIGN_BYTE =>
       St dest a (Z.land (Z.shiftr val (Z.shiftl (Z.land src 0x3) 3)) 0xFF)
   | ALIGN_HALFWORD =>
       St dest a (Z.land (Z.shiftr val (Z.shiftl (Z.land src 0x2) 3)) 0xFFFF)
   | ALIGN_DWORD | ALIGN_WORD => St dest a val
   end, dest + align_size a).

(** A little-endian 32-bit cell after a store; this is how the word read by
    [adiv5_mem_read32] into its local [ret] is recovered. *)
Definition apply_store (cell : Z) (s : store) : Z :=
  let bits := 8 * align_size (st_align s) in
  let sh := 8 * st_off s in
  let mask := u32 (Z.shiftl (2 ^ bits - 1) sh) in
  Z.lor (Z.ldiff cell mask) (Z.land (Z.shiftl (st_val s) sh) mask).

Record ADIv5_AP_t : Type := mkAP {
  apsel : Z;
  idr : Z;
  base : Z;
  cfg : Z;
  csw : Z
}.

Record ADIv5_DP_t : Type := mkDP {
  idcode : Z;
  dp_idcode : Z;
  targetid : Z
}.

Section Transport.

Variable env : world -> call -> Z.

(** One external call returning a 32-bit value. *)
Definition extcall (c : call) : M Z :=
  fun w => let r := u32 (env w c) in (r, w ++ [Ev c r]).

Definition adiv5_dp_low_access (RnW addr value : Z) : M Z :=
  extcall (LowAccess RnW addr value).

Definition adiv5_dp_read (addr : Z) : M Z := extcall (DpRead addr).

Definition adiv5_dp_error : M Z := extcall DpError.

Definition adiv5_dp_write (addr value : Z) : M Z :=
  adiv5_dp_low_access ADIV5_LOW_WRITE addr value.

Definition adiv5_ap_write (ap : ADIv5_AP_t) (addr value : Z) : M Z :=
  (_ <- adiv5_dp_write ADIV5_DP_SELECT
          (Z.lor (u32 (Z.shiftl (apsel ap) 24)) (Z.land addr 0xF0)) ;;
   adiv5_dp_write addr value)%M.

Definition adiv5_ap_read (ap : ADIv5_AP_t) (addr : Z) : M Z :=
  (_ <- adiv5_dp_write ADIV5_DP_SELECT
          (Z.lor (u32 (Z.shiftl (apsel ap) 24)) (Z.land addr 0xF0)) ;;
   adiv5_dp_read addr)%M.

(** ** MEM-AP memory engine *)

Definition ap_mem_access_setup (ap : ADIv5_AP_t) (addr : Z) (a : align) : M Z :=
  let csw0 := Z.lor (csw ap) ADIV5_AP_CSW_ADDRINC_SINGLE in
  let csw1 :=
    match a with
    | ALIGN_BYTE => Z.lor csw0 ADIV5_AP_CSW_SIZE_BYTE
    | ALIGN_HALFWORD => Z.lor csw0 ADIV5_AP_CSW_SIZE_HALFWORD
    | ALIGN_DWORD | ALIGN_WORD => Z.lor csw0 ADIV5_AP_CSW_SIZE_WORD
    end in
  (_ <- adiv5_ap_write ap ADIV5_AP_CSW csw1 ;;
   adiv5_dp_low_access ADIV5_LOW_WRITE ADIV5_AP_TAR addr)%M.

(** The body of [while (--len)] in [adiv5_mem_read], run [n] times: the
    body runs once for each value [len-1, ..., 1] of the decremented
    counter, so [n] is [usize (len - 1)] for the [len] at loop entry. *)
Fixpoint mem_read_loop (n : nat) (a : align) (dest src osrc : Z)
    (log : list store) : M (list store * Z * Z) :=
  match n with
  | O => ret (log, dest, src)
  | S n' =>
      (tmp <- adiv5_dp_low_access ADIV5_LOW_READ ADIV5_AP_DRW 0 ;;
       let s := fst (extract dest src tmp a) in
       let dest' := snd (extract dest src tmp a) in
       let src' := u32 (src + align_size a) in
       if Z.land (Z.lxor src' osrc) 0xfffffc00 =? 0
       then mem_read_loop n' a dest' src' osrc (log ++ [s])
       else
         _ <- adiv5_dp_low_access ADIV5_LOW_WRITE ADIV5_AP_TAR src' ;;
         _ <- adiv5_dp_low_access ADIV5_LOW_READ ADIV5_AP_DRW 0 ;;
         mem_read_loop n' a dest' src' src' (log ++ [s]))%M
  end.

Definition adiv5_mem_read (ap : ADIv5_AP_t) (dest src len : Z)
  : M (list store) :=
  let osrc := src in
  let a := MIN (ALIGNOF src) (ALIGNOF len) in
  if len =? 0 then ret []
  else
    let len := Z.shiftr len (align_val a) in
    (_ <- ap_mem_access_setup ap src a ;;
     _ <- adiv5_dp_low_access ADIV5_LOW_READ ADIV5_AP_DRW 0 ;;
     r <- mem_read_loop (Z.to_nat (usize (len - 1))) a dest src osrc [] ;;
     tmp <- adiv5_dp_low_access ADIV5_LOW_READ ADIV5_DP_RDBUFF 0 ;;
     ret (fst (fst r) ++ [fst (extract (snd (fst r)) (snd r) tmp a)]))%M.

(** The host buffer of a write is a function [ld a off]: the unit of
    width [a] found [off] bytes into the buffer. *)
Definition pack (a : align) (dest v : Z) : Z :=
  match a with
  | ALIGN_BYTE => u32 (Z.shiftl (u8 v) (Z.shiftl (Z.land dest 3) 3))
  | ALIGN_HALFWORD => u32 (Z.shiftl (u16 v) (Z.shiftl (Z.land dest 2) 3))
  | ALIGN_DWORD | ALIGN_WORD => u32 v
  end.

(** The body of [while (len--)] in [adiv5_mem_write_sized], run [n] times. *)
Fixpoint mem_write_loop (n : nat) (a : align) (ld : align -> Z -> Z)
    (dest src odest : Z) : M unit :=
  match n with
  | O => ret tt
  | S n' =>
      (let tmp := pack a dest (ld a src) in
       let src' := src + align_size a in
       let dest' := u32 (dest + align_size a) in
       _ <- adiv5_dp_low_access ADIV5_LOW_WRITE ADIV5_AP_DRW tmp ;;
       if Z.land (Z.lxor dest' odest) 0xfffffc00 =? 0
       then mem_write_loop n' a ld dest' src' odest
       else
         _ <- adiv5_dp_low_access ADIV5_LOW_WRITE ADIV5_AP_TAR dest' ;;
         mem_write_loop n' a ld dest' src' dest')%M
  end.

Definition adiv5_mem_write_sized (ap : ADIv5_AP_t) (dest : Z)
    (ld : align -> Z -> Z) (len : Z) (a : align) : M unit :=
  let odest := dest in
  let len := Z.shiftr len (align_val a) in
  (_ <- ap_mem_access_setup ap dest a ;;
   mem_write_loop (Z.to_nat len) a ld dest 0 odest)%M.

Definition adiv5_mem_write (ap : ADIv5_AP_t) (dest : Z)
    (ld : align -> Z -> Z) (len : Z) : M unit :=
  let a := MIN (ALIGNOF dest) (ALIGNOF len) in
  adiv5_mem_write_sized ap dest ld len a.

Definition adiv5_mem_read32 (ap : ADIv5_AP_t) (addr : Z) : M Z :=
  (log <- adiv5_mem_read ap 0 addr 4 ;;
   ret (fold_left apply_store log 0))%M.

End Transport.

(** ** Reading the event log *)

Definition is_tar_write (e : event) : bool :=
  match ev_call e with
  | LowAccess rnw addr _ => (rnw =? ADIV5_LOW_WRITE) && (addr =? ADIV5_AP_TAR)
  | _ => false
  end.

Definition is_drw_read (e : event) : bool :=
  match ev_call e with
  | LowAccess rnw addr _ => (rnw =? ADIV5_LOW_READ) && (addr =? ADIV5_AP_DRW)
  | _ => false
  end.

Definition is_drw_write (e : event) : bool :=
  match ev_call e with
  | LowAccess rnw addr _ => (rnw =? ADIV5_LOW_WRITE) && (addr =? ADIV5_AP_DRW)
  | _ => false
  end.

Definition is_rdbuff_read (e : event) : bool :=
  match ev_call e with
  | LowAccess rnw addr _ => (rnw =? ADIV5_LOW_READ) && (addr =? ADIV5_DP_RDBUFF)
  | _ => false
  end.

(** The values of the data reads of DRW in a log: a DRW read that comes
    right after a TAR write primes the pipeline and carries no data. *)
Fixpoint data_vals (after_tar : bool) (evs : list event) : list Z :=
  match evs with
  | [] => []
  | e :: rest =>
      if is_tar_write e then data_vals true rest
      else if is_drw_read e then
        if after_tar then data_vals false rest
        else ev_ret e :: data_vals false rest
      else data_vals false rest
  end.

(** The stores that lane-extract the values [vals], one unit after the
    other, starting at buffer offset [dest] and target address [src]. *)
Fixpoint stores_of (a : align) (dest src : Z) (vals : list Z) : list store :=
  match vals with
  | [] => []
  | v :: vs =>
      fst (extract dest src v a)
        :: stores_of a (dest + align_size a) (u32 (src + align_size a)) vs
  end.

(** The CSW value of a transfer of width [a]. *)
Definition csw_for (ap : ADIv5_AP_t) (a : align) : Z :=
  Z.lor (Z.lor (csw ap) ADIV5_AP_CSW_ADDRINC_SINGLE)
    (match a with
     | ALIGN_BYTE => ADIV5_AP_CSW_SIZE_BYTE
     | ALIGN_HALFWORD => ADIV5_AP_CSW_SIZE_HALFWORD
     | ALIGN_WORD | ALIGN_DWORD => ADIV5_AP_CSW_SIZE_WORD
     end).

(** The three writes of [ap_mem_access_setup]: bank select, CSW, TAR. *)
Definition setup_calls (ap : ADIv5_AP_t) (addr : Z) (a : align) : list call :=
  [LowAccess ADIV5_LOW_WRITE ADIV5_DP_SELECT
     (Z.lor (u32 (Z.shiftl (apsel ap) 24)) (Z.land ADIV5_AP_CSW 0xF0));
   LowAccess ADIV5_LOW_WRITE ADIV5_AP_CSW (csw_for ap a);
   LowAccess ADIV5_LOW_WRITE ADIV5_AP_TAR addr].

(** Two addresses lie in the same 1 KiB auto-increment page of TAR. *)
Definition same_page (x y : Z) : bool :=
  Z.land (Z.lxor x y) (Z.lnot 0x3FF) =? 0.

Inductive xfer_kind : Type := XTar (v : Z) | XPrime | XData | XOther.

Definition classify (rd after_tar : bool) (e : event) : xfer_kind :=
  match ev_call e with
  | LowAccess _ _ v =>
      if is_tar_write e then XTar v
      else if rd then
        if is_drw_read e then (if after_tar then XPrime else XData)
        else if is_rdbuff_read e then XData else XOther
      else if is_drw_write e then XData else XOther
  | _ => XOther
  end.

(** The TAR discipline of a transfer, checked on its log.  [cur] is the
    running address of the next unit, [last] the value last written to TAR.
    - every TAR write carries the running address;
    - every data transfer (a data read of DRW or the read of RDBUFF on the
      read path [rd], a write of DRW on the write path) happens while the
      running address is in the 1 KiB page of the last TAR write;
    - on the read path a TAR write is followed at once by a priming read. *)
Fixpoint tar_discipline (rd : bool) (size cur : Z) (last : option Z)
    (after_tar : bool) (evs : list event) : bool :=
  match evs with
  | [] => negb (rd && after_tar)
  | e :: rest =>
      match classify rd after_tar e with
      | XTar v =>
          negb (rd && after_tar) && (v =? cur)
          && tar_discipline rd size cur (Some v) true rest
      | XPrime => tar_discipline rd size cur last false rest
      | XData =>
          negb (rd && after_tar)
          && match last with Some l => same_page cur l | None => false end
          && tar_discipline rd size (u32 (cur + size)) last false rest
      | XOther =>
          negb (rd && after_tar) && tar_discipline rd size cur last false rest
      end
  end.

(** A mock environment that answers every call with the number of events
    logged before it. *)
Definition env_count : world -> call -> Z := fun w _ => Z.of_nat (length w).

Definition ap0 : ADIv5_AP_t := mkAP 0 0x24770011 0xE00FF003 0 0x23000040.

(** ** CoreSight discovery *)

Definition CIDR0_OFFSET : Z := 0xFF0.
Definition CID_PREAMBLE : Z := 0xB105000D.
Definition CID_CLASS_MASK : Z := 0x0000F000.
Definition CID_CLASS_SHIFT : Z := 12.

Definition cidc_gvc : Z := 0x0.
Definition cidc_romtab : Z := 0x1.
Definition cidc_dc : Z := 0x9.
Definition cidc_ptb : Z := 0xB.
Definition cidc_dess : Z := 0xD.
Definition cidc_gipc : Z := 0xE.
Definition cidc_pcp : Z := 0xF.
Definition cidc_unknown : Z := 0x10.

Definition PIDR0_OFFSET : Z := 0xFE0.
Definition PIDR4_OFFSET : Z := 0xFD0.
Definition PIDR_REV_MASK : Z := 0x0FFF00000.
Definition PIDR_PN_MASK : Z := 0x000000FFF.
Definition PIDR_ARM_BITS : Z := 0x4000BB000.

Inductive arm_arch : Type :=
  aa_nosupport | aa_cortexm | aa_cortexa | aa_v8 | aa_end.

Definition arm_arch_eqb (x y : arm_arch) : bool :=
  match x, y with
  | aa_nosupport, aa_nosupport | aa_cortexm, aa_cortexm
  | aa_cortexa, aa_cortexa | aa_v8, aa_v8 | aa_end, aa_end => true
  | _, _ => false
  end.

Record pidr_pn_row : Type :=
  mkPn { part_number : Z; arch : arm_arch; cidc : Z }.

Definition pidr_pn_bits : list pidr_pn_row :=
  [mkPn 0x000 aa_cortexm cidc_gipc;
   mkPn 0x001 aa_nosupport cidc_unknown;
   mkPn 0x002 aa_nosupport cidc_unknown;
   mkPn 0x003 aa_nosupport cidc_unknown;
   mkPn 0x008 aa_cortexm cidc_gipc;
   mkPn 0x00a aa_nosupport cidc_unknown;
   mkPn 0x00b aa_nosupport cidc_unknown;
   mkPn 0x00c aa_cortexm cidc_gipc;
   mkPn 0x00d aa_nosupport cidc_unknown;
   mkPn 0x00e aa_nosupport cidc_unknown;
   mkPn 0x101 aa_nosupport cidc_unknown;
   mkPn 0x490 aa_nosupport cidc_unknown;
   mkPn 0x4c7 aa_nosupport cidc_unknown;
   mkPn 0x906 aa_nosupport cidc_unknown;
   mkPn 0x907 aa_nosupport cidc_unknown;
   mkPn 0x908 aa_nosupport cidc_unknown;
   mkPn 0x910 aa_nosupport cidc_unknown;
   mkPn 0x912 aa_nosupport cidc_unknown;
   mkPn 0x913 aa_nosupport cidc_unknown;
   mkPn 0x914 aa_nosupport cidc_unknown;
   mkPn 0x917 aa_nosupport cidc_unknown;
   mkPn 0x920 aa_nosupport cidc_unknown;
   mkPn 0x921 aa_nosupport cidc_unknown;
   mkPn 0x922 aa_nosupport cidc_unknown;
   mkPn 0x923 aa_nosupport cidc_unknown;
   mkPn 0x924 aa_nosupport cidc_unknown;
   mkPn 0x925 aa_nosupport cidc_unknown;
   mkPn 0x930 aa_nosupport cidc_unknown;
   mkPn 0x932 aa_nosupport cidc_unknown;
   mkPn 0x941 aa_nosupport cidc_unknown;
   mkPn 0x950 aa_nosupport cidc_unknown;
   mkPn 0x955 aa_nosupport cidc_unknown;
   mkPn 0x956 aa_nosupport cidc_unknown;
   mkPn 0x95f aa_nosupport cidc_unknown;
   mkPn 0x961 aa_nosupport cidc_unknown;
   mkPn 0x962 aa_nosupport cidc_unknown;
   mkPn 0x963 aa_nosupport cidc_unknown;
   mkPn 0x975 aa_nosupport cidc_unknown;
   mkPn 0x9a0 aa_nosupport cidc_unknown;
   mkPn 0x9a1 aa_nosupport cidc_unknown;
   mkPn 0x9a9 aa_nosupport cidc_unknown;
   mkPn 0x9a5 aa_nosupport cidc_unknown;
   mkPn 0x9a7 aa_nosupport cidc_unknown;
   mkPn 0x9af aa_nosupport cidc_unknown;
   mkPn 0xc05 aa_cortexa cidc_dc;
   mkPn 0xc07 aa_cortexa cidc_dc;
   mkPn 0xc08 aa_cortexa cidc_dc;
   mkPn 0xc09 aa_cortexa cidc_dc;
   mkPn 0xc0f aa_nosupport cidc_unknown;
   mkPn 0xc14 aa_nosupport cidc_unknown;
   mkPn 0xcd0 aa_nosupport cidc_unknown;
   mkPn 0xd21 aa_v8 cidc_unknown;
   mkPn 0xfff aa_end cidc_unknown].


Definition DEVARCH_OFFSET : Z := 0xFBC.
Definition DEVARCH_ARCHID_MASK : Z := 0x0000FFFF.
Definition DEVARCH_ARCHID_SHIFT : Z := 0.
Definition DEVARCH_PRESENT_MASK : Z := 0x00100000.

Definition devarch_archid_bits : list (Z * arm_arch) :=
  [(0x0a00, aa_nosupport);
   (0x0a01, aa_nosupport);
   (0x0a02, aa_nosupport);
   (0x0a03, aa_nosupport);
   (0x0a04, aa_cortexm);
   (0x0a10, aa_nosupport);
   (0x0a17, aa_nosupport);
   (0x0a27, aa_nosupport);
   (0x0a31, aa_nosupport);
   (0x0a37, aa_nosupport);
   (0x0a47, aa_nosupport);
   (0x0a50, aa_nosupport);
   (0x0a63, aa_nosupport);
   (0x0a75, aa_nosupport);
   (0x0af7, aa_nosupport);
   (0x1a01, aa_nosupport);
   (0x1a02, aa_nosupport);
   (0x1a03, aa_nosupport);
   (0x1a14, aa_nosupport);
   (0x2a04, aa_cortexm);
   (0x2a16, aa_nosupport);
   (0x4a13, aa_nosupport);
   (0x6a05, aa_nosupport);
   (0x6a15, aa_cortexa);
   (0x7a15, aa_cortexa);
   (0x8a15, aa_cortexa);
   (0xffff, aa_end)].


Definition DEVTYPE_OFFSET : Z := 0xFCC.
Definition DEVTYPE_MAJOR_MASK : Z := 0x0F.
Definition DEVTYPE_MAJOR_SHIFT : Z := 0.
Definition DEVTYPE_MINOR_MASK : Z := 0xF0.
Definition DEVTYPE_MINOR_SHIFT : Z := 4.

Definition devtype_id_bits : list (Z * arm_arch) :=
  [(0x00, aa_nosupport);
   (0x04, aa_nosupport);
   (0x10, aa_nosupport);
   (0x11, aa_nosupport);
   (0x12, aa_nosupport);
   (0x13, aa_nosupport);
   (0x20, aa_nosupport);
   (0x21, aa_nosupport);
   (0x22, aa_nosupport);
   (0x23, aa_nosupport);
   (0x30, aa_nosupport);
   (0x31, aa_nosupport);
   (0x32, aa_nosupport);
   (0x33, aa_nosupport);
   (0x34, aa_nosupport);
   (0x36, aa_nosupport);
   (0x40, aa_nosupport);
   (0x41, aa_nosupport);
   (0x42, aa_nosupport);
   (0x43, aa_nosupport);
   (0x50, aa_nosupport);
   (0x51, aa_nosupport);
   (0x52, aa_nosupport);
   (0x53, aa_nosupport);
   (0x54, aa_nosupport);
   (0x55, aa_nosupport);
   (0x60, aa_nosupport);
   (0x61, aa_nosupport);
   (0x62, aa_nosupport);
   (0x63, aa_nosupport);
   (0x64, aa_nosupport);
   (0x65, aa_nosupport);
   (0xff, aa_end)].


(** The two table scans of [adiv5_armv8_probe]: rows are visited up to the
    [aa_end] row; the first row with the wanted id and a supported
    architecture ends the scan. *)
Fixpoint arch_scan (rows : list (Z * arm_arch)) (id : Z) (found : arm_arch)
  : arm_arch :=
  match rows with
  | [] => found
  | (rid, rarch) :: rest =>
      if arm_arch_eqb rarch aa_end then found
      else if (rid =? id) && negb (arm_arch_eqb rarch aa_nosupport) then rarch
      else arch_scan rest id found
  end.

(** The part-number scan of [adiv5_component_probe]: the first row with
    the part number, before the [aa_end] row. *)
Fixpoint pn_find (rows : list pidr_pn_row) (pn : Z) : option pidr_pn_row :=
  match rows with
  | [] => None
  | r :: rest =>
      if arm_arch_eqb (arch r) aa_end then None
      else if part_number r =? pn then Some r
      else pn_find rest pn
  end.

Section Discovery.

Variable env : world -> call -> Z.

Definition cortexm_probe (ap : ADIv5_AP_t) (forced : bool) : M Z :=
  extcall env (CortexmProbe (apsel ap) forced).

Definition cortexa_probe (ap : ADIv5_AP_t) (debug_base : Z) : M Z :=
  extcall env (CortexaProbe (apsel ap) debug_base).

(** The loop [for (i = 0; i < 4; i++)] of [adiv5_ap_read_id], over the
    remaining values of [i]. *)
Fixpoint ap_read_id_loop (idxs : list Z) (ap : ADIv5_AP_t) (addr res : Z)
  : M Z :=
  match idxs with
  | [] => ret res
  | i :: idxs' =>
      (x <- adiv5_mem_read32 env ap (u32 (addr + 4 * i)) ;;
       ap_read_id_loop idxs' ap addr
         (Z.lor res (u32 (Z.shiftl (Z.land x 0xff) (i * 8)))))%M
  end.

Definition adiv5_ap_read_id (ap : ADIv5_AP_t) (addr : Z) : M Z :=
  ap_read_id_loop [0; 1; 2; 3] ap addr 0.

Definition adiv5_ap_read_pidr (ap : ADIv5_AP_t) (addr : Z) : M Z :=
  (hi <- adiv5_ap_read_id ap (u32 (addr + PIDR4_OFFSET)) ;;
   lo <- adiv5_ap_read_id ap (u32 (addr + PIDR0_OFFSET)) ;;
   ret (Z.lor (u64 (Z.shiftl hi 32)) lo))%M.

Definition adiv5_armv8_probe (ap : ADIv5_AP_t) (addr : Z) : M arm_arch :=
  (devarch <- adiv5_mem_read32 env ap (u32 (addr + DEVARCH_OFFSET)) ;;
   if negb (Z.land devarch DEVARCH_PRESENT_MASK =? 0) then
     let devarch_id :=
       u16 (Z.shiftr (Z.land devarch DEVARCH_ARCHID_MASK)
              DEVARCH_ARCHID_SHIFT) in
     ret (arch_scan devarch_archid_bits devarch_id aa_nosupport)
   else
     devtype <- adiv5_mem_read32 env ap (u32 (addr + DEVTYPE_OFFSET)) ;;
     let minor :=
       u8 (Z.shiftr (Z.land devtype DEVTYPE_MINOR_MASK) DEVTYPE_MINOR_SHIFT) in
     let major :=
       u8 (Z.shiftr (Z.land devtype DEVTYPE_MAJOR_MASK) DEVTYPE_MAJOR_SHIFT) in
     let devtype_id := u8 (Z.lor minor (Z.shiftl major 4)) in
     ret (arch_scan devtype_id_bits devtype_id aa_nosupport))%M.

(** The [else] branch of [adiv5_component_probe] after the designer
    check: part-number lookup and probe dispatch. *)
Definition component_dispatch (ap : ADIv5_AP_t) (addr pidr : Z) : M bool :=
  let pn := u16 (Z.land pidr PIDR_PN_MASK) in
  match pn_find pidr_pn_bits pn with
  | None => ret false
  | Some row =>
      (armv8_probe <-
         (match arch row with
          | aa_v8 => adiv5_armv8_probe ap addr
          | _ => ret aa_nosupport
          end) ;;
       match arch row with
       | aa_cortexm => _ <- cortexm_probe ap false ;; ret true
       | aa_v8 =>
           match armv8_probe with
           | aa_cortexm => _ <- cortexm_probe ap false ;; ret true
           | aa_cortexa => _ <- cortexa_probe ap addr ;; ret true
           | _ => ret true
           end
       | aa_cortexa => _ <- cortexa_probe ap addr ;; ret true
       | _ => ret true
       end)%M
  end.

(** The loop [for (i = 0; i < 960; i++)] over the entries of a ROM table,
    with [n] entries left; [probe] is the recursive call. *)
Fixpoint rom_table_loop (probe : Z -> Z -> Z -> F bool) (n : nat)
    (ap : ADIv5_AP_t) (addr recursion i : Z) (res : bool) : F bool :=
  match n with
  | O => retF res
  | S n' =>
      (entry <- liftF (adiv5_mem_read32 env ap (u32 (addr + i * 4))) ;;
       _ <- liftF (adiv5_dp_error env) ;;
       if entry =? 0 then retF res
       else if Z.land entry ADIV5_ROM_ROMENTRY_PRESENT =? 0
       then rom_table_loop probe n' ap addr recursion (i + 1) res
       else
         r <- probe (u32 (addr + Z.land entry ADIV5_ROM_ROMENTRY_OFFSET))
                (recursion + 1) i ;;
         rom_table_loop probe n' ap addr recursion (i + 1) (res || r))%F
  end.

(** [fuel] bounds the depth of the recursion; the C function has no
    bound of its own. *)
Fixpoint adiv5_component_probe (fuel : nat) (ap : ADIv5_AP_t)
    (addr recursion num_entry : Z) : F bool :=
  match fuel with
  | O => fun _ => None
  | S fuel' =>
      let addr := Z.land addr (Z.lnot 3) in
      (pidr <- liftF (adiv5_ap_read_pidr ap addr) ;;
       cidr <- liftF (adiv5_ap_read_id ap (u32 (addr + CIDR0_OFFSET))) ;;
       err <- liftF (adiv5_dp_error env) ;;
       if negb (err =? 0) then retF false
       else if negb (Z.land cidr (Z.lnot CID_CLASS_MASK) =? CID_PREAMBLE)
       then retF false
       else
         let cid_class :=
           Z.shiftr (Z.land cidr CID_CLASS_MASK) CID_CLASS_SHIFT in
         if cid_class =? cidc_romtab then
           rom_table_loop (adiv5_component_probe fuel' ap) 960 ap addr
             recursion 0 false
         else if negb (Z.land pidr (Z.lnot (Z.lor PIDR_REV_MASK PIDR_PN_MASK))
                       =? PIDR_ARM_BITS)
         then retF false
         else liftF (component_dispatch ap addr pidr))%F
  end.

End Discovery.

(** ** EFM32 Authentication Access Port *)

Definition EFM32_AAP_IDR : Z := 0x06E60001.
Definition EFM32_APP_IDR_MASK : Z := 0x0FFFFF0F.

Definition AAP_CMD : Z := ADIV5_AP_REG 0x00.
Definition AAP_CMDKEY : Z := ADIV5_AP_REG 0x04.
Definition AAP_STATUS : Z := ADIV5_AP_REG 0x08.

Definition AAP_STATUS_LOCKED : Z := Z.shiftl 1 1.
Definition AAP_STATUS_ERASEBUSY : Z := Z.shiftl 1 0.

Definition CMDKEY : Z := 0xCFACC118.

(** The target created by [efm32_aap_probe]: its private AP, the revision
    printed into the driver string, and [regs_size]. *)
Record aap_target : Type := mkAapTarget {
  aap_priv : ADIv5_AP_t;
  aap_revision : Z;
  aap_regs_size : Z
}.

(** What the AP scan of [adiv5_dp_init] did with one [apsel]; the C
    function returns nothing, this report is kept by the model alone. *)
Inductive ap_outcome : Type :=
| ApAbsent
| ApDuplicate (b : Z)
| ApNoDebug (b : Z)
| ApMem (b : Z) (found forced : bool).

Section DpInit.

Variable env : world -> call -> Z.

Definition adiv5_ap_setup (i : Z) : bool := true.

Definition efm32_aap_probe (ap : ADIv5_AP_t) : M (option aap_target) :=
  if Z.land (idr ap) EFM32_APP_IDR_MASK =? EFM32_AAP_IDR then
    let aap_revision := u16 (Z.shiftr (Z.land (idr ap) 0xF0000000) 28) in
    (_ <- extcall env TargetNew ;;
     _ <- extcall env (TargetAddCommands efm32_aap_cmd_list) ;;
     ret (Some (mkAapTarget ap aap_revision 4)))%M
  else ret None.

(** The [do ... while] of [efm32_aap_cmd_device_erase]; it has no
    timeout, [fuel] bounds the number of reads. *)
Fixpoint aap_erase_poll (fuel : nat) (ap : ADIv5_AP_t) : F Z :=
  match fuel with
  | O => fun _ => None
  | S fuel' =>
      (status <- liftF (adiv5_ap_read env ap AAP_STATUS) ;;
       if negb (Z.land status AAP_STATUS_ERASEBUSY =? 0)
       then aap_erase_poll fuel' ap
       else retF status)%F
  end.

Definition efm32_aap_cmd_device_erase (fuel : nat) (t : aap_target)
  : F bool :=
  let ap := aap_priv t in
  (status <- liftF (adiv5_ap_read env ap AAP_STATUS) ;;
   if negb (Z.land status AAP_STATUS_ERASEBUSY =? 0) then retF false
   else
     _ <- liftF (adiv5_ap_write env ap AAP_CMDKEY CMDKEY) ;;
     _ <- liftF (adiv5_ap_write env ap AAP_CMD 1) ;;
     _ <- aap_erase_poll fuel ap ;;
     _ <- liftF (adiv5_ap_read env ap AAP_STATUS) ;;
     retF true)%F.

Definition adiv5_new_ap (dp : ADIv5_DP_t) (apsel_ : Z)
  : M (option ADIv5_AP_t) :=
  let tmpap := mkAP apsel_ 0 0 0 0 in
  (idr_ <- adiv5_ap_read env tmpap ADIV5_AP_IDR ;;
   base0 <- adiv5_ap_read env tmpap ADIV5_AP_BASE ;;
   if idr_ =? 0 then ret None
   else
     p <- extcall env Malloc ;;
     if p =? 0 then ret None
     else
       cfg_ <- adiv5_ap_read env tmpap ADIV5_AP_CFG ;;
       base_ <- adiv5_ap_read env tmpap ADIV5_AP_BASE ;;
       csw0 <- adiv5_ap_read env tmpap ADIV5_AP_CSW ;;
       let csw1 :=
         Z.land csw0
           (Z.lnot (Z.lor ADIV5_AP_CSW_SIZE_MASK ADIV5_AP_CSW_ADDRINC_MASK)) in
       let csw2 :=
         if negb (Z.land csw1 ADIV5_AP_CSW_TRINPROG =? 0)
         then Z.land csw1 (Z.lnot ADIV5_AP_CSW_TRINPROG) else csw1 in
       ret (Some (mkAP apsel_ idr_ base_ cfg_ csw2)))%M.

(** The AP scan of [adiv5_dp_init] (from "Probe for APs on this DP" to the
    end of the function): the loop
    [for (i = 0; (i < 256) && (void_aps < 8); i++)] with [n] values of [i]
    left below 256.  [fuel] is handed to [adiv5_component_probe]. *)
Fixpoint dp_init_ap_loop (fuel n : nat) (dp : ADIv5_DP_t)
    (i last_base void_aps : Z) (probed : bool) (log : list ap_outcome)
  : F (list ap_outcome) :=
  match n with
  | O => retF log
  | S n' =>
      if negb (void_aps <? 8) then retF log
      else
        (ap <- liftF (if adiv5_ap_setup i then adiv5_new_ap dp (u8 i)
                      else ret None) ;;
         match ap with
         | None =>
             if i =? 0 then retF (log ++ [ApAbsent])
             else dp_init_ap_loop fuel n' dp (i + 1) last_base (void_aps + 1)
                    probed (log ++ [ApAbsent])
         | Some ap =>
             if base ap =? last_base then retF (log ++ [ApDuplicate (base ap)])
             else
               _ <- liftF (extcall env (KinetisMdmProbe (apsel ap))) ;;
               _ <- liftF (extcall env (Nrf51MdmProbe (apsel ap))) ;;
               _ <- liftF (efm32_aap_probe ap) ;;
               if (Z.land (base ap) ADIV5_AP_BASE_PRESENT =? 0)
                  || (base ap =? 0xffffffff)
               then dp_init_ap_loop fuel n' dp (i + 1) (base ap) void_aps
                      probed (log ++ [ApNoDebug (base ap)])
               else
                 found <- adiv5_component_probe env fuel ap (base ap) 0 0 ;;
                 if negb (probed || found)
                    && (Z.land (idcode dp) 0xfff =? 0x477)
                 then
                   _ <- liftF (cortexm_probe env ap true) ;;
                   dp_init_ap_loop fuel n' dp (i + 1) (base ap) void_aps
                     true (log ++ [ApMem (base ap) found true])
                 else
                   dp_init_ap_loop fuel n' dp (i + 1) (base ap) void_aps
                     (probed || found) (log ++ [ApMem (base ap) found false])
         end)%F
  end.

Definition dp_init_ap_scan (fuel : nat) (dp : ADIv5_DP_t)
  : F (list ap_outcome) :=
  dp_init_ap_loop fuel 256 dp 0 0 0 false [].

End DpInit.

(** ** EFM32 flash driver *)

Definition SRAM_BASE : Z := 0x20000000.

Definition EFM32_MSC_WRITECTRL (msc : Z) : Z :=
  u32 (msc + (if msc =? 0x40030000 then 0x0c else 0x08)).
Definition EFM32_MSC_WRITECMD (msc : Z) : Z :=
  u32 (msc + (if msc =? 0x40030000 then 0x10 else 0x0c)).
Definition EFM32_MSC_ADDRB (msc : Z) : Z :=
  u32 (msc + (if msc =? 0x40030000 then 0x14 else 0x10)).
Definition EFM32_MSC_WDATA (msc : Z) : Z := u32 (msc + 0x018).
Definition EFM32_MSC_STATUS (msc : Z) : Z := u32 (msc + 0x01c).
Definition EFM32_MSC_IF (msc : Z) : Z :=
  u32 (msc + (if msc =? 0x40030000 then 0x20 else 0x30)).
Definition EFM32_MSC_LOCK (msc : Z) : Z :=
  u32 (msc + (if (msc =? 0x40030000) || (msc =? 0x400c0000)
              then 0x3c else 0x40)).
Definition EFM32_MSC_MASSLOCK (msc : Z) : Z :=
  u32 (msc + (if msc =? 0x40030000 then 0x40 else 0x54)).

Definition EFM32_MSC_LOCK_LOCKKEY : Z := 0x1b71.
Definition EFM32_MSC_MASSLOCK_LOCKKEY : Z := 0x631a.

Definition EFM32_MSC_WRITECMD_LADDRIM : Z := Z.shiftl 1 0.
Definition EFM32_MSC_WRITECMD_ERASEPAGE : Z := Z.shiftl 1 1.
Definition EFM32_MSC_STATUS_BUSY : Z := Z.shiftl 1 0.

Definition EFM32_INFO : Z := 0x0fe00000.
Definition EFM32_USER_DATA : Z := EFM32_INFO + 0x00000.
Definition EFM32_DI_V1 : Z := EFM32_INFO + 0x081B0.
Definition EFM32_DI_V2 : Z := EFM32_INFO + 0x081A8.
Definition EFM32_DI_V3 : Z := EFM32_INFO + 0x081B0.
Definition EFM32_DI_V4 : Z := EFM32_INFO + 0x08000.
Definition EFM32_BOOTLOADER : Z := EFM32_INFO + 0x10000.

Definition EFM32_DI_PART_NUMBER_OFST : Z := 0.
Definition EFM32_DI_PART_FAMILY_OFST : Z := 16.
Definition EFM32_DI_PART_NUMBER_MASK : Z := 0xFFFF.
Definition EFM32_DI_PART_FAMILY_MASK : Z := 0xFF.
Definition EFM32_DI_V4_PART_FAMILYNUM_OFST : Z := 16.
Definition EFM32_DI_V4_PART_FAMILYNUM_MASK : Z := 0x3F.
Definition EFM32_DI_V4_PART_FAMILY_OFST : Z := 24.
Definition EFM32_DI_V4_PART_FAMILY_MASK : Z := 0x3F.
Definition EFM32_DI_MSIZE_FLASH_OFST : Z := 0.
Definition EFM32_DI_MSIZE_SRAM_OFST : Z := 16.
Definition EFM32_DI_MSIZE_FLASH_MASK : Z := 0xFFFF.
Definition EFM32_DI_MSIZE_SRAM_MASK : Z := 0xFFFF.

(** Addresses of the members [PART] and [MSIZE] of [di_v1_t] .. [di_v4_t]:
    the base of the page plus four times the index of the word. *)
Definition di_PART (di_version : Z) : Z :=
  if di_version =? 1 then EFM32_DI_V1 + 4 * 19
  else if di_version =? 2 then EFM32_DI_V2 + 4 * 21
  else if di_version =? 3 then EFM32_DI_V3 + 4 * 19
  else if di_version =? 4 then EFM32_DI_V4 + 4 * 1
  else 0.

Definition di_MSIZE (di_version : Z) : Z :=
  if di_version =? 1 then EFM32_DI_V1 + 4 * 18
  else if di_version =? 2 then EFM32_DI_V2 + 4 * 20
  else if di_version =? 3 then EFM32_DI_V3 + 4 * 18
  else if di_version =? 4 then EFM32_DI_V4 + 4 * 3
  else 0.

Definition EFM32_UNKNOWN_FAMILY : Z := 9999.

Record efm32_device_t : Type := mkDev {
  family_id : Z;
  di_version : Z;
  name : string;
  flash_page_size : Z;
  msc_addr : Z;
  has_radio : bool;
  user_data_size : Z;
  bootloader_size : Z;
  description : string
}.

Definition efm32_devices : list efm32_device_t :=
  [mkDev 71 1 "EFM32G" 512 0x400c0000 false 512 0 "Gecko";
   mkDev 72 1 "EFM32GG" 2048 0x400c0000 false 4096 0 "Giant Gecko";
   mkDev 73 1 "EFM32TG" 512 0x400c0000 false 512 0 "Tiny Gecko";
   mkDev 74 1 "EFM32LG" 2048 0x400c0000 false 2048 0 "Leopard Gecko";
   mkDev 75 1 "EFM32WG" 2048 0x400c0000 false 2048 0 "Wonder Gecko";
   mkDev 76 1 "EFM32ZG" 1024 0x400c0000 false 1024 0 "Zero Gecko";
   mkDev 77 1 "EFM32HG" 1024 0x400c0000 false 1024 0 "Happy Gecko";
   mkDev 120 2 "EZR32WG" 2048 0x400c0000 true 2048 0 "EZR Wonder Gecko";
   mkDev 121 2 "EZR32LG" 2048 0x400c0000 true 2048 0 "EZR Leopard Gecko";
   mkDev 122 2 "EZR32HG" 1024 0x400c0000 true 1024 0 "EZR Happy Gecko";
   mkDev 81 3 "EFM32PG1B" 2048 0x400e0000 false 2048 10240 "Pearl Gecko";
   mkDev 83 3 "EFM32JG1B" 2048 0x400e0000 false 2048 10240 "Jade Gecko";
   mkDev 85 3 "EFM32PG12B" 2048 0x400e0000 false 2048 32768 "Pearl Gecko 12";
   mkDev 87 3 "EFM32JG12B" 2048 0x400e0000 false 2048 32768 "Jade Gecko 12";
   mkDev 100 3 "EFM32GG11B" 4096 0x40000000 false 4096 32768 "Giant Gecko 11";
   mkDev 103 3 "EFM32TG11B" 2048 0x40000000 false 2048 18432 "Tiny Gecko 11";
   mkDev 106 3 "EFM32GG12B" 2048 0x40000000 false 2048 32768 "Giant Gecko 12";
   mkDev 16 3 "EFR32MG1P" 2048 0x400e0000 true 2048 10240 "Mighty Gecko";
   mkDev 17 3 "EFR32MG1B" 2048 0x400e0000 true 2048 10240 "Mighty Gecko";
   mkDev 18 3 "EFR32MG1V" 2048 0x400e0000 true 2048 10240 "Mighty Gecko";
   mkDev 19 3 "EFR32BG1P" 2048 0x400e0000 true 2048 10240 "Blue Gecko";
   mkDev 20 3 "EFR32BG1B" 2048 0x400e0000 true 2048 10240 "Blue Gecko";
   mkDev 21 3 "EFR32BG1V" 2048 0x400e0000 true 2048 10240 "Blue Gecko";
   mkDev 25 3 "EFR32FG1P" 2048 0x400e0000 true 2048 10240 "Flex Gecko";
   mkDev 26 3 "EFR32FG1B" 2048 0x400e0000 true 2048 10240 "Flex Gecko";
   mkDev 27 3 "EFR32FG1V" 2048 0x400e0000 true 2048 10240 "Flex Gecko";
   mkDev 28 3 "EFR32MG12P" 2048 0x400e0000 true 2048 32768 "Mighty Gecko";
   mkDev 29 3 "EFR32MG12B" 2048 0x400e0000 true 2048 32768 "Mighty Gecko";
   mkDev 30 3 "EFR32MG12V" 2048 0x400e0000 true 2048 32768 "Mighty Gecko";
   mkDev 31 3 "EFR32BG12P" 2048 0x400e0000 true 2048 32768 "Blue Gecko";
   mkDev 32 3 "EFR32BG12B" 2048 0x400e0000 true 2048 32768 "Blue Gecko";
   mkDev 33 3 "EFR32BG12V" 2048 0x400e0000 true 2048 32768 "Blue Gecko";
   mkDev 37 3 "EFR32FG12P" 2048 0x400e0000 true 2048 32768 "Flex Gecko";
   mkDev 38 3 "EFR32FG12B" 2048 0x400e0000 true 2048 32768 "Flex Gecko";
   mkDev 39 3 "EFR32FG12V" 2048 0x400e0000 true 2048 32768 "Flex Gecko";
   mkDev 40 3 "EFR32MG13P" 2048 0x400e0000 true 2048 16384 "Mighty Gecko";
   mkDev 41 3 "EFR32MG13B" 2048 0x400e0000 true 2048 16384 "Mighty Gecko";
   mkDev 42 3 "EFR32MG13V" 2048 0x400e0000 true 2048 16384 "Mighty Gecko";
   mkDev 43 3 "EFR32BG13P" 2048 0x400e0000 true 2048 16384 "Blue Gecko";
   mkDev 44 3 "EFR32BG13B" 2048 0x400e0000 true 2048 16384 "Blue Gecko";
   mkDev 45 3 "EFR32BG13V" 2048 0x400e0000 true 2048 16384 "Blue Gecko";
   mkDev 45 3 "EFR32ZG13P" 2048 0x400e0000 true 2048 16384 "Zero Gecko";
   mkDev 49 3 "EFR32FG13P" 2048 0x400e0000 true 2048 16384 "Flex Gecko";
   mkDev 50 3 "EFR32FG13B" 2048 0x400e0000 true 2048 16384 "Flex Gecko";
   mkDev 51 3 "EFR32FG13V" 2048 0x400e0000 true 2048 16384 "Flex Gecko";
   mkDev 52 3 "EFR32MG14P" 2048 0x400e0000 true 2048 16384 "Mighty Gecko";
   mkDev 53 3 "EFR32MG14B" 2048 0x400e0000 true 2048 16384 "Mighty Gecko";
   mkDev 54 3 "EFR32MG14V" 2048 0x400e0000 true 2048 16384 "Mighty Gecko";
   mkDev 55 3 "EFR32BG14P" 2048 0x400e0000 true 2048 16384 "Blue Gecko";
   mkDev 56 3 "EFR32BG14B" 2048 0x400e0000 true 2048 16384 "Blue Gecko";
   mkDev 57 3 "EFR32BG14V" 2048 0x400e0000 true 2048 16384 "Blue Gecko";
   mkDev 58 3 "EFR32ZG14P" 2048 0x400e0000 true 2048 16384 "Zero Gecko";
   mkDev 61 3 "EFR32FG14P" 2048 0x400e0000 true 2048 16384 "Flex Gecko";
   mkDev 62 3 "EFR32FG14B" 2048 0x400e0000 true 2048 16384 "Flex Gecko";
   mkDev 63 3 "EFR32FG14V" 2048 0x400e0000 true 2048 16384 "Flex Gecko";
   mkDev 128 4 "EFR32xG21" 8192 0x40030000 true 1024 0 "Flex Gecko";
   mkDev 129 4 "EFR32xG21" 8192 0x40030000 true 1024 0 "Mighty Gecko";
   mkDev 130 4 "EFR32xG21" 8192 0x40030000 true 1024 0 "Blue Gecko";
   mkDev 221 4 "EFR32xG22" 8192 0x40030000 true 1024 0 "Flex Gecko";
   mkDev 222 4 "EFR32xG22" 8192 0x40030000 true 1024 0 "Mighty Gecko";
   mkDev 223 4 "EFR32xG22" 8192 0x40030000 true 1024 0 "Blue Gecko"].

Definition efm32_devices_nb : Z := Z.of_nat (length efm32_devices).

Definition efm32_get_device (index : Z) : option efm32_device_t :=
  if index >=? efm32_devices_nb then None
  else nth_error efm32_devices (Z.to_nat index).

(** The search loop of [efm32_lookup_device_index], from row [i] on. *)
Fixpoint family_search (rows : list efm32_device_t) (i part_family : Z) : Z :=
  match rows with
  | [] => EFM32_UNKNOWN_FAMILY
  | d :: rest =>
      if family_id d =? part_family then i
      else family_search rest (i + 1) part_family
  end.

(** A target: the first four bytes of the driver string printed by
    [efm32_probe] (the text after them is not modelled). *)
Record target : Type := mkTarget { driver : list Z }.

Record target_flash : Type := mkFlash {
  f_t : target;
  f_start : Z;
  f_length : Z;
  f_blocksize : Z
}.

Section Efm32.

Variable env : world -> call -> Z.

Definition target_mem_read32 (addr : Z) : M Z :=
  extcall env (TargetMemRead32 addr).

Definition target_mem_write32 (addr value : Z) : M Z :=
  extcall env (TargetMemWrite32 addr value).

Definition target_check_error : M bool :=
  (r <- extcall env TargetCheckError ;; ret (negb (r =? 0)))%M.

Definition efm32_read_flash_size (di_version : Z) : M Z :=
  let addr := di_MSIZE di_version in
  if negb (addr =? 0) then
    (v <- target_mem_read32 addr ;;
     ret (u16 (Z.land (Z.shiftr v EFM32_DI_MSIZE_FLASH_OFST)
                 EFM32_DI_MSIZE_FLASH_MASK)))%M
  else ret 0.

Definition efm32_read_ram_size (di_version : Z) : M Z :=
  let addr := di_MSIZE di_version in
  if negb (addr =? 0) then
    (v <- target_mem_read32 addr ;;
     ret (u16 (Z.land (Z.shiftr v EFM32_DI_MSIZE_SRAM_OFST)
                 EFM32_DI_MSIZE_SRAM_MASK)))%M
  else ret 0.

Definition efm32_read_part_number (di_version : Z) : M Z :=
  let addr := di_PART di_version in
  if negb (addr =? 0) then
    (v <- target_mem_read32 addr ;;
     ret (u16 (Z.land (Z.shiftr v EFM32_DI_PART_NUMBER_OFST)
                 EFM32_DI_PART_NUMBER_MASK)))%M
  else ret 0.

Definition efm32_read_part_family (di_version : Z) : M Z :=
  if (di_version =? 1) || (di_version =? 2) || (di_version =? 3) then
    (reg <- target_mem_read32 (di_PART di_version) ;;
     ret (u8 (Z.land (Z.shiftr reg EFM32_DI_PART_FAMILY_OFST)
                EFM32_DI_PART_FAMILY_MASK)))%M
  else if di_version =? 4 then
    (reg <- target_mem_read32 (di_PART di_version) ;;
     let part :=
       u8 (Z.land (Z.shiftr reg EFM32_DI_V4_PART_FAMILYNUM_OFST)
             EFM32_DI_V4_PART_FAMILYNUM_MASK) in
     ret (u8 (part + u8 (Z.land (Z.shiftr reg EFM32_DI_V4_PART_FAMILY_OFST)
                           EFM32_DI_V4_PART_FAMILY_MASK))))%M
  else ret 0.

Definition efm32_lookup_device_index (di_version : Z) : M Z :=
  (part_family <- efm32_read_part_family di_version ;;
   ret (family_search efm32_devices 0 part_family))%M.

Definition efm32_add_flash (addr length page_size : Z) : M unit :=
  (f <- extcall env Malloc ;;
   if f =? 0 then ret tt
   else _ <- extcall env (TargetAddFlash addr length page_size) ;; ret tt)%M.

(** [efm32_probe] once the schema [di_version] is chosen. *)
Definition efm32_probe_di (di_version : Z) : M (option target) :=
  (device_index <- efm32_lookup_device_index di_version ;;
   if device_index =? EFM32_UNKNOWN_FAMILY then ret None
   else
     match efm32_get_device device_index with
     | None => ret None
     | Some device =>
         part_number <- efm32_read_part_number di_version ;;
         flash_kib <- efm32_read_flash_size di_version ;;
         let flash_size := u32 (flash_kib * 0x400) in
         ram_kib <- efm32_read_ram_size di_version ;;
         let ram_size := u32 (ram_kib * 0x400) in
         let flash_page_size := flash_page_size device in
         let variant_string :=
           [u8 (di_version + 48); 8; u8 (u8 device_index + 32); 8] in
         _ <- extcall env TcPrintf ;;
         _ <- extcall env (TargetAddRam SRAM_BASE ram_size) ;;
         _ <- efm32_add_flash 0x00000000 flash_size flash_page_size ;;
         _ <- (if negb (user_data_size device =? 0)
               then efm32_add_flash EFM32_USER_DATA (user_data_size device)
                      flash_page_size
               else ret tt) ;;
         _ <- (if negb (bootloader_size device =? 0)
               then efm32_add_flash EFM32_BOOTLOADER (bootloader_size device)
                      flash_page_size
               else ret tt) ;;
         _ <- extcall env (TargetAddCommands efm32_cmd_list) ;;
         ret (Some (mkTarget variant_string))
     end)%M.

(** [ap_idcode] is [cortexm_ap(t)->dp->idcode]; the result is the target
    as set up when the C function returns [true], [None] when it returns
    [false]. *)
Definition efm32_probe (ap_idcode : Z) : M (option target) :=
  if ap_idcode =? 0x2BA01477 then efm32_probe_di 3
  else if ap_idcode =? 0x0BC11477 then efm32_probe_di 2
  else if ap_idcode =? 0x6BA02477 then efm32_probe_di 4
  else ret None.

(** The poll [while (STATUS & BUSY) if (target_check_error(t)) return -1;]
    of [efm32_flash_erase]; the result tells whether the error check
    aborted it. *)
Fixpoint msc_poll_busy (fuel : nat) (msc : Z) : F bool :=
  match fuel with
  | O => fun _ => None
  | S fuel' =>
      (st <- liftF (target_mem_read32 (EFM32_MSC_STATUS msc)) ;;
       if negb (Z.land st EFM32_MSC_STATUS_BUSY =? 0) then
         err <- liftF target_check_error ;;
         if err then retF true else msc_poll_busy fuel' msc
       else retF false)%F
  end.

(** The loop [while (len)] of [efm32_flash_erase]. *)
Fixpoint erase_loop (fuel : nat) (msc blocksize addr len : Z) : F Z :=
  match fuel with
  | O => fun _ => None
  | S fuel' =>
      if len =? 0 then retF 0
      else
        (_ <- liftF (target_mem_write32 (EFM32_MSC_ADDRB msc) addr) ;;
         _ <- liftF (target_mem_write32 (EFM32_MSC_WRITECMD msc)
                       EFM32_MSC_WRITECMD_LADDRIM) ;;
         _ <- liftF (target_mem_write32 (EFM32_MSC_WRITECMD msc)
                       EFM32_MSC_WRITECMD_ERASEPAGE) ;;
         aborted <- msc_poll_busy fuel' msc ;;
         if aborted then retF (-1)
         else
           erase_loop fuel' msc blocksize (u32 (addr + blocksize))
             (if len >? blocksize then len - blocksize else 0))%F
  end.

Definition efm32_flash_erase (fuel : nat) (f : target_flash) (addr len : Z)
  : F Z :=
  let t := f_t f in
  match efm32_get_device (usize (nth 2 (driver t) 0 - 32)) with
  | None => retF 1
  | Some device =>
      let msc := msc_addr device in
      (_ <- liftF (target_mem_write32 (EFM32_MSC_LOCK msc)
                     EFM32_MSC_LOCK_LOCKKEY) ;;
       _ <- liftF (target_mem_write32 (EFM32_MSC_WRITECTRL msc) 1) ;;
       erase_loop fuel msc (f_blocksize f) addr len)%F
  end.

End Efm32.

(** The events of the loop of a read: DRW reads and TAR writes. *)
Definition body_event (e : event) : Prop :=
  is_drw_read e = true \/ is_tar_write e = true.

(** The addresses written to TAR in a log. *)
Definition tar_writes (evs : list event) : list Z :=
  flat_map
    (fun e =>
       match ev_call e with
       | LowAccess rnw addr v =>
           if (rnw =? ADIV5_LOW_WRITE) && (addr =? ADIV5_AP_TAR)
           then [v] else []
       | _ => []
       end) evs.

(** Events of the debug-port transport: register accesses and the error
    query.  No probe, allocation or target call is among them. *)
Definition transport_only (e : event) : bool :=
  match ev_call e with
  | LowAccess _ _ _ | DpError => true
  | _ => false
  end.

(** Any event but a forced Cortex-M probe. *)
Definition not_forced (e : event) : bool :=
  match ev_call e with
  | CortexmProbe _ true => false
  | _ => true
  end.

(** The access ports on which a forced Cortex-M probe was run, in the
    order of the log. *)
Definition forced_probes (w : world) : list Z :=
  flat_map
    (fun e =>
       match ev_call e with
       | CortexmProbe a true => [a]
       | _ => []
       end) w.

(** The access ports whose IDR is read in a log, in order: for each read
    of IDR the top byte of the value that SELECT holds, [sel] before the
    first write to SELECT. *)
Fixpoint idr_reads_from (sel : Z) (evs : list event) : list Z :=
  match evs with
  | [] => []
  | e :: rest =>
      match ev_call e with
      | LowAccess rnw addr v =>
          if (rnw =? ADIV5_LOW_WRITE) && (addr =? ADIV5_DP_SELECT)
          then idr_reads_from v rest
          else idr_reads_from sel rest
      | DpRead addr =>
          if addr =? ADIV5_AP_IDR
          then Z.shiftr sel 24 :: idr_reads_from sel rest
          else idr_reads_from sel rest
      | _ => idr_reads_from sel rest
      end
  end.

(** The same from the start of a log, SELECT holding 0. *)
Definition ap_idr_reads (w : world) : list Z := idr_reads_from 0 w.

(** The value that SELECT holds after a log. *)
Fixpoint select_from (sel : Z) (evs : list event) : Z :=
  match evs with
  | [] => sel
  | e :: rest =>
      match ev_call e with
      | LowAccess rnw addr v =>
          if (rnw =? ADIV5_LOW_WRITE) && (addr =? ADIV5_DP_SELECT)
          then select_from v rest
          else select_from sel rest
      | _ => select_from sel rest
      end
  end.

(** Any event but a read of IDR. *)
Definition no_idr (e : event) : bool :=
  match ev_call e with
  | DpRead addr => negb (addr =? ADIV5_AP_IDR)
  | _ => true
  end.

(** The identification registers read by [adiv5_component_probe] at the
    component [a]: PIDR4..7, PIDR0..3, CIDR0..3, in this order. *)
Definition id_reg_addrs (a : Z) : list Z :=
  map (fun off => u32 (a + off))
    [0xFD0; 0xFD4; 0xFD8; 0xFDC; 0xFE0; 0xFE4; 0xFE8; 0xFEC;
     0xFF0; 0xFF4; 0xFF8; 0xFFC].

(** ** Mock hardware *)

(** The value last written to register [reg] through [low_access]
    (0 before the first write). *)
Definition last_write (reg : Z) (w : world) : Z :=
  fold_left
    (fun acc e =>
       match ev_call e with
       | LowAccess rnw addr v =>
           if (rnw =? ADIV5_LOW_WRITE) && (addr =? reg) then v else acc
       | _ => acc
       end) w 0.

(** A debug port with a fixed set of access ports and a fixed memory
    image behind them: IDR and BASE are functions of the selected AP, a
    read of RDBUFF returns the word at the address last written to TAR.
    No access faults, allocation succeeds, the other calls return 0. *)
Record device : Type := mkDevice {
  dev_idr : Z -> Z;
  dev_base : Z -> Z;
  dev_mem : Z -> Z
}.

Definition env_dev (d : device) : world -> call -> Z :=
  fun w c =>
    match c with
    | LowAccess rnw addr _ =>
        if (rnw =? ADIV5_LOW_READ) && (addr =? ADIV5_DP_RDBUFF)
        then dev_mem d (last_write ADIV5_AP_TAR w) else 0
    | DpRead addr =>
        let sel := Z.shiftr (last_write ADIV5_DP_SELECT w) 24 in
        if addr =? ADIV5_AP_IDR then dev_idr d sel
        else if addr =? ADIV5_AP_BASE then dev_base d sel
        else 0
    | Malloc => 1
    | _ => 0
    end.

(** The 32-bit id assembled from the low bytes of four words of a memory
    image, as [adiv5_ap_read_id] assembles it. *)
Definition image_id (mem : Z -> Z) (addr : Z) : Z :=
  fold_left
    (fun res i =>
       Z.lor res
         (u32 (Z.shiftl (Z.land (u32 (mem (u32 (addr + 4 * i)))) 0xff)
                 (i * 8))))
    [0; 1; 2; 3] 0.

(** The ROM tables of a memory image nest at most [d] deep below [addr]:
    a component that is no ROM table has depth 0; a table has depth
    [d + 1] when every present entry before the first zero entry, among
    the first 960, leads to a component of depth [d]. *)
Fixpoint rom_entries_ok (chk : Z -> bool) (mem : Z -> Z) (n : nat)
    (addr i : Z) : bool :=
  match n with
  | O => true
  | S n' =>
      let entry := u32 (mem (u32 (addr + i * 4))) in
      if entry =? 0 then true
      else if Z.land entry ADIV5_ROM_ROMENTRY_PRESENT =? 0
      then rom_entries_ok chk mem n' addr (i + 1)
      else chk (u32 (addr + Z.land entry ADIV5_ROM_ROMENTRY_OFFSET))
           && rom_entries_ok chk mem n' addr (i + 1)
  end.

Definition is_rom_table (mem : Z -> Z) (addr : Z) : bool :=
  let cidr := image_id mem (u32 (addr + CIDR0_OFFSET)) in
  (Z.land cidr (Z.lnot CID_CLASS_MASK) =? CID_PREAMBLE)
  && (Z.shiftr (Z.land cidr CID_CLASS_MASK) CID_CLASS_SHIFT =? cidc_romtab).

Fixpoint rom_nesting_ok (mem : Z -> Z) (d : nat) (addr : Z) : bool :=
  let addr := Z.land addr (Z.lnot 3) in
  if is_rom_table mem addr then
    match d with
    | O => false
    | S d' => rom_entries_ok (rom_nesting_ok mem d') mem 960 addr 0
    end
  else true.

(** The addresses of the entries that the scan of a ROM table of a
    memory image reads: one per entry, up to and including the first
    zero entry, and at most [n].  When no entry is followed, nothing
    else is written to TAR during the scan. *)
Fixpoint flat_scan_addrs (mem : Z -> Z) (n : nat) (addr i : Z) : list Z :=
  match n with
  | O => []
  | S n' =>
      u32 (addr + i * 4)
        :: (if u32 (mem (u32 (addr + i * 4))) =? 0 then []
            else flat_scan_addrs mem n' addr (i + 1))
  end.

(** Entry [i] of the ROM table at [a] of a memory image. *)
Definition rom_entry (mem : Z -> Z) (a i : Z) : Z :=
  u32 (mem (u32 (a + i * 4))).

(** The log of the scan of the ROM table at [a] of the memory image of
    [d], from entry [i] on with [n] entries left, starting on the log
    [w]; [reads] are the addresses of the entries read, [res] is the
    result so far and [res'] the result of the scan.  Each entry costs
    one word read [rd] and one error query.  The scan ends with the
    entry that reads 0 or when no entry is left; an entry that is not
    present is passed over; a present entry is followed, the log [child]
    being that of the walk of the component it leads to, run with
    [fuel]. *)
Inductive scan_log (d : device) (fuel : nat) (ap : ADIv5_AP_t)
    (a recursion : Z)
  : nat -> Z -> world -> list event -> list Z -> bool -> bool -> Prop :=
| sl_cap i w res :
    scan_log d fuel ap a recursion O i w [] [] res res
| sl_zero n i w rd res :
    tar_writes rd = [u32 (a + i * 4)] ->
    forallb transport_only rd = true ->
    rom_entry (dev_mem d) a i = 0 ->
    scan_log d fuel ap a recursion (S n) i w (rd ++ [Ev DpError 0])
      [u32 (a + i * 4)] res res
| sl_absent n i w rd rest reads res res' :
    tar_writes rd = [u32 (a + i * 4)] ->
    forallb transport_only rd = true ->
    rom_entry (dev_mem d) a i <> 0 ->
    Z.land (rom_entry (dev_mem d) a i) ADIV5_ROM_ROMENTRY_PRESENT = 0 ->
    scan_log d fuel ap a recursion n (i + 1)
      (w ++ rd ++ [Ev DpError 0]) rest reads res res' ->
    scan_log d fuel ap a recursion (S n) i w
      (rd ++ Ev DpError 0 :: rest) (u32 (a + i * 4) :: reads) res res'
| sl_follow n i w rd child r rest reads res res' :
    tar_writes rd = [u32 (a + i * 4)] ->
    forallb transport_only rd = true ->
    rom_entry (dev_mem d) a i <> 0 ->
    Z.land (rom_entry (dev_mem d) a i) ADIV5_ROM_ROMENTRY_PRESENT <> 0 ->
    adiv5_component_probe (env_dev d) fuel ap
      (u32 (a + Z.land (rom_entry (dev_mem d) a i)
                  ADIV5_ROM_ROMENTRY_OFFSET))
      (recursion + 1) i (w ++ rd ++ [Ev DpError 0])
    = Some (r, (w ++ rd ++ [Ev DpError 0]) ++ child) ->
    scan_log d fuel ap a recursion n (i + 1)
      ((w ++ rd ++ [Ev DpError 0]) ++ child) rest reads (res || r) res' ->
    scan_log d fuel ap a recursion (S n) i w
      (rd ++ Ev DpError 0 :: child ++ rest) (u32 (a + i * 4) :: reads)
      res res'.

(** A ROM table at 0xE00FF000 whose first entry is present and has offset
    0: it points back at the table itself. *)
Definition selfref_mem (addr : Z) : Z :=
  if addr =? 0xE00FF000 then 0x00000003
  else if addr =? 0xE00FFFF0 then 0x0D
  else if addr =? 0xE00FFFF4 then 0x10
  else if addr =? 0xE00FFFF8 then 0x05
  else if addr =? 0xE00FFFFC then 0xB1
  else 0.

Definition selfref_dev : device :=
  mkDevice (fun _ => 0x24770011) (fun _ => 0xE00FF003) selfref_mem.

(** A ROM table at 0xE00FF000 with one absent entry and then the zero
    entry. *)
Definition flat_mem (addr : Z) : Z :=
  if addr =? 0xE00FF000 then 0x00001002
  else if addr =? 0xE00FFFF0 then 0x0D
  else if addr =? 0xE00FFFF4 then 0x10
  else if addr =? 0xE00FFFF8 then 0x05
  else if addr =? 0xE00FFFFC then 0xB1
  else 0.

Definition flat_dev : device :=
  mkDevice (fun _ => 0x24770011) (fun _ => 0xE00FF003) flat_mem.

(** Scenario S1 of the spec: a component at 0xE00FF000 whose CIDR3 reads
    0xA1 instead of 0xB1. *)
Definition s1_mem (addr : Z) : Z :=
  if addr =? 0xE00FFFF0 then 0x0D
  else if addr =? 0xE00FFFF4 then 0x00
  else if addr =? 0xE00FFFF8 then 0x05
  else if addr =? 0xE00FFFFC then 0xA1
  else 0.

Definition s1_dev : device :=
  mkDevice (fun _ => 0x24770011) (fun _ => 0xE00FF003) s1_mem.

(** Scenario S2 of the spec: a ROM table at 0x80000000 whose entry 0
    points 0x1000 further, at a Cortex-M3 SCS. *)
Definition s2_mem (addr : Z) : Z :=
  if addr =? 0x80000000 then 0x00001003
  else if addr =? 0x80000FF0 then 0x0D
  else if addr =? 0x80000FF4 then 0x10
  else if addr =? 0x80000FF8 then 0x05
  else if addr =? 0x80000FFC then 0xB1
  else if addr =? 0x80001FD0 then 0x04
  else if addr =? 0x80001FE0 then 0x00
  else if addr =? 0x80001FE4 then 0xB0
  else if addr =? 0x80001FE8 then 0x0B
  else if addr =? 0x80001FF0 then 0x0D
  else if addr =? 0x80001FF4 then 0x90
  else if addr =? 0x80001FF8 then 0x05
  else if addr =? 0x80001FFC then 0xB1
  else 0.

Definition s2_dev : device :=
  mkDevice (fun _ => 0x24770011) (fun _ => 0x80000003) s2_mem.

Definition ap_s2 : ADIv5_AP_t := mkAP 0 0x24770011 0x80000003 0 0x23000040.

(** ** The report of the AP scan, read without the hardware *)

(** [scan_rel idc n i last_base void_aps probed entries]: the entries that
    the scan can report from the loop state [(i, last_base, void_aps,
    probed)] with [n] values of [i] left; [idc] tells whether the low 12
    bits of the DP's IDCODE are 0x477. *)
Inductive scan_rel (idc : bool)
  : nat -> Z -> Z -> Z -> bool -> list ap_outcome -> Prop :=
| sr_range i lb va p :
    scan_rel idc O i lb va p []
| sr_void n i lb va p :
    8 <= va -> scan_rel idc (S n) i lb va p []
| sr_absent0 n lb va p :
    va < 8 -> scan_rel idc (S n) 0 lb va p [ApAbsent]
| sr_absent n i lb va p rest :
    va < 8 -> i <> 0 ->
    scan_rel idc n (i + 1) lb (va + 1) p rest ->
    scan_rel idc (S n) i lb va p (ApAbsent :: rest)
| sr_duplicate n i lb va p :
    va < 8 -> scan_rel idc (S n) i lb va p [ApDuplicate lb]
| sr_nodebug n i lb va p b rest :
    va < 8 -> b <> lb ->
    scan_rel idc n (i + 1) b va p rest ->
    scan_rel idc (S n) i lb va p (ApNoDebug b :: rest)
| sr_mem n i lb va p b found rest :
    va < 8 -> b <> lb ->
    scan_rel idc n (i + 1) b va
      (p || found || (negb (p || found) && idc)) rest ->
    scan_rel idc (S n) i lb va p
      (ApMem b found (negb (p || found) && idc) :: rest).

(** The access ports reported as force-probed, [i] being the [apsel] of
    the first entry. *)
Fixpoint forced_apsels (i : Z) (l : list ap_outcome) : list Z :=
  match l with
  | [] => []
  | ApMem _ _ true :: rest => u8 i :: forced_apsels (i + 1) rest
  | _ :: rest => forced_apsels (i + 1) rest
  end.

Definition is_absent (e : ap_outcome) : bool :=
  match e with ApAbsent => true | _ => false end.

Definition is_duplicate (e : ap_outcome) : bool :=
  match e with ApDuplicate _ => true | _ => false end.

Definition count_absent (l : list ap_outcome) : nat :=
  length (filter is_absent l).

(** The BASE that the scan remembers after the entries [l]: that of the
    access port created last, 0 when none was. *)
Definition last_base_of (l : list ap_outcome) : Z :=
  fold_left
    (fun lb e =>
       match e with
       | ApNoDebug b | ApMem b _ _ => b
       | _ => lb
       end) l 0.

(** The scan ends after the entries [l]: all 256 access ports were
    examined, or the last one duplicates the remembered BASE, or access
    port 0 is absent, or eight absent access ports were seen in all. *)
Definition stops_after (l : list ap_outcome) : bool :=
  (256 <=? length l)%nat
  || is_duplicate (last l ApAbsent)
  || match l with [ApAbsent] => true | _ => false end
  || (8 <=? count_absent l)%nat.

(** The stop rule as the specification words it: eight absent access
    ports in a row. *)
Definition spec_stops_after (l : list ap_outcome) : bool :=
  (256 <=? length l)%nat
  || is_duplicate (last l ApAbsent)
  || match l with [ApAbsent] => true | _ => false end
  || ((8 <=? length l)%nat && forallb is_absent (skipn (length l - 8) l)).

(** Some entry of [l] reports a component found or a forced probe. *)
Definition probed_in (l : list ap_outcome) : bool :=
  existsb
    (fun e => match e with ApMem _ found forced => found || forced
                      | _ => false end) l.

(** What the report says of one access port, given the entries [pre]
    before it: a duplicate has the remembered BASE, a created access port
    has another one, and a MEM-AP is force-probed exactly when nothing
    was found on it, the IDCODE matches ([idc]) and no earlier entry
    reports a component or a forced probe. *)
Definition entry_ok (idc : bool) (pre : list ap_outcome) (e : ap_outcome)
  : Prop :=
  match e with
  | ApAbsent => True
  | ApDuplicate b => b = last_base_of pre
  | ApNoDebug b => b <> last_base_of pre
  | ApMem b found forced =>
      b <> last_base_of pre
      /\ forced = negb found && idc && negb (probed_in pre)
  end.

(** No proper prefix of the report is the end of a scan, and every entry
    is as [entry_ok] says. *)
Definition report_ok (idc : bool) (l : list ap_outcome) : Prop :=
  (forall k, (0 < k < length l)%nat -> stops_after (firstn k l) = false)
  /\ (forall k e, nth_error l k = Some e -> entry_ok idc (firstn k l) e).

(** Two MEM-APs with distinct BASE and nothing behind them, then nothing. *)
Definition two_ap_dev : device :=
  mkDevice (fun a => if a <? 2 then 0x24770011 else 0)
    (fun a => if a =? 0 then 0xE00FF003 else 0xE00FE003) (fun _ => 0).

(** Access ports at the even [apsel] only, each with its own BASE and no
    debug entries. *)
Definition alternating_dev : device :=
  mkDevice (fun a => if Z.even a then 0x24770011 else 0)
    (fun a => Z.shiftl (a + 1) 12) (fun _ => 0).

Definition dp_477 : ADIv5_DP_t := mkDP 0x0BA01477 0x0BA01477 0.

(** The scans of the two mock debug ports, evaluated. *)
Definition two_ap_log : list ap_outcome :=
  Eval vm_compute in
    match dp_init_ap_scan (env_dev two_ap_dev) 2 dp_477 [] with
    | Some (l, _) => l
    | None => []
    end.

Definition two_ap_world : world :=
  Eval vm_compute in
    match dp_init_ap_scan (env_dev two_ap_dev) 2 dp_477 [] with
    | Some (_, w) => w
    | None => []
    end.

Definition alternating_log : list ap_outcome :=
  Eval vm_compute in
    match dp_init_ap_scan (env_dev alternating_dev) 1 dp_477 [] with
    | Some (l, _) => l
    | None => []
    end.

Definition alternating_world : world :=
  Eval vm_compute in
    match dp_init_ap_scan (env_dev alternating_dev) 1 dp_477 [] with
    | Some (_, w) => w
    | None => []
    end.

(** One MEM-AP, at [apsel] 0, whose BASE register reads 0. *)
Definition base0_dev : device :=
  mkDevice (fun a => if a =? 0 then 0x24770011 else 0) (fun _ => 0)
    (fun _ => 0).

Definition base0_world : world :=
  Eval vm_compute in
    match dp_init_ap_scan (env_dev base0_dev) 1 dp_477 [] with
    | Some (_, w) => w
    | None => []
    end.

(** The BASE of a reported access port, when it was created. *)
Definition entry_base (e : ap_outcome) : option Z :=
  match e with
  | ApAbsent => None
  | ApDuplicate b | ApNoDebug b | ApMem b _ _ => Some b
  end.

(** The duplicate rule as the specification words it: the last access
    port was created, and so was the one immediately before it, with the
    same BASE. *)
Definition spec_duplicate (l : list ap_outcome) : bool :=
  match rev l with
  | e :: e' :: _ =>
      match entry_base e, entry_base e' with
      | Some b, Some b' => b =? b'
      | _, _ => false
      end
  | _ => false
  end.

(** ** The AAP erase command, read on the log *)

(** The value written to SELECT before an access to the AP register
    [addr]. *)
Definition ap_select (ap : ADIv5_AP_t) (addr : Z) : Z :=
  Z.lor (u32 (Z.shiftl (apsel ap) 24)) (Z.land addr 0xF0).

Definition aap_status_read_calls (ap : ADIv5_AP_t) : list call :=
  [LowAccess ADIV5_LOW_WRITE ADIV5_DP_SELECT (ap_select ap AAP_STATUS);
   DpRead AAP_STATUS].

Definition aap_erase_write_calls (ap : ADIv5_AP_t) : list call :=
  [LowAccess ADIV5_LOW_WRITE ADIV5_DP_SELECT (ap_select ap AAP_CMDKEY);
   LowAccess ADIV5_LOW_WRITE AAP_CMDKEY 0xCFACC118;
   LowAccess ADIV5_LOW_WRITE ADIV5_DP_SELECT (ap_select ap AAP_CMD);
   LowAccess ADIV5_LOW_WRITE AAP_CMD 1].

(** The log after [k] reads of the AAP status, and the status that the
    next read returns: what the hardware answers to a poll. *)
Fixpoint aap_poll_world (env : world -> call -> Z) (ap : ADIv5_AP_t)
    (k : nat) (w : world) : world :=
  match k with
  | O => w
  | S k' => aap_poll_world env ap k' (snd (adiv5_ap_read env ap AAP_STATUS w))
  end.

Definition aap_poll_status (env : world -> call -> Z) (ap : ADIv5_AP_t)
    (k : nat) (w : world) : Z :=
  fst (adiv5_ap_read env ap AAP_STATUS (aap_poll_world env ap k w)).

(** An AAP that is idle until the erase command is written and then
    reports ERASEBUSY for the next [n] reads of its status. *)
Definition env_aap (n : nat) : world -> call -> Z :=
  fun w c =>
    match c with
    | DpRead _ =>
        let polls :=
          length (filter (fun e => match ev_call e with
                                   | DpRead _ => true
                                   | _ => false
                                   end) w) in
        if ((1 <=? polls) && (polls <=? n))%nat then 1 else 0
    | _ => 0
    end.

Definition aap_ap : ADIv5_AP_t := mkAP 1 0x16E60001 0 0 0.

Definition aap_t : aap_target := mkAapTarget aap_ap 1 4.

(** ** The page erase, read on the log *)

(** The log of one busy poll of the MSC: reads of STATUS, each one that
    finds BUSY set followed by an error check; the poll ends with a read
    that finds BUSY clear, or is aborted ([true]) by an error check that
    reports an error. *)
Inductive poll_events (msc : Z) : list event -> bool -> Prop :=
| pe_clear st :
    Z.land st EFM32_MSC_STATUS_BUSY = 0 ->
    poll_events msc [Ev (TargetMemRead32 (EFM32_MSC_STATUS msc)) st] false
| pe_abort st e :
    Z.land st EFM32_MSC_STATUS_BUSY <> 0 -> e <> 0 ->
    poll_events msc
      [Ev (TargetMemRead32 (EFM32_MSC_STATUS msc)) st; Ev TargetCheckError e]
      true
| pe_busy st rest aborted :
    Z.land st EFM32_MSC_STATUS_BUSY <> 0 ->
    poll_events msc rest aborted ->
    poll_events msc
      (Ev (TargetMemRead32 (EFM32_MSC_STATUS msc)) st
         :: Ev TargetCheckError 0 :: rest)
      aborted.

(** The log of the erase of [len] bytes from [addr] in pages of [bs]
    bytes, and the value returned: for each page the writes
    ADDRB <- addr, WRITECMD <- 1, WRITECMD <- 2 and a busy poll; an aborted
    poll ends the erase with -1, the end of the range ends it with 0. *)
Inductive erase_events (msc bs : Z) : Z -> Z -> list event -> Z -> Prop :=
| ee_done addr :
    erase_events msc bs addr 0 [] 0
| ee_abort addr len r1 r2 r3 polls :
    len <> 0 ->
    poll_events msc polls true ->
    erase_events msc bs addr len
      (Ev (TargetMemWrite32 (EFM32_MSC_ADDRB msc) addr) r1
         :: Ev (TargetMemWrite32 (EFM32_MSC_WRITECMD msc) 1) r2
         :: Ev (TargetMemWrite32 (EFM32_MSC_WRITECMD msc) 2) r3
         :: polls)
      (-1)
| ee_page addr len r1 r2 r3 polls rest ret :
    len <> 0 ->
    poll_events msc polls false ->
    erase_events msc bs (u32 (addr + bs))
      (if len >? bs then len - bs else 0) rest ret ->
    erase_events msc bs addr len
      (Ev (TargetMemWrite32 (EFM32_MSC_ADDRB msc) addr) r1
         :: Ev (TargetMemWrite32 (EFM32_MSC_WRITECMD msc) 1) r2
         :: Ev (TargetMemWrite32 (EFM32_MSC_WRITECMD msc) 2) r3
         :: polls ++ rest)
      ret.

(** A target that answers 0 to everything: the MSC is never busy. *)
Definition env_idle : world -> call -> Z := fun _ _ => 0.

(** Scenario S4 of the spec: a Giant Gecko (row 1 of the device table,
    MSC at 0x400C0000) with pages of 2048 bytes. *)
Definition s4_flash : target_flash :=
  mkFlash (mkTarget [51; 8; 33; 8]) 0 0x100000 2048.

(** ** The EFM32 probe, read on the log *)

(** The schema that goes with an IDCODE, as the specification lists it. *)
Definition spec_di_version (ap_idcode : Z) : option Z :=
  if ap_idcode =? 0x2BA01477 then Some 3
  else if ap_idcode =? 0x0BC11477 then Some 2
  else if ap_idcode =? 0x6BA02477 then Some 4
  else None.

(** An event that is no read of target memory, or a read of the PART or
    MSIZE word of the schema [v]. *)
Definition di_reads_ok (v : Z) (e : event) : bool :=
  match ev_call e with
  | TargetMemRead32 a => (a =? di_PART v) || (a =? di_MSIZE v)
  | _ => true
  end.

(** A Pearl Gecko (family 81, schema 3) with 256 kiB of flash and 32 kiB
    of RAM; allocation succeeds. *)
Definition env_pearl : world -> call -> Z :=
  fun _ c =>
    match c with
    | TargetMemRead32 a =>
        if a =? 0x0FE081FC then Z.lor (Z.shiftl 81 16) 1
        else if a =? 0x0FE081F8 then Z.lor (Z.shiftl 32 16) 256
        else 0
    | Malloc => 1
    | _ => 0
    end.

(** ** The data of a write, read on the log *)

(** The values written to DRW in a log. *)
Definition drw_writes (evs : list event) : list Z :=
  flat_map
    (fun e =>
       match ev_call e with
       | LowAccess rnw addr v =>
           if (rnw =? ADIV5_LOW_WRITE) && (addr =? ADIV5_AP_DRW)
           then [v] else []
       | _ => []
       end) evs.

(** The [n] units of width [a] of the host buffer [ld], from offset [src]
    on, each packed into the data lane of its target address, the first
    one going to [dest]. *)
Fixpoint write_units (n : nat) (a : align) (ld : align -> Z -> Z)
    (dest src : Z) : list Z :=
  match n with
  | O => []
  | S n' =>
      pack a dest (ld a src)
        :: write_units n' a ld (u32 (dest + align_size a)) (src + align_size a)
  end.

(** A register write through [low_access]. *)
Definition is_low_write (e : event) : bool :=
  match ev_call e with
  | LowAccess rnw _ _ => rnw =? ADIV5_LOW_WRITE
  | _ => false
  end.

(** The width of a unit of alignment [a], cut from a host value. *)
Definition unit_of (a : align) (v : Z) : Z :=
  match a with
  | ALIGN_BYTE => u8 v
  | ALIGN_HALFWORD => u16 v
  | ALIGN_WORD | ALIGN_DWORD => u32 v
  end.

(** ** The head of a component probe *)

(** What [adiv5_component_probe] reads before it decides anything: PIDR,
    CIDR and the error state of the debug port, at the aligned address
    [a]. *)
Definition probe_ids (env : world -> call -> Z) (ap : ADIv5_AP_t) (a : Z)
  : M (Z * Z * Z) :=
  (pidr <- adiv5_ap_read_pidr env ap a ;;
   cidr <- adiv5_ap_read_id env ap (u32 (a + CIDR0_OFFSET)) ;;
   err <- adiv5_dp_error env ;;
   ret (pidr, cidr, err))%M.

(** The designer field of a PIDR is ARM's JEP-106 code. *)
Definition designer_is_arm (pidr : Z) : bool :=
  Z.land pidr (Z.lnot (Z.lor PIDR_REV_MASK PIDR_PN_MASK)) =? PIDR_ARM_BITS.

(** The part number of a PIDR has a row in [pidr_pn_bits]. *)
Definition part_known (pidr : Z) : bool :=
  match pn_find pidr_pn_bits (u16 (Z.land pidr PIDR_PN_MASK)) with
  | Some _ => true
  | None => false
  end.

(** ** The AP scan: vendor probes and the creation of access ports *)

(** The calls of the Kinetis and nRF51 MDM probes in a log. *)
Definition vendor_probes (w : world) : list call :=
  flat_map
    (fun e =>
       match ev_call e with
       | KinetisMdmProbe _ | Nrf51MdmProbe _ => [ev_call e]
       | _ => []
       end) w.

(** Any event but a call of a vendor MDM probe. *)
Definition not_vendor (e : event) : bool :=
  match ev_call e with
  | KinetisMdmProbe _ | Nrf51MdmProbe _ => false
  | _ => true
  end.

(** The vendor probes that go with a report: both of them, Kinetis first,
    on each access port that was created and is no duplicate; [i] is the
    [apsel] of the first entry. *)
Fixpoint vendor_calls_of (i : Z) (l : list ap_outcome) : list call :=
  match l with
  | [] => []
  | (ApNoDebug _ | ApMem _ _ _) :: rest =>
      KinetisMdmProbe (u8 i) :: Nrf51MdmProbe (u8 i)
        :: vendor_calls_of (i + 1) rest
  | _ :: rest => vendor_calls_of (i + 1) rest
  end.

(** The BASE of an entry agrees with what the scan did with the access
    port: discovery ran exactly when bit 0 (debug entry present) is set
    and BASE is not 0xFFFFFFFF. *)
Definition base_rule (e : ap_outcome) : Prop :=
  match e with
  | ApNoDebug b => Z.land b ADIV5_AP_BASE_PRESENT = 0 \/ b = 0xffffffff
  | ApMem b _ _ => Z.land b ADIV5_AP_BASE_PRESENT <> 0 /\ b <> 0xffffffff
  | _ => True
  end.

(** The events of [adiv5_new_ap]: writes of SELECT, reads through the
    debug port, and the allocation. *)
Definition new_ap_event (e : event) : bool :=
  match ev_call e with
  | LowAccess rnw addr _ =>
      (rnw =? ADIV5_LOW_WRITE) && (addr =? ADIV5_DP_SELECT)
  | DpRead _ | Malloc => true
  | _ => false
  end.

(** ** EFM32: the monitor commands and the remaining readers *)

Definition EFM32_LOCK_BITS : Z := EFM32_INFO + 0x04000.
Definition EFM32_LOCK_BITS_CLW0 : Z := EFM32_LOCK_BITS + 4 * 122.
Definition EFM32_CLW0_BOOTLOADER_ENABLE : Z := Z.shiftl 1 1.

Definition EFM32_MSC_WRITECMD_WRITEONCE : Z := Z.shiftl 1 3.
Definition EFM32_MSC_WRITECMD_ERASEMAIN0 : Z := Z.shiftl 1 8.

Definition EFM32_DI_MEMINFO_FLASHPAGESIZE_OFST : Z := 24.
Definition EFM32_DI_MEMINFO_FLASHPAGESIZE_MASK : Z := 0xFF.
Definition EFM32_DI_V4_MEMINFO_FLASHPAGESIZE_OFST : Z := 0.
Definition EFM32_DI_V4_MEMINFO_FLASHPAGESIZE_MASK : Z := 0xFF.

Definition EFM32_DI_PKGINFO_TEMPGRADE_OFST : Z := 0.
Definition EFM32_DI_PKGINFO_PKGTYPE_OFST : Z := 8.
Definition EFM32_DI_PKGINFO_PINCOUNT_OFST : Z := 16.
Definition EFM32_DI_PKGINFO_TEMPGRADE_MASK : Z := 0xFF.
Definition EFM32_DI_PKGINFO_PKGTYPE_MASK : Z := 0xFF.
Definition EFM32_DI_PKGINFO_PINCOUNT_MASK : Z := 0xFF.

(** Addresses of the members [UNIQUEL] and [UNIQUEH] ([EUI64L] and
    [EUI64H] in [di_v4_t]) and [MEMINFO] of the four layouts, and of
    [PKGINFO] of [di_v4_t]. *)
Definition di_UNIQUEL (di_version : Z) : Z :=
  if di_version =? 1 then EFM32_DI_V1 + 4 * 16
  else if di_version =? 2 then EFM32_DI_V2 + 4 * 18
  else if di_version =? 3 then EFM32_DI_V3 + 4 * 16
  else if di_version =? 4 then EFM32_DI_V4 + 4 * 18
  else 0.

Definition di_UNIQUEH (di_version : Z) : Z :=
  if di_version =? 1 then EFM32_DI_V1 + 4 * 17
  else if di_version =? 2 then EFM32_DI_V2 + 4 * 19
  else if di_version =? 3 then EFM32_DI_V3 + 4 * 17
  else if di_version =? 4 then EFM32_DI_V4 + 4 * 19
  else 0.

Definition di_MEMINFO (di_version : Z) : Z :=
  if di_version =? 1 then EFM32_DI_V1 + 4 * 13
  else if di_version =? 2 then EFM32_DI_V2 + 4 * 15
  else if di_version =? 3 then EFM32_DI_V3 + 4 * 13
  else if di_version =? 4 then EFM32_DI_V4 + 4 * 2
  else 0.

Definition di_v4_PKGINFO : Z := EFM32_DI_V4 + 4 * 4.

Record efm32_di_miscchip_t : Type := mkMisc {
  pincount : Z;
  pkgtype : Z;
  tempgrade : Z
}.

Section Efm32Commands.

Variable env : world -> call -> Z.

Definition efm32_read_unique (di_version : Z) : M Z :=
  let addr_l := di_UNIQUEL di_version in
  let addr_h := di_UNIQUEH di_version in
  if negb (addr_l =? 0) && negb (addr_h =? 0) then
    (h <- target_mem_read32 env addr_h ;;
     l <- target_mem_read32 env addr_l ;;
     ret (Z.lor (u64 (Z.shiftl h 32)) l))%M
  else ret 0.

(** [size = 1 << (size + 10)] shifts the [int] 1: C defines the result
    for a count below 31 only, and the model has no result ([None])
    beyond. *)
Definition efm32_read_flash_page_size (di_version : Z) : M (option Z) :=
  let addr := di_MEMINFO di_version in
  let mask :=
    if di_version =? 4 then EFM32_DI_V4_MEMINFO_FLASHPAGESIZE_MASK
    else EFM32_DI_MEMINFO_FLASHPAGESIZE_MASK in
  let ofst :=
    if di_version =? 4 then EFM32_DI_V4_MEMINFO_FLASHPAGESIZE_OFST
    else EFM32_DI_MEMINFO_FLASHPAGESIZE_OFST in
  if negb (addr =? 0) then
    (v <- target_mem_read32 env addr ;;
     let size := Z.land (Z.shiftr v ofst) mask in
     ret (if size + 10 <? 31 then Some (Z.shiftl 1 (size + 10)) else None))%M
  else ret (Some 0).

Definition efm32_read_miscchip (di_version : Z) : M efm32_di_miscchip_t :=
  let addr :=
    if di_version =? 3 then di_MEMINFO 3
    else if di_version =? 4 then di_v4_PKGINFO
    else 0 in
  if negb (addr =? 0) then
    (pkginfo <- target_mem_read32 env addr ;;
     ret (mkMisc
            (u8 (Z.land (Z.shiftr pkginfo EFM32_DI_PKGINFO_PINCOUNT_OFST)
                   EFM32_DI_PKGINFO_PINCOUNT_MASK))
            (u8 (Z.land (Z.shiftr pkginfo EFM32_DI_PKGINFO_PKGTYPE_OFST)
                   EFM32_DI_PKGINFO_PKGTYPE_MASK))
            (u8 (Z.land (Z.shiftr pkginfo EFM32_DI_PKGINFO_TEMPGRADE_OFST)
                   EFM32_DI_PKGINFO_TEMPGRADE_MASK))))%M
  else ret (mkMisc 0 0 0).

(** The busy poll is the one of [efm32_flash_erase], word for word;
    an aborted poll makes the command return [false] with the mass-erase
    lock still open. *)
Definition efm32_cmd_erase_all (fuel : nat) (t : target) : F bool :=
  match efm32_get_device (usize (nth 2 (driver t) 0 - 32)) with
  | None => retF true
  | Some device =>
      let msc := msc_addr device in
      (_ <- liftF (target_mem_write32 env (EFM32_MSC_WRITECTRL msc) 1) ;;
       _ <- liftF (target_mem_write32 env (EFM32_MSC_MASSLOCK msc)
                     EFM32_MSC_MASSLOCK_LOCKKEY) ;;
       _ <- liftF (target_mem_write32 env (EFM32_MSC_WRITECMD msc)
                     EFM32_MSC_WRITECMD_ERASEMAIN0) ;;
       aborted <- msc_poll_busy env fuel msc ;;
       if aborted then retF false
       else
         _ <- liftF (target_mem_write32 env (EFM32_MSC_MASSLOCK msc) 0) ;;
         _ <- liftF (extcall env TcPrintf) ;;
         retF true)%F
  end.

(** Besides the value returned, the model keeps the two words handed to
    [tc_printf]: [(uint32_t)(unique >> 32)] and [(uint32_t)unique]. *)
Definition efm32_cmd_serial (t : target) : M (bool * (Z * Z)) :=
  let di_version := u8 (nth 0 (driver t) 0 - 48) in
  (unique <- efm32_read_unique di_version ;;
   _ <- extcall env TcPrintf ;;
   ret (true, (u32 (Z.shiftr unique 32), u32 unique)))%M.

(** [argv1_0] is the character [argv[1][0]], which the C function reads
    whenever [argc] is not 1. *)
Definition efm32_cmd_bootloader (fuel : nat) (t : target)
    (argc argv1_0 : Z) : F bool :=
  match efm32_get_device (usize (nth 2 (driver t) 0 - 32)) with
  | None => retF true
  | Some device =>
      let msc := msc_addr device in
      if bootloader_size device =? 0 then
        (_ <- liftF (extcall env TcPrintf) ;; retF false)%F
      else
        (clw0 <- liftF (target_mem_read32 env EFM32_LOCK_BITS_CLW0) ;;
         if argc =? 1 then
           _ <- liftF (extcall env TcPrintf) ;; retF true
         else
           let bootloader_status := argv1_0 =? 101 in
           let clw0 :=
             Z.land clw0
               (if bootloader_status then u32 (Z.lnot 0)
                else u32 (Z.lnot EFM32_CLW0_BOOTLOADER_ENABLE)) in
           _ <- liftF (target_mem_write32 env (EFM32_MSC_LOCK msc)
                         EFM32_MSC_LOCK_LOCKKEY) ;;
           _ <- liftF (target_mem_write32 env (EFM32_MSC_WRITECTRL msc) 1) ;;
           _ <- liftF (target_mem_write32 env (EFM32_MSC_ADDRB msc)
                         EFM32_LOCK_BITS_CLW0) ;;
           _ <- liftF (target_mem_write32 env (EFM32_MSC_WRITECMD msc)
                         EFM32_MSC_WRITECMD_LADDRIM) ;;
           _ <- liftF (target_mem_write32 env (EFM32_MSC_WDATA msc) clw0) ;;
           _ <- liftF (target_mem_write32 env (EFM32_MSC_WRITECMD msc)
                         EFM32_MSC_WRITECMD_WRITEONCE) ;;
           aborted <- msc_poll_busy env fuel msc ;;
           if aborted then retF false else retF true)%F
  end.

End Efm32Commands.

(** ** The EFM32 functions, read on the log *)

(** The addresses written to ADDRB of the MSC at [msc] in a log. *)
Definition addrb_writes (msc : Z) (evs : list event) : list Z :=
  flat_map
    (fun e =>
       match ev_call e with
       | TargetMemWrite32 a v => if a =? EFM32_MSC_ADDRB msc then [v] else []
       | _ => []
       end) evs.

(** The first addresses of [n] pages of [bs] bytes, from [addr] on. *)
Fixpoint page_addrs (n : nat) (bs addr : Z) : list Z :=
  match n with
  | O => []
  | S n' => addr :: page_addrs n' bs (u32 (addr + bs))
  end.

(** A Pearl Gecko as [efm32_probe] leaves it: schema 3, row 10 of the
    device table. *)
Definition pearl_target : target := mkTarget [51; 8; 42; 8].

(** A target whose driver string names no row of the device table. *)
Definition stray_target : target := mkTarget [51; 8; 200; 8].

(** ** Further definitions for reading logs *)

(** Calls that only the loop of the AP scan makes: the vendor probes and
    the forced Cortex-M probe. *)
Definition scan_only (c : call) : Prop :=
  match c with
  | KinetisMdmProbe _ | Nrf51MdmProbe _ | CortexmProbe _ true => True
  | _ => False
  end.

(** What [efm32_probe] may register for the row [dev]: flash at 0 in
    whole KiB, the user-data page and the bootloader area with the sizes
    of the row, each in blocks of the row's page size, and RAM at
    [SRAM_BASE] in whole KiB. *)
Definition region_ok (dev : efm32_device_t) (e : event) : bool :=
  match ev_call e with
  | TargetAddFlash s l b =>
      (b =? flash_page_size dev)
      && (((s =? 0) && (l mod 1024 =? 0))
          || ((s =? EFM32_USER_DATA) && (l =? user_data_size dev))
          || ((s =? EFM32_BOOTLOADER) && (l =? bootloader_size dev)))
  | TargetAddRam s l => (s =? SRAM_BASE) && (l mod 1024 =? 0)
  | _ => true
  end.

(** The number of pages of [bs] bytes that [len] bytes touch. *)
Definition pages_of (bs len : Z) : nat := Z.to_nat ((len + bs - 1) / bs).

(** A debug port that reports a fault. *)
Definition env_fault : world -> call -> Z :=
  fun _ c => match c with DpError => 1 | _ => 0 end.

(** A part with the IDCODE of schema 4 whose PART word has FAMILYNUM 21
    and FAMILY 0; allocation succeeds. *)
Definition env_xg21 : world -> call -> Z :=
  fun _ c =>
    match c with
    | TargetMemRead32 a => if a =? 0x0FE08004 then Z.shiftl 21 16 else 0
    | Malloc => 1
    | _ => 0
    end.

(** Every event: for a log that only has to grow. *)
Definition any_event (e : event) : bool := true.

(** * Properties *)

Section TransportFacts.

Variable env : world -> call -> Z.

Lemma u32_range (x : Z) : 0 <= u32 x < 2 ^ 32.
Proof. unfold u32. apply Z.mod_pos_bound. lia. Qed.

Lemma u32_small (x : Z) : 0 <= x < 2 ^ 32 -> u32 x = x.
Proof. intros H. unfold u32. now apply Z.mod_small. Qed.

Lemma setup_run (ap : ADIv5_AP_t) (addr : Z) (a : align) (w : world) :
  exists r1 r2 r3,
    ap_mem_access_setup env ap addr a w =
      (r3, w ++ [Ev (LowAccess ADIV5_LOW_WRITE ADIV5_DP_SELECT
                       (Z.lor (u32 (Z.shiftl (apsel ap) 24))
                          (Z.land ADIV5_AP_CSW 0xF0))) r1;
                 Ev (LowAccess ADIV5_LOW_WRITE ADIV5_AP_CSW (csw_for ap a)) r2;
                 Ev (LowAccess ADIV5_LOW_WRITE ADIV5_AP_TAR addr) r3]).
Proof.
  unfold ap_mem_access_setup, adiv5_ap_write, adiv5_dp_write,
    adiv5_dp_low_access, extcall, bind, csw_for.
  destruct a; do 3 eexists; f_equal; rewrite <- ?app_assoc; reflexivity.
Qed.

Lemma data_vals_data (v : Z) (rest : list event) :
  data_vals false (Ev (LowAccess ADIV5_LOW_READ ADIV5_AP_DRW 0) v :: rest)
  = v :: data_vals false rest.
Proof. reflexivity. Qed.

Lemma data_vals_rearm (v x t p : Z) (rest : list event) :
  data_vals false
    (Ev (LowAccess ADIV5_LOW_READ ADIV5_AP_DRW 0) v
       :: Ev (LowAccess ADIV5_LOW_WRITE ADIV5_AP_TAR x) t
       :: Ev (LowAccess ADIV5_LOW_READ ADIV5_AP_DRW 0) p :: rest)
  = v :: data_vals false rest.
Proof. reflexivity. Qed.

Lemma mem_read_loop_run (n : nat) (a : align) :
  forall dest src osrc log w,
  exists body,
    mem_read_loop env n a dest src osrc log w =
      ((log ++ stores_of a dest src (data_vals false body),
        dest + Z.of_nat n * align_size a,
        Nat.iter n (fun s => u32 (s + align_size a)) src), w ++ body)
    /\ Forall body_event body
    /\ length (data_vals false body) = n.
Proof.
  induction n as [|n IH]; intros dest src osrc log w.
  - exists []. cbn. rewrite !app_nil_r, Z.add_0_r. repeat split; auto.
  - cbn [mem_read_loop]. unfold bind at 1.
    unfold adiv5_dp_low_access at 1. unfold extcall at 1.
    set (tmp := u32 (env w (LowAccess ADIV5_LOW_READ ADIV5_AP_DRW 0))).
    set (e1 := Ev (LowAccess ADIV5_LOW_READ ADIV5_AP_DRW 0) tmp).
    destruct (Z.land (Z.lxor (u32 (src + align_size a)) osrc) 4294966272 =? 0).
    + destruct (IH (snd (extract dest src tmp a)) (u32 (src + align_size a))
                  osrc (log ++ [fst (extract dest src tmp a)]) (w ++ [e1]))
        as [body [E [Fb L]]].
      exists (e1 :: body). rewrite E. split; [|split].
      * unfold e1. rewrite data_vals_data. cbn [stores_of].
        rewrite <- !app_assoc. cbn [app snd extract].
        rewrite Nat.iter_succ_r.
        f_equal. f_equal. f_equal. lia.
      * constructor; [left; reflexivity|exact Fb].
      * unfold e1. rewrite data_vals_data. cbn [length]. now rewrite L.
    + unfold bind. unfold adiv5_dp_low_access at 1 2. unfold extcall at 1 2.
      set (t := u32 (env (w ++ [e1]) _)).
      set (e2 := Ev (LowAccess ADIV5_LOW_WRITE ADIV5_AP_TAR
                       (u32 (src + align_size a))) t).
      set (p := u32 (env ((w ++ [e1]) ++ [e2]) _)).
      set (e3 := Ev (LowAccess ADIV5_LOW_READ ADIV5_AP_DRW 0) p).
      destruct (IH (snd (extract dest src tmp a)) (u32 (src + align_size a))
                  (u32 (src + align_size a))
                  (log ++ [fst (extract dest src tmp a)])
                  (((w ++ [e1]) ++ [e2]) ++ [e3]))
        as [body [E [Fb L]]].
      exists (e1 :: e2 :: e3 :: body). rewrite E. split; [|split].
      * unfold e1, e2, e3. rewrite data_vals_rearm. cbn [stores_of].
        rewrite <- !app_assoc. cbn [app snd extract].
        rewrite Nat.iter_succ_r.
        f_equal. f_equal. f_equal. lia.
      * constructor; [left; reflexivity|].
        constructor; [right; reflexivity|].
        constructor; [left; reflexivity|exact Fb].
      * unfold e1, e2, e3. rewrite data_vals_rearm. cbn [length].
        now rewrite L.
Qed.

Lemma stores_of_app (a : align) (vs ws : list Z) :
  forall dest src,
    stores_of a dest src (vs ++ ws) =
    stores_of a dest src vs
      ++ stores_of a (dest + Z.of_nat (length vs) * align_size a)
           (Nat.iter (length vs) (fun s => u32 (s + align_size a)) src) ws.
Proof.
  induction vs as [|v vs IH]; intros dest src.
  - cbn. f_equal. lia.
  - cbn [app stores_of length]. rewrite IH. rewrite Nat.iter_succ_r.
    cbn [app]. f_equal. f_equal. f_equal. lia.
Qed.

Lemma align_val_MIN_le (a b : align) : align_val (MIN a b) <= align_val b.
Proof. unfold MIN. destruct (Z.ltb_spec (align_val a) (align_val b)); lia. Qed.

Lemma ALIGNOF_divides (x : Z) :
  0 <= x -> x mod 2 ^ align_val (ALIGNOF x) = 0.
Proof.
  intros Hx. unfold ALIGNOF.
  destruct (Z.eqb_spec (Z.land x 3) 0) as [E|E].
  - change 3 with (Z.ones 2) in E. rewrite Z.land_ones in E by lia. exact E.
  - destruct (Z.eqb_spec (Z.land x 1) 0) as [E1|E1].
    + change 1 with (Z.ones 1) in E1. rewrite Z.land_ones in E1 by lia.
      exact E1.
    + apply Z.mod_1_r.
Qed.

Lemma align_val_range (a : align) : 0 <= align_val a <= 3.
Proof. destruct a; cbn; lia. Qed.

Lemma transfer_count_pos (src len : Z) :
  0 < len ->
  1 <= Z.shiftr len (align_val (MIN (ALIGNOF src) (ALIGNOF len))) <= len.
Proof.
  intros Hl.
  pose proof (align_val_MIN_le (ALIGNOF src) (ALIGNOF len)) as Hle.
  pose proof (align_val_range (MIN (ALIGNOF src) (ALIGNOF len))) as Hr.
  pose proof (ALIGNOF_divides len ltac:(lia)) as Hd.
  pose proof (align_val_range (ALIGNOF len)) as Hm.
  set (k := align_val (MIN (ALIGNOF src) (ALIGNOF len))) in *.
  set (m := align_val (ALIGNOF len)) in *.
  clearbody k m.
  rewrite Z.shiftr_div_pow2 by lia.
  assert (Hkm : 2 ^ k <= 2 ^ m) by (apply Z.pow_le_mono_r; lia).
  assert (Hk : 0 < 2 ^ k) by (apply Z.pow_pos_nonneg; lia).
  assert (Hlm : 2 ^ m <= len).
  { assert (0 < 2 ^ m) by (apply Z.pow_pos_nonneg; lia).
    apply Z.mod_divide in Hd; [|lia]. destruct Hd as [q Hq].
    remember (2 ^ m) as P. destruct (Z.le_gt_cases q 0); nia. }
  split.
  - apply Z.div_le_lower_bound; lia.
  - apply Z.div_le_upper_bound; [lia|]. nia.
Qed.

Lemma usize_small (x : Z) : 0 <= x < 2 ^ size_t_bits -> usize x = x.
Proof. intros H. unfold usize. now apply Z.mod_small. Qed.

(** C1: a read of [len > 0] bytes computes
    [align = MIN (ALIGNOF src) (ALIGNOF len)] and [count = len >> align],
    programs CSW and TAR (after the bank select), issues one priming read
    of DRW whose value goes nowhere, then runs a loop whose log [body]
    holds nothing but DRW reads and TAR writes and has exactly [count - 1]
    data reads of DRW, and ends with one read of RDBUFF.  The buffer
    receives the data reads and then the RDBUFF value, each lane-extracted
    at the running address: a BYTE is shifted right by [(src & 3) * 8], a
    HALFWORD by [(src & 2) * 8], a WORD is taken whole. *)
Theorem C1_mem_read_sequence
    (ap : ADIv5_AP_t) (dest src len : Z) (w : world) :
  0 < len < 2 ^ size_t_bits ->
  let a := MIN (ALIGNOF src) (ALIGNOF len) in
  let count := Z.shiftr len (align_val a) in
  exists setup p0 body vlast,
    adiv5_mem_read env ap dest src len w =
      (stores_of a dest src (data_vals false body ++ [vlast]),
       w ++ setup
         ++ [Ev (LowAccess ADIV5_LOW_READ ADIV5_AP_DRW 0) p0]
         ++ body
         ++ [Ev (LowAccess ADIV5_LOW_READ ADIV5_DP_RDBUFF 0) vlast])
    /\ map ev_call setup = setup_calls ap src a
    /\ Forall body_event body
    /\ Z.of_nat (length (data_vals false body)) = count - 1
    /\ (forall d s v,
          st_val (fst (extract d s v ALIGN_BYTE))
          = Z.land (Z.shiftr v (Z.land s 3 * 8)) 0xFF)
    /\ (forall d s v,
          st_val (fst (extract d s v ALIGN_HALFWORD))
          = Z.land (Z.shiftr v (Z.land s 2 * 8)) 0xFFFF)
    /\ (forall d s v, st_val (fst (extract d s v ALIGN_WORD)) = v).
Proof.
  intros Hlen a count.
  pose proof (transfer_count_pos src len ltac:(lia)) as Hc.
  fold a in Hc. fold count in Hc.
  unfold adiv5_mem_read. fold a.
  destruct (Z.eqb_spec len 0) as [E|_]; [lia|].
  fold count.
  rewrite usize_small by lia.
  unfold bind at 1.
  destruct (setup_run ap src a w) as [r1 [r2 [r3 Es]]]. rewrite Es.
  unfold bind at 1. unfold adiv5_dp_low_access at 1. unfold extcall at 1.
  cbv zeta. unfold bind at 1.
  match goal with
  | |- context [mem_read_loop env ?n a dest src src [] ?w1] =>
      destruct (mem_read_loop_run n a dest src src [] w1) as [body [El [Fb L]]]
  end.
  rewrite El.
  unfold bind, adiv5_dp_low_access, extcall, ret. cbn [fst snd].
  match goal with
  | |- context [(?w0 ++ [Ev ?c1 r1; Ev ?c2 r2; Ev ?c3 r3]) ++ [Ev ?c4 ?p]] =>
      exists [Ev c1 r1; Ev c2 r2; Ev c3 r3], p, body
  end.
  eexists.
  split; [|split; [|split; [|split; [|split; [|split]]]]].
  - rewrite stores_of_app, L. cbn [stores_of]. rewrite <- !app_assoc.
    f_equal.
  - unfold setup_calls. cbn [map ev_call]. reflexivity.
  - exact Fb.
  - rewrite L. lia.
  - intros d s v. unfold extract. cbn [fst st_val].
    rewrite Z.shiftl_mul_pow2 by lia. reflexivity.
  - intros d s v. unfold extract. cbn [fst st_val].
    rewrite Z.shiftl_mul_pow2 by lia. reflexivity.
  - reflexivity.
Qed.

(** C10: a read of no bytes returns at once: no event is logged and no
    store is made; a sized write of no bytes still selects the bank and
    writes CSW and TAR, and writes DRW not once. *)
Theorem C10_zero_length (ap : ADIv5_AP_t) (dest src : Z) (w : world) :
  adiv5_mem_read env ap dest src 0 w = ([], w)
  /\ forall (ld : align -> Z -> Z) (a : align),
       exists setup,
         adiv5_mem_write_sized env ap dest ld 0 a w = (tt, w ++ setup)
         /\ map ev_call setup = setup_calls ap dest a
         /\ Forall (fun e => is_drw_write e = false) setup.
Proof.
  split; [reflexivity|].
  intros ld a. unfold adiv5_mem_write_sized.
  rewrite Z.shiftr_0_l. cbn [Z.to_nat mem_write_loop].
  unfold bind. destruct (setup_run ap dest a w) as [r1 [r2 [r3 Es]]].
  rewrite Es. eexists. split; [reflexivity|]. split; [reflexivity|].
  repeat constructor.
Qed.

Lemma log2_u32 (x : Z) : 0 <= x < 2 ^ 32 -> Z.log2 x < 32.
Proof.
  intros H. destruct (Z.eq_dec x 0) as [->|N]; [cbn; lia|].
  apply Z.log2_lt_pow2; lia.
Qed.

Lemma lxor_u32_range (x y : Z) :
  0 <= x < 2 ^ 32 -> 0 <= y < 2 ^ 32 -> 0 <= Z.lxor x y < 2 ^ 32.
Proof.
  intros Hx Hy.
  assert (Hn : 0 <= Z.lxor x y) by (apply Z.lxor_nonneg; lia).
  split; [exact Hn|].
  destruct (Z.eq_dec (Z.lxor x y) 0) as [E|N]; [rewrite E; lia|].
  apply Z.log2_lt_pow2; [lia|].
  pose proof (Z.log2_lxor x y ltac:(lia) ltac:(lia)).
  pose proof (log2_u32 x Hx). pose proof (log2_u32 y Hy). lia.
Qed.

Lemma land_page_mask (x : Z) :
  0 <= x < 2 ^ 32 -> Z.land x (Z.lnot 0x3FF) = Z.land x 0xfffffc00.
Proof.
  intros H.
  change 0xfffffc00 with (Z.land (Z.ones 32) (Z.lnot 0x3FF)).
  rewrite Z.land_assoc, Z.land_ones by lia.
  now rewrite Z.mod_small.
Qed.

Lemma same_page_code (x y : Z) :
  0 <= x < 2 ^ 32 -> 0 <= y < 2 ^ 32 ->
  same_page x y = (Z.land (Z.lxor x y) 0xfffffc00 =? 0).
Proof.
  intros Hx Hy. unfold same_page.
  now rewrite land_page_mask by (apply lxor_u32_range; assumption).
Qed.

Lemma same_page_refl (x : Z) : same_page x x = true.
Proof. unfold same_page. now rewrite Z.lxor_nilpotent. Qed.

Lemma disc_data_read (size cur l v : Z) (rest : list event) :
  tar_discipline true size cur (Some l) false
    (Ev (LowAccess ADIV5_LOW_READ ADIV5_AP_DRW 0) v :: rest)
  = same_page cur l
    && tar_discipline true size (u32 (cur + size)) (Some l) false rest.
Proof. reflexivity. Qed.

Lemma disc_rearm (size cur x t p : Z) (last : option Z) (rest : list event) :
  tar_discipline true size cur last false
    (Ev (LowAccess ADIV5_LOW_WRITE ADIV5_AP_TAR x) t
       :: Ev (LowAccess ADIV5_LOW_READ ADIV5_AP_DRW 0) p :: rest)
  = (x =? cur) && tar_discipline true size cur (Some x) false rest.
Proof. reflexivity. Qed.

Lemma disc_rdbuff (size cur l v : Z) :
  tar_discipline true size cur (Some l) false
    [Ev (LowAccess ADIV5_LOW_READ ADIV5_DP_RDBUFF 0) v]
  = same_page cur l.
Proof. cbn. now rewrite andb_true_r. Qed.

Lemma disc_setup (rd : bool) (size cur sel cswv r1 r2 r3 : Z)
    (rest : list event) :
  tar_discipline rd size cur None false
    (Ev (LowAccess ADIV5_LOW_WRITE ADIV5_DP_SELECT sel) r1
       :: Ev (LowAccess ADIV5_LOW_WRITE ADIV5_AP_CSW cswv) r2
       :: Ev (LowAccess ADIV5_LOW_WRITE ADIV5_AP_TAR cur) r3 :: rest)
  = tar_discipline rd size cur (Some cur) true rest.
Proof.
  destruct rd; cbn; now rewrite Z.eqb_refl.
Qed.

Lemma disc_write_flag (size cur : Z) (last : option Z) (evs : list event) :
  tar_discipline false size cur last true evs
  = tar_discipline false size cur last false evs.
Proof. destruct evs; reflexivity. Qed.

Lemma disc_data_write (size cur l v r : Z) (rest : list event) :
  tar_discipline false size cur (Some l) false
    (Ev (LowAccess ADIV5_LOW_WRITE ADIV5_AP_DRW v) r :: rest)
  = same_page cur l
    && tar_discipline false size (u32 (cur + size)) (Some l) false rest.
Proof. reflexivity. Qed.

Lemma disc_rearm_write (size cur x t : Z) (last : option Z)
    (rest : list event) :
  tar_discipline false size cur last false
    (Ev (LowAccess ADIV5_LOW_WRITE ADIV5_AP_TAR x) t :: rest)
  = (x =? cur) && tar_discipline false size cur (Some x) false rest.
Proof. cbn. now rewrite disc_write_flag. Qed.

Lemma mem_read_loop_discipline (n : nat) (a : align) :
  forall dest src osrc log w,
    0 <= src < 2 ^ 32 -> 0 <= osrc < 2 ^ 32 -> same_page src osrc = true ->
    exists body src' osrc',
      snd (mem_read_loop env n a dest src osrc log w) = w ++ body
      /\ same_page src' osrc' = true
      /\ snd (fst (mem_read_loop env n a dest src osrc log w)) = src'
      /\ forall rest,
           tar_discipline true (align_size a) src (Some osrc) false
             (body ++ rest)
           = tar_discipline true (align_size a) src' (Some osrc') false rest.
Proof.
  induction n as [|n IH]; intros dest src osrc log w Hs Ho Hp.
  - exists [], src, osrc. cbn. rewrite app_nil_r. auto.
  - cbn [mem_read_loop]. unfold bind, adiv5_dp_low_access, extcall.
    set (tmp := u32 (env w (LowAccess ADIV5_LOW_READ ADIV5_AP_DRW 0))).
    set (e1 := Ev (LowAccess ADIV5_LOW_READ ADIV5_AP_DRW 0) tmp).
    set (src1 := u32 (src + align_size a)).
    assert (Hs1 : 0 <= src1 < 2 ^ 32) by apply u32_range.
    pose proof (same_page_code src1 osrc Hs1 Ho) as Hc.
    destruct (Z.land (Z.lxor src1 osrc) 4294966272 =? 0).
    + destruct (IH (snd (extract dest src tmp a)) src1 osrc
                  (log ++ [fst (extract dest src tmp a)]) (w ++ [e1])
                  Hs1 Ho Hc)
        as [body [src' [osrc' [E [P [S D]]]]]].
      exists (e1 :: body), src', osrc'.
      split; [|split; [exact P|split; [exact S|]]].
      * rewrite E, <- app_assoc. reflexivity.
      * intros rest. cbn [app]. unfold e1. rewrite disc_data_read, Hp.
        cbn [andb]. apply D.
    + set (t := u32 (env (w ++ [e1]) _)).
      set (e2 := Ev (LowAccess ADIV5_LOW_WRITE ADIV5_AP_TAR src1) t).
      set (p := u32 (env ((w ++ [e1]) ++ [e2]) _)).
      set (e3 := Ev (LowAccess ADIV5_LOW_READ ADIV5_AP_DRW 0) p).
      destruct (IH (snd (extract dest src tmp a)) src1 src1
                  (log ++ [fst (extract dest src tmp a)])
                  (((w ++ [e1]) ++ [e2]) ++ [e3])
                  Hs1 Hs1 (same_page_refl src1))
        as [body [src' [osrc' [E [P [S D]]]]]].
      exists (e1 :: e2 :: e3 :: body), src', osrc'.
      split; [|split; [exact P|split; [exact S|]]].
      * rewrite E, <- !app_assoc. reflexivity.
      * intros rest. cbn [app]. unfold e1, e2, e3.
        rewrite disc_data_read, Hp, disc_rearm, Z.eqb_refl.
        cbn [andb]. apply D.
Qed.

Lemma disc_prime (size cur p : Z) (last : option Z) (rest : list event) :
  tar_discipline true size cur last true
    (Ev (LowAccess ADIV5_LOW_READ ADIV5_AP_DRW 0) p :: rest)
  = tar_discipline true size cur last false rest.
Proof. reflexivity. Qed.

Lemma mem_write_loop_discipline (n : nat) (a : align)
    (ld : align -> Z -> Z) :
  forall dest src odest w,
    0 <= dest < 2 ^ 32 -> 0 <= odest < 2 ^ 32 ->
    same_page dest odest = true ->
    exists body dest' odest',
      snd (mem_write_loop env n a ld dest src odest w) = w ++ body
      /\ same_page dest' odest' = true
      /\ forall rest,
           tar_discipline false (align_size a) dest (Some odest) false
             (body ++ rest)
           = tar_discipline false (align_size a) dest' (Some odest') false
               rest.
Proof.
  induction n as [|n IH]; intros dest src odest w Hd Ho Hp.
  - exists [], dest, odest. cbn. rewrite app_nil_r. auto.
  - cbn [mem_write_loop]. unfold bind, adiv5_dp_low_access, extcall.
    set (v := pack a dest (ld a src)).
    set (r := u32 (env w (LowAccess ADIV5_LOW_WRITE ADIV5_AP_DRW v))).
    set (e1 := Ev (LowAccess ADIV5_LOW_WRITE ADIV5_AP_DRW v) r).
    set (dest1 := u32 (dest + align_size a)).
    assert (Hd1 : 0 <= dest1 < 2 ^ 32) by apply u32_range.
    pose proof (same_page_code dest1 odest Hd1 Ho) as Hc.
    destruct (Z.land (Z.lxor dest1 odest) 4294966272 =? 0).
    + destruct (IH dest1 (src + align_size a) odest (w ++ [e1]) Hd1 Ho Hc)
        as [body [dest' [odest' [E [P D]]]]].
      exists (e1 :: body), dest', odest'.
      split; [|split; [exact P|]].
      * rewrite E, <- app_assoc. reflexivity.
      * intros rest. cbn [app]. unfold e1. rewrite disc_data_write, Hp.
        cbn [andb]. apply D.
    + set (t := u32 (env (w ++ [e1]) _)).
      set (e2 := Ev (LowAccess ADIV5_LOW_WRITE ADIV5_AP_TAR dest1) t).
      destruct (IH dest1 (src + align_size a) dest1 ((w ++ [e1]) ++ [e2])
                  Hd1 Hd1 (same_page_refl dest1))
        as [body [dest' [odest' [E [P D]]]]].
      exists (e1 :: e2 :: body), dest', odest'.
      split; [|split; [exact P|]].
      * rewrite E, <- !app_assoc. reflexivity.
      * intros rest. cbn [app]. unfold e1, e2.
        rewrite disc_data_write, Hp, disc_rearm_write, Z.eqb_refl.
        cbn [andb]. apply D.
Qed.

(** C2: the log of every read and of every sized write keeps the TAR
    discipline [tar_discipline]: each TAR write carries the running
    address, each data transfer is made while the running address lies in
    the 1 KiB page of the value last written to TAR (so an address that
    leaves that page is written to TAR before the next transfer), and on
    the read path each TAR write is followed at once by a priming read of
    DRW. *)
Theorem C2_tar_rearm (ap : ADIv5_AP_t) (w : world)
    (rdest rsrc rlen : Z)
    (wdest wlen : Z) (ld : align -> Z -> Z) (a : align) :
  0 <= rsrc < 2 ^ 32 ->
  0 <= wdest < 2 ^ 32 ->
  (exists evs,
     snd (adiv5_mem_read env ap rdest rsrc rlen w) = w ++ evs
     /\ tar_discipline true
          (align_size (MIN (ALIGNOF rsrc) (ALIGNOF rlen))) rsrc None false evs
        = true)
  /\ (exists evs,
        snd (adiv5_mem_write_sized env ap wdest ld wlen a w) = w ++ evs
        /\ tar_discipline false (align_size a) wdest None false evs = true).
Proof.
  intros Hs Hd. split.
  - unfold adiv5_mem_read.
    set (al := MIN (ALIGNOF rsrc) (ALIGNOF rlen)).
    destruct (rlen =? 0).
    { exists []. cbn. now rewrite app_nil_r. }
    unfold bind at 1.
    destruct (setup_run ap rsrc al w) as [r1 [r2 [r3 Es]]]. rewrite Es.
    unfold bind at 1. unfold adiv5_dp_low_access at 1. unfold extcall at 1.
    cbv zeta. unfold bind at 1.
    match goal with
    | |- context [mem_read_loop env ?n al rdest rsrc rsrc [] ?w1] =>
        destruct (mem_read_loop_discipline n al rdest rsrc rsrc [] w1
                    Hs Hs (same_page_refl rsrc))
          as [body [src' [osrc' [E [P [S D]]]]]];
        destruct (mem_read_loop env n al rdest rsrc rsrc [] w1)
          as [[[lg dst] sr] w2]
    end.
    cbn [snd fst] in E, S. subst w2 sr.
    unfold bind, adiv5_dp_low_access, extcall, ret. cbn [snd].
    match goal with
    | |- context [((?w0 ++ [?s1; ?s2; ?s3]) ++ [?e0]) ++ body] =>
        exists ([s1; s2; s3] ++ [e0] ++ body
                  ++ [Ev (LowAccess ADIV5_LOW_READ ADIV5_DP_RDBUFF 0)
                        (u32 (env (((w0 ++ [s1; s2; s3]) ++ [e0]) ++ body)
                               (LowAccess ADIV5_LOW_READ ADIV5_DP_RDBUFF 0)))])
    end.
    split.
    + rewrite <- !app_assoc. reflexivity.
    + cbn [app]. rewrite disc_setup, disc_prime, D, disc_rdbuff. exact P.
  - unfold adiv5_mem_write_sized. unfold bind.
    destruct (setup_run ap wdest a w) as [r1 [r2 [r3 Es]]]. rewrite Es.
    match goal with
    | |- context [mem_write_loop env ?n a ld wdest 0 wdest ?w1] =>
        destruct (mem_write_loop_discipline n a ld wdest 0 wdest w1
                    Hd Hd (same_page_refl wdest))
          as [body [dest' [odest' [E [P D]]]]]
    end.
    rewrite E.
    match goal with
    | |- context [(?w0 ++ [?s1; ?s2; ?s3]) ++ body] =>
        exists ([s1; s2; s3] ++ body)
    end.
    split.
    + rewrite <- !app_assoc. reflexivity.
    + cbn [app]. rewrite disc_setup, disc_write_flag.
      rewrite <- (app_nil_r body), D. reflexivity.
Qed.

End TransportFacts.

Section DiscoveryFacts.

Variable env : world -> call -> Z.

Lemma tar_writes_app (xs ys : list event) :
  tar_writes (xs ++ ys) = tar_writes xs ++ tar_writes ys.
Proof. apply flat_map_app. Qed.

Lemma u32_mod4 (x : Z) : u32 x mod 4 = x mod 4.
Proof.
  unfold u32. change (2 ^ 32) with (4 * 1073741824).
  rewrite Z.rem_mul_r by lia.
  rewrite (Z.mul_comm 4), Z.mod_add by lia.
  apply Z.mod_mod. lia.
Qed.

Lemma land3_mod4 (x : Z) : Z.land x 3 = x mod 4.
Proof. change 3 with (Z.ones 2). now rewrite Z.land_ones by lia. Qed.

Lemma aligned_lnot3 (x : Z) : Z.land (Z.land x (Z.lnot 3)) 3 = 0.
Proof.
  rewrite <- Z.land_assoc. change (Z.land (Z.lnot 3) 3) with 0.
  apply Z.land_0_r.
Qed.

Lemma aligned_add (x k : Z) :
  Z.land x 3 = 0 -> k mod 4 = 0 -> Z.land (u32 (x + k)) 3 = 0.
Proof.
  rewrite !land3_mod4, u32_mod4. intros Hx Hk.
  rewrite Z.add_mod, Hx, Hk by lia. reflexivity.
Qed.

Lemma apply_store_word (v : Z) :
  0 <= v < 2 ^ 32 -> apply_store 0 (St 0 ALIGN_WORD v) = v.
Proof.
  intros Hv. unfold apply_store. cbn [st_align st_off st_val].
  change (8 * align_size ALIGN_WORD) with 32. change (8 * 0) with 0.
  rewrite !Z.shiftl_0_r.
  change (u32 (2 ^ 32 - 1)) with (Z.ones 32).
  rewrite Z.ldiff_0_l, Z.lor_0_l, Z.land_ones by lia.
  now apply Z.mod_small.
Qed.

(** A word read at an aligned address: bank select, CSW, TAR, the priming
    read of DRW, and the read of RDBUFF that yields the word. *)
Lemma mem_read32_aligned (ap : ADIv5_AP_t) (addr : Z) (w : world) :
  Z.land addr 3 = 0 ->
  exists pre,
    adiv5_mem_read32 env ap addr w =
      (u32 (env (w ++ pre) (LowAccess ADIV5_LOW_READ ADIV5_DP_RDBUFF 0)),
       (w ++ pre)
         ++ [Ev (LowAccess ADIV5_LOW_READ ADIV5_DP_RDBUFF 0)
               (u32 (env (w ++ pre)
                       (LowAccess ADIV5_LOW_READ ADIV5_DP_RDBUFF 0)))])
    /\ tar_writes pre = [addr]
    /\ forallb transport_only pre = true
    /\ last_write ADIV5_AP_TAR (w ++ pre) = addr.
Proof.
  intros Ha.
  assert (Hm : MIN (ALIGNOF addr) (ALIGNOF 4) = ALIGN_WORD).
  { unfold ALIGNOF at 1. rewrite Ha. reflexivity. }
  unfold adiv5_mem_read32, adiv5_mem_read. rewrite !Hm.
  change (4 =? 0) with false. cbv iota.
  change (Z.to_nat (usize (Z.shiftr 4 (align_val ALIGN_WORD) - 1))) with O.
  unfold bind at 1 2.
  destruct (setup_run env ap addr ALIGN_WORD w) as [r1 [r2 [r3 Es]]].
  rewrite Es.
  unfold bind, adiv5_dp_low_access, extcall, ret.
  cbn [mem_read_loop ret fst snd app fold_left extract].
  match goal with
  | |- context [(?w0 ++ [?s1; ?s2; ?s3]) ++ [?e0]] =>
      exists [s1; s2; s3; e0]
  end.
  split; [|split; [|split]].
  - rewrite apply_store_word by apply u32_range.
    rewrite <- !app_assoc. reflexivity.
  - cbn. reflexivity.
  - reflexivity.
  - unfold last_write. rewrite fold_left_app. cbn. reflexivity.
Qed.

Lemma u32_add_idemp (x y : Z) : u32 (u32 x + y) = u32 (x + y).
Proof. unfold u32. apply Z.add_mod_idemp_l. lia. Qed.

Lemma mem_read32_trace (ap : ADIv5_AP_t) (addr : Z) (w : world) :
  Z.land addr 3 = 0 ->
  exists evs,
    snd (adiv5_mem_read32 env ap addr w) = w ++ evs
    /\ tar_writes evs = [addr]
    /\ forallb transport_only evs = true.
Proof.
  intros Ha. destruct (mem_read32_aligned ap addr w Ha) as [pre [E [T [O _]]]].
  rewrite E. cbn [snd].
  eexists. rewrite <- app_assoc. split; [reflexivity|].
  rewrite tar_writes_app, forallb_app, T, O. split; reflexivity.
Qed.

Lemma read_id_loop_trace (ap : ADIv5_AP_t) (a0 : Z) (idxs : list Z) :
  Z.land a0 3 = 0 ->
  forall res w,
  exists evs,
    snd (ap_read_id_loop env idxs ap a0 res w) = w ++ evs
    /\ tar_writes evs = map (fun i => u32 (a0 + 4 * i)) idxs
    /\ forallb transport_only evs = true.
Proof.
  intros Ha. induction idxs as [|i idxs IH]; intros res w.
  - exists []. cbn. now rewrite app_nil_r.
  - cbn [ap_read_id_loop]. unfold bind.
    assert (Hi : Z.land (u32 (a0 + 4 * i)) 3 = 0).
    { apply aligned_add; [exact Ha|].
      rewrite Z.mul_comm. apply Z.mod_mul. lia. }
    destruct (mem_read32_trace ap (u32 (a0 + 4 * i)) w Hi) as [e1 [E1 [T1 O1]]].
    destruct (adiv5_mem_read32 env ap (u32 (a0 + 4 * i)) w) as [x w1].
    cbn [snd] in E1. subst w1.
    destruct (IH (Z.lor res (u32 (Z.shiftl (Z.land x 255) (i * 8))))
                (w ++ e1)) as [e2 [E2 [T2 O2]]].
    exists (e1 ++ e2). rewrite E2, <- app_assoc. split; [reflexivity|].
    rewrite tar_writes_app, forallb_app, T1, T2, O1, O2.
    split; reflexivity.
Qed.

Lemma read_pidr_trace (ap : ADIv5_AP_t) (a0 : Z) (w : world) :
  Z.land a0 3 = 0 ->
  exists evs,
    snd (adiv5_ap_read_pidr env ap a0 w) = w ++ evs
    /\ tar_writes evs =
       map (fun i => u32 (u32 (a0 + PIDR4_OFFSET) + 4 * i)) [0; 1; 2; 3]
         ++ map (fun i => u32 (u32 (a0 + PIDR0_OFFSET) + 4 * i)) [0; 1; 2; 3]
    /\ forallb transport_only evs = true.
Proof.
  intros Ha. unfold adiv5_ap_read_pidr, adiv5_ap_read_id, bind.
  assert (H4 : Z.land (u32 (a0 + PIDR4_OFFSET)) 3 = 0)
    by (apply aligned_add; [exact Ha|reflexivity]).
  assert (H0 : Z.land (u32 (a0 + PIDR0_OFFSET)) 3 = 0)
    by (apply aligned_add; [exact Ha|reflexivity]).
  destruct (read_id_loop_trace ap _ [0; 1; 2; 3] H4 0 w) as [e1 [E1 [T1 O1]]].
  destruct (ap_read_id_loop env [0; 1; 2; 3] ap (u32 (a0 + PIDR4_OFFSET)) 0 w)
    as [hi w1].
  cbn [snd] in E1. subst w1.
  destruct (read_id_loop_trace ap _ [0; 1; 2; 3] H0 0 (w ++ e1))
    as [e2 [E2 [T2 O2]]].
  destruct (ap_read_id_loop env [0; 1; 2; 3] ap (u32 (a0 + PIDR0_OFFSET)) 0
              (w ++ e1)) as [lo w2].
  cbn [snd] in E2. subst w2. unfold ret. cbn [snd].
  exists (e1 ++ e2). rewrite <- app_assoc. split; [reflexivity|].
  rewrite tar_writes_app, forallb_app, T1, T2, O1, O2. split; reflexivity.
Qed.

(** C3: when the CIDR read at a component, with the class nibble masked
    off, differs from the preamble, the probe returns [false] and has done
    nothing but read the twelve identification registers and query the
    DP error: the log holds transport events only (no probe call) and the
    addresses written to TAR are those of PIDR4..7, PIDR0..3 and CIDR0..3
    (no ROM-table entry, no DEVARCH or DEVTYPE). *)
Theorem C3_cidr_preamble_reject
    (fuel : nat) (ap : ADIv5_AP_t) (addr recursion num_entry : Z)
    (w : world) :
  let a := Z.land addr (Z.lnot 3) in
  let cidr :=
    fst (adiv5_ap_read_id env ap (u32 (a + CIDR0_OFFSET))
           (snd (adiv5_ap_read_pidr env ap a w))) in
  Z.land cidr (Z.lnot CID_CLASS_MASK) <> CID_PREAMBLE ->
  exists evs,
    adiv5_component_probe env (S fuel) ap addr recursion num_entry w
    = Some (false, w ++ evs)
    /\ forallb transport_only evs = true
    /\ tar_writes evs = id_reg_addrs a.
Proof.
  intros a cidr Hc.
  assert (Ha : Z.land a 3 = 0) by apply aligned_lnot3.
  cbn [adiv5_component_probe]. fold a.
  unfold bindF at 1. unfold liftF at 1.
  destruct (read_pidr_trace ap a w Ha) as [e1 [E1 [T1 O1]]].
  subst cidr. revert Hc.
  destruct (adiv5_ap_read_pidr env ap a w) as [pidr w1].
  cbn [snd] in E1 |- *. subst w1. intros Hc.
  unfold bindF at 1. unfold liftF at 1.
  assert (Hca : Z.land (u32 (a + CIDR0_OFFSET)) 3 = 0)
    by (apply aligned_add; [exact Ha|reflexivity]).
  destruct (read_id_loop_trace ap _ [0; 1; 2; 3] Hca 0 (w ++ e1))
    as [e2 [E2 [T2 O2]]].
  unfold adiv5_ap_read_id in Hc |- *.
  destruct (ap_read_id_loop env [0; 1; 2; 3] ap (u32 (a + CIDR0_OFFSET)) 0
              (w ++ e1)) as [cidr w2].
  cbn [snd fst] in E2, Hc. subst w2.
  unfold bindF at 1. unfold liftF at 1. unfold adiv5_dp_error, extcall.
  set (err := u32 (env ((w ++ e1) ++ e2) DpError)).
  exists (e1 ++ e2 ++ [Ev DpError err]).
  assert (Hw : ((w ++ e1) ++ e2) ++ [Ev DpError err]
               = w ++ e1 ++ e2 ++ [Ev DpError err])
    by now rewrite <- !app_assoc.
  split; [|split].
  - destruct (err =? 0); cbn [negb]; [|unfold retF; now rewrite Hw].
    destruct (Z.eqb_spec (Z.land cidr (Z.lnot CID_CLASS_MASK)) CID_PREAMBLE)
      as [E|_]; [contradiction|].
    cbn [negb]. unfold retF. now rewrite Hw.
  - rewrite !forallb_app, O1, O2. reflexivity.
  - rewrite !tar_writes_app, T1, T2. unfold id_reg_addrs.
    cbn [map app tar_writes flat_map ev_call].
    rewrite !u32_add_idemp.
    repeat (apply (f_equal2 cons);
            [f_equal; unfold PIDR4_OFFSET, PIDR0_OFFSET, CIDR0_OFFSET; lia|]).
    reflexivity.
Qed.

End DiscoveryFacts.

Section MockFacts.

Variable d : device.

Lemma mock_read32 (ap : ADIv5_AP_t) (addr : Z) (w : world) :
  Z.land addr 3 = 0 ->
  exists evs,
    adiv5_mem_read32 (env_dev d) ap addr w
    = (u32 (dev_mem d addr), w ++ evs)
    /\ tar_writes evs = [addr]
    /\ forallb transport_only evs = true.
Proof.
  intros Ha.
  destruct (mem_read32_aligned (env_dev d) ap addr w Ha)
    as [pre [E [T [O L]]]].
  rewrite E.
  assert (Hv : env_dev d (w ++ pre)
                 (LowAccess ADIV5_LOW_READ ADIV5_DP_RDBUFF 0)
               = dev_mem d addr)
    by (unfold env_dev; rewrite L; reflexivity).
  rewrite Hv.
  eexists. rewrite <- app_assoc. split; [reflexivity|].
  rewrite tar_writes_app, forallb_app, T, O. split; reflexivity.
Qed.

Lemma mock_dp_error (w : world) :
  adiv5_dp_error (env_dev d) w = (0, w ++ [Ev DpError 0]).
Proof. reflexivity. Qed.

Lemma mock_read_id_loop (ap : ADIv5_AP_t) (a0 : Z) (idxs : list Z) :
  Z.land a0 3 = 0 ->
  forall res w,
  exists evs,
    ap_read_id_loop (env_dev d) idxs ap a0 res w
    = (fold_left
         (fun res i =>
            Z.lor res
              (u32 (Z.shiftl
                      (Z.land (u32 (dev_mem d (u32 (a0 + 4 * i)))) 0xff)
                      (i * 8))))
         idxs res, w ++ evs)
    /\ tar_writes evs = map (fun i => u32 (a0 + 4 * i)) idxs
    /\ forallb transport_only evs = true.
Proof.
  intros Ha. induction idxs as [|i idxs IH]; intros res w.
  - exists []. cbn. now rewrite app_nil_r.
  - cbn [ap_read_id_loop fold_left]. unfold bind.
    assert (Hi : Z.land (u32 (a0 + 4 * i)) 3 = 0).
    { apply aligned_add; [exact Ha|].
      rewrite Z.mul_comm. apply Z.mod_mul. lia. }
    destruct (mock_read32 ap (u32 (a0 + 4 * i)) w Hi) as [e1 [E1 [T1 O1]]].
    rewrite E1.
    destruct (IH (Z.lor res
                    (u32 (Z.shiftl
                            (Z.land (u32 (dev_mem d (u32 (a0 + 4 * i)))) 255)
                            (i * 8))))
                (w ++ e1)) as [e2 [E2 [T2 O2]]].
    exists (e1 ++ e2). rewrite E2, <- app_assoc. split; [reflexivity|].
    rewrite tar_writes_app, forallb_app, T1, T2, O1, O2.
    split; reflexivity.
Qed.

Lemma mock_read_id (ap : ADIv5_AP_t) (a0 : Z) (w : world) :
  Z.land a0 3 = 0 ->
  exists evs,
    adiv5_ap_read_id (env_dev d) ap a0 w
    = (image_id (dev_mem d) a0, w ++ evs)
    /\ tar_writes evs = map (fun i => u32 (a0 + 4 * i)) [0; 1; 2; 3]
    /\ forallb transport_only evs = true.
Proof.
  intros Ha. exact (mock_read_id_loop ap a0 [0; 1; 2; 3] Ha 0 w).
Qed.

(** One step of the probe on the mock: after the identification reads
    the probe of a ROM table scans it, the probe of anything else returns
    without recursion. *)
Lemma mock_probe_step (fuel : nat) (ap : ADIv5_AP_t)
    (addr recursion num_entry : Z) (w : world) :
  let a := Z.land addr (Z.lnot 3) in
  exists evs,
    tar_writes evs = id_reg_addrs a
    /\ forallb transport_only evs = true
    /\ if is_rom_table (dev_mem d) a then
         adiv5_component_probe (env_dev d) (S fuel) ap addr recursion
           num_entry w
         = rom_table_loop (env_dev d)
             (adiv5_component_probe (env_dev d) fuel ap) 960 ap a recursion
             0 false (w ++ evs)
       else
         exists r w',
           adiv5_component_probe (env_dev d) (S fuel) ap addr recursion
             num_entry w = Some (r, w').
Proof.
  intros a.
  assert (Ha : Z.land a 3 = 0) by apply aligned_lnot3.
  remember (adiv5_component_probe (env_dev d) (S fuel) ap addr recursion
              num_entry w) as R eqn:HR.
  cbn [adiv5_component_probe] in HR. fold a in HR.
  unfold bindF, liftF in HR.
  destruct (read_pidr_trace (env_dev d) ap a w Ha) as [e1 [E1 [T1 O1]]].
  destruct (adiv5_ap_read_pidr (env_dev d) ap a w) as [pidr w1].
  cbn [snd] in E1. subst w1.
  assert (Hca : Z.land (u32 (a + CIDR0_OFFSET)) 3 = 0)
    by (apply aligned_add; [exact Ha|reflexivity]).
  destruct (mock_read_id ap (u32 (a + CIDR0_OFFSET)) (w ++ e1) Hca)
    as [e2 [E2 [T2 O2]]].
  rewrite E2, mock_dp_error in HR.
  change (negb (0 =? 0)) with false in HR. cbv iota in HR.
  exists (e1 ++ e2 ++ [Ev DpError 0]).
  split; [|split].
  - rewrite !tar_writes_app, T1, T2. unfold id_reg_addrs.
    cbn [map app tar_writes flat_map ev_call].
    rewrite !u32_add_idemp.
    repeat (apply (f_equal2 cons);
            [f_equal; unfold PIDR4_OFFSET, PIDR0_OFFSET, CIDR0_OFFSET; lia|]).
    reflexivity.
  - rewrite !forallb_app, O1, O2. reflexivity.
  - unfold is_rom_table.
    set (cidr := image_id (dev_mem d) (u32 (a + CIDR0_OFFSET))) in *.
    destruct (Z.land cidr (Z.lnot CID_CLASS_MASK) =? CID_PREAMBLE);
      cbn [negb andb] in HR |- *; [|unfold retF in HR; subst R; eauto].
    destruct (Z.shiftr (Z.land cidr CID_CLASS_MASK) CID_CLASS_SHIFT
              =? cidc_romtab).
    + subst R. rewrite <- !app_assoc. reflexivity.
    + subst R. destruct (negb _); unfold retF; eauto.
      destruct (component_dispatch (env_dev d) ap a pidr _); eauto.
Qed.

Lemma rom_table_loop_S (env : world -> call -> Z)
    (probe : Z -> Z -> Z -> F bool) (n : nat) (ap : ADIv5_AP_t)
    (addr recursion i : Z) (res : bool) (w : world) :
  rom_table_loop env probe (S n) ap addr recursion i res w =
  let (entry, w1) := adiv5_mem_read32 env ap (u32 (addr + i * 4)) w in
  let (_, w2) := adiv5_dp_error env w1 in
  if entry =? 0 then Some (res, w2)
  else if Z.land entry ADIV5_ROM_ROMENTRY_PRESENT =? 0
  then rom_table_loop env probe n ap addr recursion (i + 1) res w2
  else
    match probe (u32 (addr + Z.land entry ADIV5_ROM_ROMENTRY_OFFSET))
            (recursion + 1) i w2 with
    | Some (r, w3) =>
        rom_table_loop env probe n ap addr recursion (i + 1) (res || r) w3
    | None => None
    end.
Proof.
  cbn [rom_table_loop]. unfold bindF, liftF, retF.
  destruct (adiv5_mem_read32 env ap (u32 (addr + i * 4)) w) as [entry w1].
  destruct (adiv5_dp_error env w1) as [e w2].
  destruct (entry =? 0); [reflexivity|].
  destruct (Z.land entry ADIV5_ROM_ROMENTRY_PRESENT =? 0); [reflexivity|].
  destruct (probe _ _ _ w2) as [[r w3]|]; reflexivity.
Qed.

Lemma entry_aligned (a i : Z) :
  Z.land a 3 = 0 -> Z.land (u32 (a + i * 4)) 3 = 0.
Proof. intros Ha. apply aligned_add; [exact Ha|]. apply Z.mod_mul. lia. Qed.

Lemma mock_rom_loop_terminates (probe : Z -> Z -> Z -> F bool)
    (chk : Z -> bool) (ap : ADIv5_AP_t) (a recursion : Z) :
  (forall addr r i w,
      chk addr = true -> exists res w', probe addr r i w = Some (res, w')) ->
  Z.land a 3 = 0 ->
  forall n i res w,
    rom_entries_ok chk (dev_mem d) n a i = true ->
    exists res' w',
      rom_table_loop (env_dev d) probe n ap a recursion i res w
      = Some (res', w').
Proof.
  intros Hp Ha. induction n as [|n IH]; intros i res w H.
  - cbn. unfold retF. eauto.
  - rewrite rom_table_loop_S.
    destruct (mock_read32 ap (u32 (a + i * 4)) w (entry_aligned a i Ha))
      as [e1 [E1 _]].
    rewrite E1, mock_dp_error.
    cbn [rom_entries_ok] in H.
    destruct (u32 (dev_mem d (u32 (a + i * 4))) =? 0); [eauto|].
    destruct (Z.land (u32 (dev_mem d (u32 (a + i * 4))))
                ADIV5_ROM_ROMENTRY_PRESENT =? 0).
    + apply IH. exact H.
    + apply andb_prop in H. destruct H as [Hc Hr].
      destruct (Hp _ (recursion + 1) i ((w ++ e1) ++ [Ev DpError 0]) Hc)
        as [r [w3 E3]].
      rewrite E3. apply IH. exact Hr.
Qed.

Lemma mock_probe_terminates (ap : ADIv5_AP_t) (depth : nat) :
  forall addr recursion num_entry w,
    rom_nesting_ok (dev_mem d) depth addr = true ->
    exists res w',
      adiv5_component_probe (env_dev d) (S depth) ap addr recursion
        num_entry w = Some (res, w').
Proof.
  induction depth as [|depth IH]; intros addr recursion num_entry w H.
  - destruct (mock_probe_step 0 ap addr recursion num_entry w)
      as [evs [_ [_ S0]]].
    cbn [rom_nesting_ok] in H.
    destruct (is_rom_table (dev_mem d) (Z.land addr (Z.lnot 3)));
      [discriminate|exact S0].
  - destruct (mock_probe_step (S depth) ap addr recursion num_entry w)
      as [evs [_ [_ S0]]].
    cbn [rom_nesting_ok] in H.
    destruct (is_rom_table (dev_mem d) (Z.land addr (Z.lnot 3)));
      [|exact S0].
    rewrite S0.
    apply (mock_rom_loop_terminates _ (rom_nesting_ok (dev_mem d) depth)).
    + intros addr' r i w' Hc. apply IH. exact Hc.
    + apply aligned_lnot3.
    + exact H.
Qed.

Lemma mock_rom_loop_flat (probe : Z -> Z -> Z -> F bool)
    (ap : ADIv5_AP_t) (a recursion : Z) :
  Z.land a 3 = 0 ->
  forall n i res w,
    rom_entries_ok (fun _ => false) (dev_mem d) n a i = true ->
    exists evs,
      rom_table_loop (env_dev d) probe n ap a recursion i res w
      = Some (res, w ++ evs)
      /\ tar_writes evs = flat_scan_addrs (dev_mem d) n a i.
Proof.
  intros Ha. induction n as [|n IH]; intros i res w H.
  - exists []. cbn. unfold retF. now rewrite app_nil_r.
  - rewrite rom_table_loop_S.
    destruct (mock_read32 ap (u32 (a + i * 4)) w (entry_aligned a i Ha))
      as [e1 [E1 [T1 _]]].
    rewrite E1, mock_dp_error.
    cbn [rom_entries_ok flat_scan_addrs] in H |- *.
    destruct (u32 (dev_mem d (u32 (a + i * 4))) =? 0).
    + exists (e1 ++ [Ev DpError 0]). rewrite <- app_assoc.
      split; [reflexivity|]. rewrite tar_writes_app, T1. reflexivity.
    + destruct (Z.land (u32 (dev_mem d (u32 (a + i * 4))))
                  ADIV5_ROM_ROMENTRY_PRESENT =? 0); [|discriminate].
      destruct (IH (i + 1) res ((w ++ e1) ++ [Ev DpError 0]) H)
        as [e2 [E2 T2]].
      exists (e1 ++ [Ev DpError 0] ++ e2). rewrite E2, <- !app_assoc.
      split; [reflexivity|].
      rewrite !tar_writes_app, T1, T2. reflexivity.
Qed.

End MockFacts.

(** ** Logs that grow by events of one kind *)

Section Extension.

Variable env : world -> call -> Z.
Variable P : event -> bool.

(** [w'] extends [w] by events that all satisfy [P]. *)
Definition ext (w w' : world) : Prop :=
  exists evs, w' = w ++ evs /\ forallb P evs = true.

Definition mext {A : Type} (m : M A) : Prop := forall w, ext w (snd (m w)).

Definition fext {A : Type} (m : F A) : Prop :=
  forall w r w', m w = Some (r, w') -> ext w w'.

Lemma ext_refl (w : world) : ext w w.
Proof. exists []. now rewrite app_nil_r. Qed.

Lemma ext_trans (w1 w2 w3 : world) : ext w1 w2 -> ext w2 w3 -> ext w1 w3.
Proof.
  intros [e1 [-> O1]] [e2 [-> O2]]. exists (e1 ++ e2).
  now rewrite app_assoc, forallb_app, O1, O2.
Qed.

Lemma mext_ret {A : Type} (a : A) : mext (ret a).
Proof. intros w. apply ext_refl. Qed.

Lemma mext_bind {A B : Type} (m : M A) (f : A -> M B) :
  mext m -> (forall a, mext (f a)) -> mext (bind m f).
Proof.
  intros Hm Hf w. unfold bind. specialize (Hm w).
  destruct (m w) as [a w1]. cbn [snd] in Hm.
  eapply ext_trans; [exact Hm|apply Hf].
Qed.

Lemma mext_extcall (c : call) :
  (forall r, P (Ev c r) = true) -> mext (extcall env c).
Proof.
  intros Hc w. unfold extcall. cbn [snd]. eexists. split; [reflexivity|].
  cbn [forallb]. rewrite andb_true_r. apply Hc.
Qed.

Lemma fext_ret {A : Type} (a : A) : fext (retF a).
Proof. intros w r w' H. injection H as _ <-. apply ext_refl. Qed.

Lemma fext_lift {A : Type} (m : M A) : mext m -> fext (liftF m).
Proof.
  intros Hm w r w' H. unfold liftF in H. injection H as H.
  specialize (Hm w). rewrite H in Hm. exact Hm.
Qed.

Lemma fext_bind {A B : Type} (m : F A) (f : A -> F B) :
  fext m -> (forall a, fext (f a)) -> fext (bindF m f).
Proof.
  intros Hm Hf w r w' H. unfold bindF in H.
  destruct (m w) as [[a w1]|] eqn:E; [|discriminate].
  eapply ext_trans; [eapply Hm; exact E|eapply Hf; exact H].
Qed.

End Extension.

Arguments mext P {A} m.
Arguments fext P {A} m.

(** ** Logs without forced probes *)

Section Unforced.

Variable env : world -> call -> Z.

Lemma ext_forced (w w' : world) :
  ext not_forced w w' -> forced_probes w' = forced_probes w.
Proof.
  intros [evs [-> O]]. unfold forced_probes.
  rewrite flat_map_app. rewrite <- app_nil_r. f_equal.
  induction evs as [|e evs IH]; [reflexivity|].
  cbn [forallb] in O. apply andb_prop in O. destruct O as [Oe Or].
  cbn [flat_map]. rewrite (IH Or), app_nil_r.
  unfold not_forced in Oe. destruct (ev_call e); try reflexivity.
  destruct forced; [discriminate|reflexivity].
Qed.

Lemma mext_low (rnw addr v : Z) : mext not_forced (adiv5_dp_low_access env rnw addr v).
Proof. apply mext_extcall; intros r0; reflexivity. Qed.

Lemma mext_ap_read (ap : ADIv5_AP_t) (addr : Z) :
  mext not_forced (adiv5_ap_read env ap addr).
Proof.
  apply mext_bind; [apply mext_low|]. intros _. apply mext_extcall; intros r0; reflexivity.
Qed.

Lemma mext_ap_write (ap : ADIv5_AP_t) (addr v : Z) :
  mext not_forced (adiv5_ap_write env ap addr v).
Proof. apply mext_bind; [apply mext_low|]. intros _. apply mext_low. Qed.

Lemma mext_mem_read_loop (n : nat) (a : align) :
  forall dest src osrc log, mext not_forced (mem_read_loop env n a dest src osrc log).
Proof.
  induction n as [|n IH]; intros dest src osrc log; [apply mext_ret|].
  cbn [mem_read_loop]. apply mext_bind; [apply mext_low|]. intros tmp.
  destruct (_ =? 0); [apply IH|].
  apply mext_bind; [apply mext_low|]. intros _.
  apply mext_bind; [apply mext_low|]. intros _. apply IH.
Qed.

Lemma mext_mem_read (ap : ADIv5_AP_t) (dest src len : Z) :
  mext not_forced (adiv5_mem_read env ap dest src len).
Proof.
  unfold adiv5_mem_read. destruct (len =? 0); [apply mext_ret|].
  apply mext_bind.
  { unfold ap_mem_access_setup.
    apply mext_bind; [apply mext_ap_write|]. intros _. apply mext_low. }
  intros _. apply mext_bind; [apply mext_low|]. intros _.
  apply mext_bind; [apply mext_mem_read_loop|]. intros r.
  apply mext_bind; [apply mext_low|]. intros tmp. apply mext_ret.
Qed.

Lemma mext_mem_read32 (ap : ADIv5_AP_t) (addr : Z) :
  mext not_forced (adiv5_mem_read32 env ap addr).
Proof.
  apply mext_bind; [apply mext_mem_read|]. intros log. apply mext_ret.
Qed.

Lemma mext_read_id (ap : ADIv5_AP_t) (addr : Z) :
  mext not_forced (adiv5_ap_read_id env ap addr).
Proof.
  unfold adiv5_ap_read_id. generalize 0 at 2. generalize [0; 1; 2; 3].
  induction l as [|i l IH]; intros res; [apply mext_ret|].
  cbn [ap_read_id_loop]. apply mext_bind; [apply mext_mem_read32|].
  intros x. apply IH.
Qed.

Lemma mext_read_pidr (ap : ADIv5_AP_t) (addr : Z) :
  mext not_forced (adiv5_ap_read_pidr env ap addr).
Proof.
  apply mext_bind; [apply mext_read_id|]. intros hi.
  apply mext_bind; [apply mext_read_id|]. intros lo. apply mext_ret.
Qed.

Lemma mext_armv8_probe (ap : ADIv5_AP_t) (addr : Z) :
  mext not_forced (adiv5_armv8_probe env ap addr).
Proof.
  apply mext_bind; [apply mext_mem_read32|]. intros devarch.
  destruct (negb _); [apply mext_ret|].
  apply mext_bind; [apply mext_mem_read32|]. intros devtype. apply mext_ret.
Qed.

Lemma mext_probe_unforced (ap : ADIv5_AP_t) :
  mext not_forced (cortexm_probe env ap false).
Proof. apply mext_extcall; intros r0; reflexivity. Qed.

Lemma mext_cortexa (ap : ADIv5_AP_t) (b : Z) : mext not_forced (cortexa_probe env ap b).
Proof. apply mext_extcall; intros r0; reflexivity. Qed.

Lemma mext_dispatch (ap : ADIv5_AP_t) (addr pidr : Z) :
  mext not_forced (component_dispatch env ap addr pidr).
Proof.
  unfold component_dispatch.
  destruct (pn_find _ _) as [row|]; [|apply mext_ret].
  apply mext_bind.
  { destruct (arch row); try apply mext_ret. apply mext_armv8_probe. }
  intros armv8.
  destruct (arch row); try apply mext_ret.
  - apply mext_bind; [apply mext_probe_unforced|]. intros _. apply mext_ret.
  - apply mext_bind; [apply mext_cortexa|]. intros _. apply mext_ret.
  - destruct armv8; try apply mext_ret.
    + apply mext_bind; [apply mext_probe_unforced|]. intros _.
      apply mext_ret.
    + apply mext_bind; [apply mext_cortexa|]. intros _. apply mext_ret.
Qed.

Lemma fext_rom_table_loop (probe : Z -> Z -> Z -> F bool)
    (ap : ADIv5_AP_t) (addr recursion : Z) :
  (forall a r i, fext not_forced (probe a r i)) ->
  forall n i res, fext not_forced (rom_table_loop env probe n ap addr recursion i res).
Proof.
  intros Hp. induction n as [|n IH]; intros i res; [apply fext_ret|].
  cbn [rom_table_loop].
  apply fext_bind; [apply fext_lift, mext_mem_read32|]. intros entry.
  apply fext_bind; [apply fext_lift; apply mext_extcall; intros r0; reflexivity|]. intros _.
  destruct (entry =? 0); [apply fext_ret|].
  destruct (_ =? 0); [apply IH|].
  apply fext_bind; [apply Hp|]. intros r. apply IH.
Qed.

Lemma fext_component_probe (ap : ADIv5_AP_t) (fuel : nat) :
  forall addr recursion num_entry,
    fext not_forced (adiv5_component_probe env fuel ap addr recursion num_entry).
Proof.
  induction fuel as [|fuel IH]; intros addr recursion num_entry.
  - intros w r w' H. discriminate.
  - cbn [adiv5_component_probe].
    apply fext_bind; [apply fext_lift, mext_read_pidr|]. intros pidr.
    apply fext_bind; [apply fext_lift, mext_read_id|]. intros cidr.
    apply fext_bind; [apply fext_lift; apply mext_extcall; intros r0; reflexivity|]. intros err.
    destruct (negb (err =? 0)); [apply fext_ret|].
    destruct (negb (_ =? CID_PREAMBLE)); [apply fext_ret|].
    destruct (_ =? cidc_romtab).
    + apply fext_rom_table_loop. exact IH.
    + destruct (negb _); [apply fext_ret|].
      apply fext_lift, mext_dispatch.
Qed.

Lemma mext_new_ap (dp : ADIv5_DP_t) (a : Z) : mext not_forced (adiv5_new_ap env dp a).
Proof.
  unfold adiv5_new_ap.
  apply mext_bind; [apply mext_ap_read|]. intros idr_.
  apply mext_bind; [apply mext_ap_read|]. intros base0.
  destruct (idr_ =? 0); [apply mext_ret|].
  apply mext_bind; [apply mext_extcall; intros r0; reflexivity|]. intros p.
  destruct (p =? 0); [apply mext_ret|].
  apply mext_bind; [apply mext_ap_read|]. intros cfg_.
  apply mext_bind; [apply mext_ap_read|]. intros base_.
  apply mext_bind; [apply mext_ap_read|]. intros csw0. apply mext_ret.
Qed.

Lemma mext_aap_probe (ap : ADIv5_AP_t) : mext not_forced (efm32_aap_probe env ap).
Proof.
  unfold efm32_aap_probe. destruct (_ =? EFM32_AAP_IDR); [|apply mext_ret].
  apply mext_bind; [apply mext_extcall; intros r0; reflexivity|]. intros _.
  apply mext_bind; [apply mext_extcall; intros r0; reflexivity|]. intros _. apply mext_ret.
Qed.

End Unforced.

(** ** The walk of the ROM tables *)

Section MockWalk.

Variable d : device.

(** The scan of a table on the mock, with its log. *)
Lemma mock_rom_loop_log (fuel : nat) (chk : Z -> bool) (ap : ADIv5_AP_t)
    (a recursion : Z) :
  (forall addr r i w,
      chk addr = true ->
      exists res w',
        adiv5_component_probe (env_dev d) fuel ap addr r i w
        = Some (res, w')) ->
  Z.land a 3 = 0 ->
  forall n i res w,
    rom_entries_ok chk (dev_mem d) n a i = true ->
    exists res' evs,
      rom_table_loop (env_dev d)
        (adiv5_component_probe (env_dev d) fuel ap) n ap a recursion i res w
      = Some (res', w ++ evs)
      /\ scan_log d fuel ap a recursion n i w evs
           (flat_scan_addrs (dev_mem d) n a i) res res'.
Proof.
  intros Hp Ha. induction n as [|n IH]; intros i res w H.
  - exists res, []. cbn. unfold retF. rewrite app_nil_r.
    split; [reflexivity|constructor].
  - rewrite rom_table_loop_S.
    destruct (mock_read32 d ap (u32 (a + i * 4)) w (entry_aligned a i Ha))
      as [rd [E1 [T1 O1]]].
    rewrite E1, mock_dp_error.
    cbn [rom_entries_ok flat_scan_addrs] in H |- *.
    fold (rom_entry (dev_mem d) a i) in H |- *.
    destruct (Z.eqb_spec (rom_entry (dev_mem d) a i) 0) as [Ez|Nz].
    { exists res, (rd ++ [Ev DpError 0]). rewrite <- app_assoc.
      split; [reflexivity|]. now constructor. }
    destruct (Z.eqb_spec (Z.land (rom_entry (dev_mem d) a i)
                            ADIV5_ROM_ROMENTRY_PRESENT) 0) as [Ep|Np].
    + destruct (IH (i + 1) res ((w ++ rd) ++ [Ev DpError 0]) H)
        as [res' [rest [E2 S2]]].
      exists res', (rd ++ Ev DpError 0 :: rest).
      rewrite E2. split.
      * rewrite <- !app_assoc. reflexivity.
      * apply sl_absent; try assumption.
        rewrite <- app_assoc in S2. exact S2.
    + apply andb_prop in H. destruct H as [Hc Hr].
      destruct (Hp _ (recursion + 1) i ((w ++ rd) ++ [Ev DpError 0]) Hc)
        as [r [w3 E3]].
      rewrite E3.
      pose proof (fext_component_probe _ _ _ _ _ _ _ _ _ E3)
        as [child [-> _]].
      destruct (IH (i + 1) (res || r)
                  (((w ++ rd) ++ [Ev DpError 0]) ++ child) Hr)
        as [res' [rest [E2 S2]]].
      exists res', (rd ++ Ev DpError 0 :: child ++ rest).
      rewrite E2. split.
      * rewrite <- !app_assoc. reflexivity.
      * rewrite <- (app_assoc w rd) in E3, S2.
        eapply sl_follow; eassumption.
Qed.

Lemma flat_scan_addrs_length (mem : Z -> Z) (a : Z) (n : nat) :
  forall i, (length (flat_scan_addrs mem n a i) <= n)%nat.
Proof.
  induction n as [|n IH]; intros i; [apply Nat.le_refl|].
  cbn [flat_scan_addrs length].
  destruct (_ =? 0); cbn [length]; [lia|].
  specialize (IH (i + 1)). lia.
Qed.

(** The walk on the mock, with its log. *)
Lemma mock_probe_log (ap : ADIv5_AP_t) (depth : nat)
    (addr recursion num_entry : Z) (w : world) :
  rom_nesting_ok (dev_mem d) depth addr = true ->
  exists res evs,
    adiv5_component_probe (env_dev d) (S depth) ap addr recursion
      num_entry w = Some (res, w ++ evs)
    /\ (is_rom_table (dev_mem d) (Z.land addr (Z.lnot 3)) = true ->
        exists ids scan,
          evs = ids ++ scan
          /\ tar_writes ids = id_reg_addrs (Z.land addr (Z.lnot 3))
          /\ forallb transport_only ids = true
          /\ scan_log d depth ap (Z.land addr (Z.lnot 3)) recursion 960 0
               (w ++ ids) scan
               (flat_scan_addrs (dev_mem d) 960 (Z.land addr (Z.lnot 3)) 0)
               false res).
Proof.
  intros H.
  destruct (mock_probe_step d depth ap addr recursion num_entry w)
    as [ids [T1 [O1 S0]]].
  destruct (is_rom_table (dev_mem d) (Z.land addr (Z.lnot 3))) eqn:Er.
  - destruct depth as [|depth];
      [cbn [rom_nesting_ok] in H; rewrite Er in H; discriminate|].
    cbn [rom_nesting_ok] in H. rewrite Er in H.
    destruct (mock_rom_loop_log (S depth) (rom_nesting_ok (dev_mem d) depth)
                ap (Z.land addr (Z.lnot 3)) recursion
                (fun addr' r i w' Hc =>
                   mock_probe_terminates d ap depth addr' r i w' Hc)
                (aligned_lnot3 addr) 960 0 false (w ++ ids) H)
      as [res [scan [E2 S2]]].
    exists res, (ids ++ scan). rewrite S0, E2, <- app_assoc.
    split; [reflexivity|]. intros _. exists ids, scan. auto.
  - destruct S0 as [r [w' E]]. rewrite E.
    pose proof (fext_component_probe _ _ _ _ _ _ _ _ _ E) as [evs [-> _]].
    exists r, evs. split; [reflexivity|discriminate].
Qed.

(** A scan that returns has followed only entries whose walk
    returned. *)
Lemma mock_rom_loop_returned (probe : Z -> Z -> Z -> F bool)
    (chk : Z -> bool) (ap : ADIv5_AP_t) (a recursion : Z) :
  (forall addr r i w x, probe addr r i w = Some x -> chk addr = true) ->
  Z.land a 3 = 0 ->
  forall n i res w x,
    rom_table_loop (env_dev d) probe n ap a recursion i res w = Some x ->
    rom_entries_ok chk (dev_mem d) n a i = true.
Proof.
  intros Hp Ha. induction n as [|n IH]; intros i res w x H; [reflexivity|].
  rewrite rom_table_loop_S in H.
  destruct (mock_read32 d ap (u32 (a + i * 4)) w (entry_aligned a i Ha))
    as [rd [E1 _]].
  rewrite E1, mock_dp_error in H.
  cbn [rom_entries_ok].
  destruct (u32 (dev_mem d (u32 (a + i * 4))) =? 0); [reflexivity|].
  destruct (Z.land (u32 (dev_mem d (u32 (a + i * 4))))
              ADIV5_ROM_ROMENTRY_PRESENT =? 0).
  - eapply IH. exact H.
  - destruct (probe _ (recursion + 1) i ((w ++ rd) ++ [Ev DpError 0]))
      as [[r w3]|] eqn:E3; [|discriminate].
    rewrite (Hp _ _ _ _ _ E3). eapply IH. exact H.
Qed.

(** A walk that returns within [fuel] levels has met tables that nest at
    most [fuel] deep. *)
Lemma mock_probe_returned (ap : ADIv5_AP_t) (fuel : nat) :
  forall addr recursion num_entry w x,
    adiv5_component_probe (env_dev d) fuel ap addr recursion num_entry w
    = Some x ->
    rom_nesting_ok (dev_mem d) fuel addr = true.
Proof.
  induction fuel as [|fuel IH]; intros addr recursion num_entry w x H;
    [discriminate|].
  destruct (mock_probe_step d fuel ap addr recursion num_entry w)
    as [ids [_ [_ S0]]].
  cbn [rom_nesting_ok].
  destruct (is_rom_table (dev_mem d) (Z.land addr (Z.lnot 3)));
    [|reflexivity].
  rewrite S0 in H.
  eapply mock_rom_loop_returned; [|apply aligned_lnot3|exact H].
  intros addr' r i w' x' E. eapply IH. exact E.
Qed.

(** A table whose first entry is present and leads to the table itself
    is never left. *)
Lemma self_entry_diverges (ap : ADIv5_AP_t) (a : Z) :
  Z.land a (Z.lnot 3) = a -> u32 a = a ->
  is_rom_table (dev_mem d) a = true ->
  Z.land (rom_entry (dev_mem d) a 0) ADIV5_ROM_ROMENTRY_PRESENT <> 0 ->
  Z.land (rom_entry (dev_mem d) a 0) ADIV5_ROM_ROMENTRY_OFFSET = 0 ->
  forall fuel recursion num_entry w,
    adiv5_component_probe (env_dev d) fuel ap a recursion num_entry w = None.
Proof.
  intros Ha Hu Hr Hp Ho.
  assert (Ha3 : Z.land a 3 = 0) by (rewrite <- Ha; apply aligned_lnot3).
  induction fuel as [|fuel IH]; intros recursion num_entry w;
    [reflexivity|].
  destruct (mock_probe_step d fuel ap a recursion num_entry w)
    as [ids [_ [_ S0]]].
  rewrite Ha, Hr in S0. rewrite S0.
  change 960%nat with (S 959). rewrite rom_table_loop_S.
  destruct (mock_read32 d ap (u32 (a + 0 * 4)) (w ++ ids)
              (entry_aligned a 0 Ha3)) as [rd [E1 _]].
  rewrite E1, mock_dp_error.
  fold (rom_entry (dev_mem d) a 0).
  destruct (Z.eqb_spec (rom_entry (dev_mem d) a 0) 0) as [Ez|_].
  { rewrite Ez in Hp. now rewrite Z.land_0_l in Hp. }
  destruct (Z.eqb_spec (Z.land (rom_entry (dev_mem d) a 0)
                          ADIV5_ROM_ROMENTRY_PRESENT) 0) as [Ep|_];
    [contradiction|].
  rewrite Ho, Z.add_0_r, Hu, IH. reflexivity.
Qed.

End MockWalk.

Lemma lnot3_idem (x : Z) :
  Z.land (Z.land x (Z.lnot 3)) (Z.lnot 3) = Z.land x (Z.lnot 3).
Proof. now rewrite <- Z.land_assoc, Z.land_diag. Qed.

Lemma lnot3_u32 (x : Z) :
  0 <= x < 2 ^ 32 -> u32 (Z.land x (Z.lnot 3)) = Z.land x (Z.lnot 3).
Proof.
  intros Hx. apply u32_small. rewrite <- Z.ldiff_land.
  change 3 with (Z.ones 2). rewrite Z.ldiff_ones_r by lia.
  rewrite Z.shiftl_mul_pow2, Z.shiftr_div_pow2 by lia.
  change (2 ^ 2) with 4.
  pose proof (Z.div_mod x 4 ltac:(lia)) as E.
  pose proof (Z.mod_pos_bound x 4 ltac:(lia)) as B. lia.
Qed.

Lemma probe_aligned (env : world -> call -> Z) (fuel : nat)
    (ap : ADIv5_AP_t) (addr recursion num_entry : Z) (w : world) :
  adiv5_component_probe env fuel ap addr recursion num_entry w
  = adiv5_component_probe env fuel ap (Z.land addr (Z.lnot 3)) recursion
      num_entry w.
Proof.
  destruct fuel as [|fuel]; [reflexivity|].
  cbn [adiv5_component_probe]. rewrite lnot3_idem. reflexivity.
Qed.

(** C4 (as the code has it): nothing in the walk records the base
    addresses already visited or bounds the depth.  On a debug port with
    a fixed memory image the walk returns exactly when the ROM tables
    that it meets nest to a finite depth below the start address: with
    tables at most [depth] deep it returns within [depth + 1] levels of
    recursion, and a walk that returns within [fuel] levels has met
    tables at most [fuel] deep.  The scan of a table reads its entries in
    order, follows the present ones, and ends with the first zero entry
    or after 960 entries: its log is a [scan_log] and the entries read
    are [flat_scan_addrs], at most 960.  For a table no entry of which
    is followed, the addresses written to TAR are those of the
    identification registers and then [flat_scan_addrs].  A table whose
    first entry is present and leads to the table itself is never left. *)
Theorem C4_rom_walk_bounded
    (d : device) (ap : ADIv5_AP_t) (w : world)
    (addr recursion num_entry : Z) :
  let a := Z.land addr (Z.lnot 3) in
  (forall depth,
      rom_nesting_ok (dev_mem d) depth addr = true ->
      exists res evs,
        adiv5_component_probe (env_dev d) (S depth) ap addr recursion
          num_entry w = Some (res, w ++ evs)
        /\ (is_rom_table (dev_mem d) a = true ->
            exists ids scan,
              evs = ids ++ scan
              /\ tar_writes ids = id_reg_addrs a
              /\ forallb transport_only ids = true
              /\ scan_log d depth ap a recursion 960 0 (w ++ ids) scan
                   (flat_scan_addrs (dev_mem d) 960 a 0) false res
              /\ (length (flat_scan_addrs (dev_mem d) 960 a 0) <= 960)%nat))
  /\ (forall fuel x,
        adiv5_component_probe (env_dev d) fuel ap addr recursion
          num_entry w = Some x ->
        rom_nesting_ok (dev_mem d) fuel addr = true)
  /\ (forall fuel,
        is_rom_table (dev_mem d) a = true ->
        rom_entries_ok (fun _ => false) (dev_mem d) 960 a 0 = true ->
        exists evs,
          adiv5_component_probe (env_dev d) (S fuel) ap addr recursion
            num_entry w = Some (false, w ++ evs)
          /\ tar_writes evs =
             id_reg_addrs a ++ flat_scan_addrs (dev_mem d) 960 a 0)
  /\ (0 <= addr < 2 ^ 32 ->
      is_rom_table (dev_mem d) a = true ->
      Z.land (rom_entry (dev_mem d) a 0) ADIV5_ROM_ROMENTRY_PRESENT <> 0 ->
      Z.land (rom_entry (dev_mem d) a 0) ADIV5_ROM_ROMENTRY_OFFSET = 0 ->
      forall fuel,
        adiv5_component_probe (env_dev d) fuel ap addr recursion
          num_entry w = None).
Proof.
  intros a. split; [|split; [|split]].
  - intros depth Hn.
    destruct (mock_probe_log d ap depth addr recursion num_entry w Hn)
      as [res [evs [E S0]]].
    exists res, evs. split; [exact E|]. intros Hr.
    destruct (S0 Hr) as [ids [scan [E1 [T1 [O1 S1]]]]].
    exists ids, scan. repeat split; try assumption.
    apply flat_scan_addrs_length.
  - intros fuel x H. eapply mock_probe_returned. exact H.
  - intros fuel Hr He.
    destruct (mock_probe_step d fuel ap addr recursion num_entry w)
      as [e1 [T1 [_ S0]]].
    fold a in T1, S0. rewrite Hr in S0. rewrite S0.
    destruct (mock_rom_loop_flat d
                (adiv5_component_probe (env_dev d) fuel ap)
                ap a recursion (aligned_lnot3 addr) 960 0 false (w ++ e1) He)
      as [e2 [E2 T2]].
    exists (e1 ++ e2). rewrite E2, <- app_assoc. split; [reflexivity|].
    rewrite tar_writes_app, T1, T2. reflexivity.
  - intros Ha Hr Hp Ho fuel. rewrite probe_aligned. fold a.
    apply self_entry_diverges; try assumption.
    + apply lnot3_idem.
    + apply lnot3_u32. exact Ha.
Qed.

Lemma selfref_diverges (ap : ADIv5_AP_t) (fuel : nat) :
  forall recursion num_entry w,
    adiv5_component_probe (env_dev selfref_dev) fuel ap 0xE00FF000
      recursion num_entry w = None.
Proof.
  induction fuel as [|fuel IH]; intros recursion num_entry w;
    [reflexivity|].
  destruct (mock_probe_step selfref_dev fuel ap 0xE00FF000 recursion
              num_entry w) as [e1 [_ [_ S0]]].
  change (Z.land 0xE00FF000 (Z.lnot 3)) with 0xE00FF000 in S0.
  change (is_rom_table (dev_mem selfref_dev) 0xE00FF000) with true in S0.
  cbv iota in S0. rewrite S0.
  change 960%nat with (S 959). rewrite rom_table_loop_S.
  destruct (mock_read32 selfref_dev ap (u32 (0xE00FF000 + 0 * 4)) (w ++ e1)
              (entry_aligned 0xE00FF000 0 eq_refl)) as [e2 [E2 _]].
  rewrite E2, mock_dp_error.
  change (u32 (dev_mem selfref_dev (u32 (0xE00FF000 + 0 * 4)))) with 3.
  change (3 =? 0) with false.
  change (Z.land 3 ADIV5_ROM_ROMENTRY_PRESENT =? 0) with false.
  change (u32 (0xE00FF000 + Z.land 3 ADIV5_ROM_ROMENTRY_OFFSET))
    with 0xE00FF000.
  cbv iota. rewrite IH. reflexivity.
Qed.

(** C4, counterexample: the probe of a ROM table whose first entry points
    back at the table returns for no bound on the recursion depth,
    although one base address only is ever visited. *)
Lemma C4_counterexample_selfref :
  ~ (exists fuel r,
        adiv5_component_probe (env_dev selfref_dev) fuel ap0 0xE00FF000 0 0 []
        = Some r).
Proof.
  intros [fuel [r H]]. rewrite selfref_diverges in H. discriminate.
Qed.

(** ** Reports of the AP scan *)

Section ReportFacts.

Variable idc : bool.

(** The loop state that goes with the entries [pre] reported so far. *)
Definition scan_state (pre : list ap_outcome) (n : nat) (i lb va : Z)
    (p : bool) : Prop :=
  Z.of_nat (length pre) = i
  /\ (n + length pre = 256)%nat
  /\ lb = last_base_of pre
  /\ va = Z.of_nat (count_absent pre)
  /\ p = probed_in pre
  /\ forallb (fun e => negb (is_duplicate e)) pre = true
  /\ hd_error pre <> Some ApAbsent.

Lemma count_absent_snoc (l : list ap_outcome) (e : ap_outcome) :
  count_absent (l ++ [e])
  = (count_absent l + (if is_absent e then 1 else 0))%nat.
Proof.
  unfold count_absent. rewrite filter_app, length_app. cbn [filter].
  destruct (is_absent e); reflexivity.
Qed.

Lemma last_base_of_snoc (l : list ap_outcome) (e : ap_outcome) :
  last_base_of (l ++ [e])
  = match e with
    | ApNoDebug b | ApMem b _ _ => b
    | _ => last_base_of l
    end.
Proof. unfold last_base_of. rewrite fold_left_app. reflexivity. Qed.

Lemma probed_in_snoc (l : list ap_outcome) (e : ap_outcome) :
  probed_in (l ++ [e])
  = probed_in l
    || match e with ApMem _ found forced => found || forced | _ => false end.
Proof.
  unfold probed_in. rewrite existsb_app. cbn [existsb].
  now rewrite orb_false_r.
Qed.

Lemma no_duplicate_last (l : list ap_outcome) :
  forallb (fun e => negb (is_duplicate e)) l = true ->
  is_duplicate (last l ApAbsent) = false.
Proof.
  induction l as [|e l IH]; [reflexivity|].
  cbn [forallb]. intros H. apply andb_prop in H. destruct H as [He Hl].
  destruct l as [|e' l'].
  - cbn. now apply negb_true_iff in He.
  - change (last (e :: e' :: l') ApAbsent) with (last (e' :: l') ApAbsent).
    apply IH. exact Hl.
Qed.

Lemma scan_state_continues (pre : list ap_outcome) (n : nat)
    (i lb va : Z) (p : bool) :
  scan_state pre (S n) i lb va p -> va < 8 -> stops_after pre = false.
Proof.
  intros (Hi & Hn & Hlb & Hva & Hp & Hd & Hh) Hlt. unfold stops_after.
  rewrite (no_duplicate_last pre Hd).
  replace (256 <=? length pre)%nat with false
    by (symmetry; apply Nat.leb_gt; lia).
  replace (8 <=? count_absent pre)%nat with false
    by (symmetry; apply Nat.leb_gt; lia).
  destruct pre as [|[] [|]]; try reflexivity.
  exfalso. apply Hh. reflexivity.
Qed.

Lemma firstn_prefix (k : nat) (l : list ap_outcome) (e : ap_outcome) :
  (k <= length l)%nat -> firstn k (l ++ [e]) = firstn k l.
Proof.
  intros H. rewrite firstn_app.
  replace (k - length l)%nat with O by lia.
  cbn [firstn]. apply app_nil_r.
Qed.

Lemma report_ok_snoc (pre : list ap_outcome) (e : ap_outcome) :
  report_ok idc pre ->
  (pre <> [] -> stops_after pre = false) ->
  entry_ok idc pre e ->
  report_ok idc (pre ++ [e]).
Proof.
  intros [H1 H2] Hs He. split.
  - intros k Hk. rewrite length_app in Hk. cbn [length] in Hk.
    rewrite firstn_prefix by lia.
    destruct (Nat.eq_dec k (length pre)) as [->|Nk].
    + rewrite firstn_all. apply Hs. destruct pre; [cbn in Hk; lia|discriminate].
    + apply H1. lia.
  - intros k x Hx.
    assert (Hk : (k < length (pre ++ [e]))%nat)
      by (apply nth_error_Some; congruence).
    rewrite length_app in Hk. cbn [length] in Hk.
    rewrite firstn_prefix by lia.
    destruct (Nat.eq_dec k (length pre)) as [->|Nk].
    + rewrite nth_error_app2, Nat.sub_diag in Hx by lia.
      injection Hx as <-. rewrite firstn_all. exact He.
    + rewrite nth_error_app1 in Hx by lia. apply H2. exact Hx.
Qed.

Lemma scan_rel_report (n : nat) (i lb va : Z) (p : bool)
    (entries : list ap_outcome) :
  scan_rel idc n i lb va p entries ->
  forall pre,
    scan_state pre n i lb va p ->
    report_ok idc pre ->
    stops_after (pre ++ entries) = true /\ report_ok idc (pre ++ entries).
Proof.
  induction 1 as [i lb va p|n i lb va p Hv|n lb va p Hv
                  |n i lb va p rest Hv Hi R IH|n i lb va p Hv
                  |n i lb va p b rest Hv Hb R IH
                  |n i lb va p b found rest Hv Hb R IH];
    intros pre St Ok.
  - rewrite app_nil_r. split; [|exact Ok].
    destruct St as (_ & Hn & _). unfold stops_after.
    replace (256 <=? length pre)%nat with true
      by (symmetry; apply Nat.leb_le; lia).
    reflexivity.
  - rewrite app_nil_r. split; [|exact Ok].
    destruct St as (_ & _ & _ & Hva & _). unfold stops_after.
    replace (8 <=? count_absent pre)%nat with true
      by (symmetry; apply Nat.leb_le; lia).
    now rewrite !orb_true_r.
  - assert (pre = []) as ->.
    { destruct St as (Hi & _). destruct pre; [reflexivity|].
      cbn [length] in Hi. lia. }
    split; [reflexivity|].
    apply (report_ok_snoc [] ApAbsent Ok); [congruence|exact I].
  - pose proof (scan_state_continues _ _ _ _ _ _ St Hv) as Hc.
    assert (Ok' : report_ok idc (pre ++ [ApAbsent]))
      by (apply report_ok_snoc; [exact Ok|auto|exact I]).
    destruct St as (Hl & Hn & Hlb & Hva & Hp & Hd & Hh).
    rewrite (app_assoc pre [ApAbsent] rest : pre ++ ApAbsent :: rest = _).
    apply IH; [|exact Ok'].
    repeat split.
    + rewrite length_app. cbn [length]. lia.
    + rewrite length_app. cbn [length]. lia.
    + now rewrite last_base_of_snoc.
    + rewrite count_absent_snoc. cbn [is_absent]. lia.
    + rewrite probed_in_snoc. now rewrite orb_false_r.
    + rewrite forallb_app, Hd. reflexivity.
    + destruct pre; [cbn [length] in Hl; lia|exact Hh].
  - pose proof (scan_state_continues _ _ _ _ _ _ St Hv) as Hc.
    destruct St as (Hl & Hn & Hlb & Hva & Hp & Hd & Hh).
    split.
    + unfold stops_after. rewrite last_last. cbn [is_duplicate].
      now rewrite orb_true_r.
    + apply report_ok_snoc; [exact Ok|auto|exact Hlb].
  - pose proof (scan_state_continues _ _ _ _ _ _ St Hv) as Hc.
    destruct St as (Hl & Hn & Hlb & Hva & Hp & Hd & Hh).
    assert (Ok' : report_ok idc (pre ++ [ApNoDebug b])).
    { apply report_ok_snoc; [exact Ok|auto|]. cbn. congruence. }
    rewrite (app_assoc pre [ApNoDebug b] rest
             : pre ++ ApNoDebug b :: rest = _).
    apply IH; [|exact Ok'].
    repeat split.
    + rewrite length_app. cbn [length]. lia.
    + rewrite length_app. cbn [length]. lia.
    + now rewrite last_base_of_snoc.
    + rewrite count_absent_snoc. cbn [is_absent]. lia.
    + rewrite probed_in_snoc. now rewrite orb_false_r.
    + rewrite forallb_app, Hd. reflexivity.
    + destruct pre; [cbn; congruence|exact Hh].
  - pose proof (scan_state_continues _ _ _ _ _ _ St Hv) as Hc.
    destruct St as (Hl & Hn & Hlb & Hva & Hp & Hd & Hh).
    set (forced := negb (p || found) && idc) in *.
    assert (Ok' : report_ok idc (pre ++ [ApMem b found forced])).
    { apply report_ok_snoc; [exact Ok|auto|]. cbn. split; [congruence|].
      unfold forced. rewrite Hp.
      destruct (probed_in pre), found, idc; reflexivity. }
    rewrite (app_assoc pre [ApMem b found forced] rest
             : pre ++ ApMem b found forced :: rest = _).
    apply IH; [|exact Ok'].
    repeat split.
    + rewrite length_app. cbn [length]. lia.
    + rewrite length_app. cbn [length]. lia.
    + now rewrite last_base_of_snoc.
    + rewrite count_absent_snoc. cbn [is_absent]. lia.
    + rewrite probed_in_snoc, Hp.
      destruct (probed_in pre), found, forced; reflexivity.
    + rewrite forallb_app, Hd. reflexivity.
    + destruct pre; [cbn; congruence|exact Hh].
Qed.

End ReportFacts.

(** ** Logs without reads of IDR *)

Lemma idr_reads_from_app (a b : list event) :
  forall sel,
    idr_reads_from sel (a ++ b)
    = idr_reads_from sel a ++ idr_reads_from (select_from sel a) b.
Proof.
  induction a as [|e a IH]; intros sel; [reflexivity|].
  cbn [app idr_reads_from select_from].
  destruct (ev_call e); try apply IH.
  - destruct (_ && _); apply IH.
  - destruct (_ =? ADIV5_AP_IDR); [|apply IH].
    cbn [app]. f_equal. apply IH.
Qed.

Lemma idr_reads_from_none (evs : list event) :
  forallb no_idr evs = true -> forall sel, idr_reads_from sel evs = [].
Proof.
  induction evs as [|e evs IH]; intros O sel; [reflexivity|].
  cbn [forallb] in O. apply andb_prop in O. destruct O as [Oe Or].
  cbn [idr_reads_from]. unfold no_idr in Oe.
  destruct (ev_call e); try (apply IH; exact Or).
  - destruct (_ && _); apply IH; exact Or.
  - destruct (_ =? ADIV5_AP_IDR); [discriminate|]. apply IH. exact Or.
Qed.

Lemma ext_idr (w w' : world) :
  ext no_idr w w' -> ap_idr_reads w' = ap_idr_reads w.
Proof.
  intros [evs [-> O]]. unfold ap_idr_reads.
  rewrite idr_reads_from_app, (idr_reads_from_none evs O).
  apply app_nil_r.
Qed.

Section NoIdr.

Variable env : world -> call -> Z.

Ltac no_idr_call := apply mext_extcall; intros ?; reflexivity.

Ltac no_idr_steps :=
  repeat first
    [ apply mext_ret
    | no_idr_call
    | apply mext_bind; [|intros ?]
    | match goal with
      | |- mext _ (if ?c then _ else _) => destruct c
      | |- mext _ (match ?x with _ => _ end) => destruct x
      end ].

Lemma no_idr_mem_read_loop (n : nat) (a : align) :
  forall dest src osrc log,
    mext no_idr (mem_read_loop env n a dest src osrc log).
Proof.
  induction n as [|n IH]; intros dest src osrc log; [apply mext_ret|].
  cbn [mem_read_loop]. apply mext_bind; [no_idr_call|]. intros tmp.
  destruct (_ =? 0); [apply IH|].
  apply mext_bind; [no_idr_call|]. intros _.
  apply mext_bind; [no_idr_call|]. intros _. apply IH.
Qed.

Lemma no_idr_mem_read32 (ap : ADIv5_AP_t) (addr : Z) :
  mext no_idr (adiv5_mem_read32 env ap addr).
Proof.
  unfold adiv5_mem_read32, adiv5_mem_read.
  apply mext_bind; [|intros ?; apply mext_ret].
  destruct (_ =? 0); [apply mext_ret|].
  apply mext_bind; [unfold ap_mem_access_setup, adiv5_ap_write; no_idr_steps|].
  intros _. apply mext_bind; [no_idr_call|]. intros _.
  apply mext_bind; [apply no_idr_mem_read_loop|]. intros r.
  no_idr_steps.
Qed.

Lemma no_idr_read_id_loop (ap : ADIv5_AP_t) (addr : Z) (idxs : list Z) :
  forall res, mext no_idr (ap_read_id_loop env idxs ap addr res).
Proof.
  induction idxs as [|i idxs IH]; intros res; [apply mext_ret|].
  cbn [ap_read_id_loop]. apply mext_bind; [apply no_idr_mem_read32|].
  intros x. apply IH.
Qed.

Lemma no_idr_dispatch (ap : ADIv5_AP_t) (addr pidr : Z) :
  mext no_idr (component_dispatch env ap addr pidr).
Proof.
  unfold component_dispatch. destruct (pn_find _ _); [|apply mext_ret].
  apply mext_bind.
  { destruct (arch _); try apply mext_ret. unfold adiv5_armv8_probe.
    apply mext_bind; [apply no_idr_mem_read32|]. intros devarch.
    destruct (negb _); [apply mext_ret|].
    apply mext_bind; [apply no_idr_mem_read32|]. intros devtype.
    apply mext_ret. }
  intros armv8. unfold cortexm_probe, cortexa_probe. no_idr_steps.
Qed.

Lemma no_idr_rom_table_loop (probe : Z -> Z -> Z -> F bool)
    (ap : ADIv5_AP_t) (addr recursion : Z) :
  (forall a r i, fext no_idr (probe a r i)) ->
  forall n i res,
    fext no_idr (rom_table_loop env probe n ap addr recursion i res).
Proof.
  intros Hp. induction n as [|n IH]; intros i res; [apply fext_ret|].
  cbn [rom_table_loop].
  apply fext_bind; [apply fext_lift, no_idr_mem_read32|]. intros entry.
  apply fext_bind; [apply fext_lift; no_idr_call|]. intros _.
  destruct (entry =? 0); [apply fext_ret|].
  destruct (_ =? 0); [apply IH|].
  apply fext_bind; [apply Hp|]. intros r. apply IH.
Qed.

Lemma no_idr_component_probe (ap : ADIv5_AP_t) (fuel : nat) :
  forall addr recursion num_entry,
    fext no_idr (adiv5_component_probe env fuel ap addr recursion num_entry).
Proof.
  induction fuel as [|fuel IH]; intros addr recursion num_entry.
  - intros w r w' H. discriminate.
  - cbn [adiv5_component_probe].
    apply fext_bind.
    { apply fext_lift. unfold adiv5_ap_read_pidr, adiv5_ap_read_id.
      apply mext_bind; [apply no_idr_read_id_loop|]. intros hi.
      apply mext_bind; [apply no_idr_read_id_loop|]. intros lo.
      apply mext_ret. }
    intros pidr. apply fext_bind.
    { apply fext_lift. unfold adiv5_ap_read_id. apply no_idr_read_id_loop. }
    intros cidr. apply fext_bind; [apply fext_lift; no_idr_call|].
    intros err.
    destruct (negb (err =? 0)); [apply fext_ret|].
    destruct (negb (_ =? CID_PREAMBLE)); [apply fext_ret|].
    destruct (_ =? cidc_romtab).
    + apply no_idr_rom_table_loop. exact IH.
    + destruct (negb _); [apply fext_ret|].
      apply fext_lift, no_idr_dispatch.
Qed.

Lemma no_idr_aap_probe (ap : ADIv5_AP_t) :
  mext no_idr (efm32_aap_probe env ap).
Proof. unfold efm32_aap_probe. no_idr_steps. Qed.

End NoIdr.

Lemma select_top_byte (a reg : Z) :
  0 <= a < 256 ->
  Z.shiftr (Z.lor (u32 (Z.shiftl a 24)) (Z.land reg 0xF0)) 24 = a.
Proof.
  intros Ha. rewrite Z.shiftr_lor.
  assert (Hs : u32 (Z.shiftl a 24) = Z.shiftl a 24).
  { apply u32_small. rewrite Z.shiftl_mul_pow2 by lia. lia. }
  rewrite Hs, Z.shiftr_shiftl_l by lia.
  change (24 - 24) with 0. rewrite Z.shiftl_0_r.
  assert (Hr : 0 <= Z.land reg 0xF0 < 2 ^ 8).
  { change 240 with (Z.land 240 (Z.ones 8)). rewrite Z.land_assoc.
    rewrite Z.land_ones by lia. apply Z.mod_pos_bound. lia. }
  rewrite (Z.shiftr_div_pow2 (Z.land reg 240)) by lia.
  rewrite Z.div_small by lia. apply Z.lor_0_r.
Qed.

Section ScanIdr.

Variable env : world -> call -> Z.

Lemma new_ap_idr (dp : ADIv5_DP_t) (a : Z) (w : world) :
  0 <= a < 256 ->
  ap_idr_reads (snd (adiv5_new_ap env dp a w)) = ap_idr_reads w ++ [a].
Proof.
  intros Ha.
  unfold adiv5_new_ap, adiv5_ap_read, adiv5_dp_write, adiv5_dp_low_access,
    adiv5_dp_read, bind, extcall, ret.
  cbv beta iota zeta. cbn [apsel].
  repeat match goal with
         | |- context [if ?c =? 0 then _ else _] => destruct (c =? 0)
         end;
    cbn [snd]; unfold ap_idr_reads; rewrite <- !app_assoc;
    rewrite idr_reads_from_app; f_equal; cbn [app idr_reads_from ev_call];
    rewrite !Z.eqb_refl; cbn [andb];
    change (ADIV5_AP_BASE =? ADIV5_AP_IDR) with false;
    change (ADIV5_AP_CFG =? ADIV5_AP_IDR) with false;
    change (ADIV5_AP_CSW =? ADIV5_AP_IDR) with false;
    cbv iota; now rewrite select_top_byte.
Qed.

Lemma apsel_seq_step (i : Z) (m : nat) :
  map (fun k => u8 (i + Z.of_nat k)) (seq 0 (S m))
  = u8 i :: map (fun k => u8 (i + 1 + Z.of_nat k)) (seq 0 m).
Proof.
  cbn [seq map]. rewrite Z.add_0_r. f_equal.
  rewrite <- seq_shift, map_map. apply map_ext. intros k. f_equal. lia.
Qed.

Lemma ap_loop_idr (fuel : nat) (dp : ADIv5_DP_t) (n : nat) :
  forall i lb va p log w log' w',
    dp_init_ap_loop env fuel n dp i lb va p log w = Some (log', w') ->
    exists entries,
      log' = log ++ entries
      /\ ap_idr_reads w'
         = ap_idr_reads w
             ++ map (fun k => u8 (i + Z.of_nat k)) (seq 0 (length entries)).
Proof.
  induction n as [|n IH]; intros i lb va p log w log' w' H.
  - injection H as <- <-. exists []. now rewrite !app_nil_r.
  - cbn [dp_init_ap_loop] in H.
    destruct (va <? 8); cbn [negb] in H.
    2:{ injection H as <- <-. exists []. now rewrite !app_nil_r. }
    unfold bindF at 1 in H. unfold liftF at 1 in H.
    cbn [adiv5_ap_setup] in H.
    assert (Hu : 0 <= u8 i < 256)
      by (unfold u8; apply Z.mod_pos_bound; lia).
    pose proof (new_ap_idr dp (u8 i) w Hu) as Xn.
    destruct (adiv5_new_ap env dp (u8 i) w) as [[ap|] w1]; cbn [snd] in Xn.
    + destruct (base ap =? lb).
      { injection H as <- <-. exists [ApDuplicate (base ap)].
        split; [reflexivity|]. cbn [length seq map].
        now rewrite Z.add_0_r. }
      unfold bindF at 1 in H. unfold liftF at 1 in H.
      pose proof (mext_extcall env no_idr (KinetisMdmProbe (apsel ap))
                    (fun _ => eq_refl) w1) as X2.
      destruct (extcall env (KinetisMdmProbe (apsel ap)) w1) as [k w2].
      cbn [snd] in X2. apply ext_idr in X2.
      unfold bindF at 1 in H. unfold liftF at 1 in H.
      pose proof (mext_extcall env no_idr (Nrf51MdmProbe (apsel ap))
                    (fun _ => eq_refl) w2) as X3.
      destruct (extcall env (Nrf51MdmProbe (apsel ap)) w2) as [k' w3].
      cbn [snd] in X3. apply ext_idr in X3.
      unfold bindF at 1 in H. unfold liftF at 1 in H.
      pose proof (no_idr_aap_probe env ap w3) as X4.
      destruct (efm32_aap_probe env ap w3) as [t w4].
      cbn [snd] in X4. apply ext_idr in X4.
      destruct ((Z.land (base ap) ADIV5_AP_BASE_PRESENT =? 0)
                || (base ap =? 4294967295)).
      { destruct (IH _ _ _ _ _ _ _ _ H) as [rest [-> R]].
        exists (ApNoDebug (base ap) :: rest). rewrite <- app_assoc.
        split; [reflexivity|]. cbn [length]. rewrite apsel_seq_step.
        rewrite R, X4, X3, X2, Xn, <- app_assoc. reflexivity. }
      unfold bindF at 1 in H.
      destruct (adiv5_component_probe env fuel ap (base ap) 0 0 w4)
        as [[found w5]|] eqn:Ep; [|discriminate].
      apply no_idr_component_probe, ext_idr in Ep.
      destruct (negb (p || found) && (Z.land (idcode dp) 4095 =? 1143)).
      * unfold bindF at 1 in H. unfold liftF at 1 in H.
        pose proof (mext_extcall env no_idr (CortexmProbe (apsel ap) true)
                      (fun _ => eq_refl) w5) as X6.
        unfold cortexm_probe in H.
        destruct (extcall env (CortexmProbe (apsel ap) true) w5) as [r w6].
        cbn [snd] in X6. apply ext_idr in X6.
        destruct (IH _ _ _ _ _ _ _ _ H) as [rest [-> R]].
        exists (ApMem (base ap) found true :: rest). rewrite <- app_assoc.
        split; [reflexivity|]. cbn [length]. rewrite apsel_seq_step.
        rewrite R, X6, Ep, X4, X3, X2, Xn, <- app_assoc. reflexivity.
      * destruct (IH _ _ _ _ _ _ _ _ H) as [rest [-> R]].
        exists (ApMem (base ap) found false :: rest). rewrite <- app_assoc.
        split; [reflexivity|]. cbn [length]. rewrite apsel_seq_step.
        rewrite R, Ep, X4, X3, X2, Xn, <- app_assoc. reflexivity.
    + destruct (i =? 0).
      { injection H as <- <-. exists [ApAbsent].
        split; [reflexivity|]. cbn [length seq map].
        now rewrite Z.add_0_r. }
      destruct (IH _ _ _ _ _ _ _ _ H) as [rest [-> R]].
      exists (ApAbsent :: rest). rewrite <- app_assoc.
      split; [reflexivity|]. cbn [length]. rewrite apsel_seq_step.
      rewrite R, Xn, <- app_assoc. reflexivity.
Qed.

Lemma apsel_seq_small (m : nat) :
  (m <= 256)%nat ->
  map (fun k => u8 (0 + Z.of_nat k)) (seq 0 m) = map Z.of_nat (seq 0 m).
Proof.
  intros Hm. apply map_ext_in. intros k Hk. apply in_seq in Hk.
  unfold u8. apply Z.mod_small. lia.
Qed.

End ScanIdr.

(** The loop over [apsel] returns when each walk does. *)
Section ScanReturns.

Variable env : world -> call -> Z.
Variable fuel : nat.
Hypothesis probe_returns :
  forall ap addr w,
    adiv5_component_probe env fuel ap addr 0 0 w <> None.

Lemma ap_loop_returns (dp : ADIv5_DP_t) (n : nat) :
  forall i lb va p log w,
  exists log' w',
    dp_init_ap_loop env fuel n dp i lb va p log w = Some (log', w')
    /\ (length log' <= length log + n)%nat.
Proof.
  induction n as [|n IH]; intros i lb va p log w.
  - exists log, w. split; [reflexivity|lia].
  - cbn [dp_init_ap_loop].
    destruct (va <? 8); cbn [negb];
      [|exists log, w; split; [reflexivity|lia]].
    unfold bindF at 1. unfold liftF at 1. cbn [adiv5_ap_setup].
    destruct (adiv5_new_ap env dp (u8 i) w) as [[ap|] w1].
    + destruct (base ap =? lb).
      { eexists _, _. split; [reflexivity|].
        rewrite length_app. cbn [length]. lia. }
      unfold bindF at 1. unfold liftF at 1.
      destruct (extcall env (KinetisMdmProbe (apsel ap)) w1) as [k1 w2].
      unfold bindF at 1. unfold liftF at 1.
      destruct (extcall env (Nrf51MdmProbe (apsel ap)) w2) as [k2 w3].
      unfold bindF at 1. unfold liftF at 1.
      destruct (efm32_aap_probe env ap w3) as [t w4].
      destruct ((Z.land (base ap) ADIV5_AP_BASE_PRESENT =? 0)
                || (base ap =? 4294967295)).
      { destruct (IH (i + 1) (base ap) va p (log ++ [ApNoDebug (base ap)]) w4)
          as [log' [w' [E L]]].
        exists log', w'. split; [exact E|].
        rewrite length_app in L. cbn [length] in L. lia. }
      unfold bindF at 1.
      pose proof (probe_returns ap (base ap) w4) as Hp.
      destruct (adiv5_component_probe env fuel ap (base ap) 0 0 w4)
        as [[found w5]|]; [clear Hp|contradiction].
      destruct (negb (p || found) && (Z.land (idcode dp) 4095 =? 1143)).
      * unfold bindF at 1. unfold liftF at 1.
        destruct (cortexm_probe env ap true w5) as [r w6].
        destruct (IH (i + 1) (base ap) va true
                    (log ++ [ApMem (base ap) found true]) w6)
          as [log' [w' [E L]]].
        exists log', w'. split; [exact E|].
        rewrite length_app in L. cbn [length] in L. lia.
      * destruct (IH (i + 1) (base ap) va (p || found)
                    (log ++ [ApMem (base ap) found false]) w5)
          as [log' [w' [E L]]].
        exists log', w'. split; [exact E|].
        rewrite length_app in L. cbn [length] in L. lia.
    + destruct (i =? 0).
      { eexists _, _. split; [reflexivity|].
        rewrite length_app. cbn [length]. lia. }
      destruct (IH (i + 1) lb (va + 1) p (log ++ [ApAbsent]) w1)
        as [log' [w' [E L]]].
      exists log', w'. split; [exact E|].
      rewrite length_app in L. cbn [length] in L. lia.
Qed.

End ScanReturns.

(** On a debug port with a fixed memory image whose ROM tables nest at
    most [depth] deep, every walk returns. *)
Lemma mock_probe_returns (d : device) (depth : nat) :
  (forall addr, rom_nesting_ok (dev_mem d) depth addr = true) ->
  forall ap addr w,
    adiv5_component_probe (env_dev d) (S depth) ap addr 0 0 w <> None.
Proof.
  intros Hn ap addr w.
  destruct (mock_probe_terminates d ap depth addr 0 0 w (Hn addr))
    as [res [w1 E]].
  rewrite E. discriminate.
Qed.

Section ScanFacts.

Variable env : world -> call -> Z.

Lemma new_ap_apsel (dp : ADIv5_DP_t) (a : Z) (w w1 : world)
    (ap : ADIv5_AP_t) :
  adiv5_new_ap env dp a w = (Some ap, w1) -> apsel ap = a.
Proof.
  unfold adiv5_new_ap, bind. 
  destruct (adiv5_ap_read env _ ADIV5_AP_IDR w) as [idr_ w0].
  destruct (adiv5_ap_read env _ ADIV5_AP_BASE w0) as [base0 w0'].
  destruct (idr_ =? 0); [discriminate|].
  destruct (extcall env Malloc w0') as [p0 w2].
  destruct (p0 =? 0); [discriminate|].
  destruct (adiv5_ap_read env _ ADIV5_AP_CFG w2) as [cfg_ w3].
  destruct (adiv5_ap_read env _ ADIV5_AP_BASE w3) as [base_ w4].
  destruct (adiv5_ap_read env _ ADIV5_AP_CSW w4) as [csw0 w5].
  unfold ret. intros H. injection H as <- _. reflexivity.
Qed.

Lemma forced_probes_app (w1 w2 : world) :
  forced_probes (w1 ++ w2) = forced_probes w1 ++ forced_probes w2.
Proof. apply flat_map_app. Qed.

Lemma ap_loop_rel (fuel : nat) (dp : ADIv5_DP_t) (n : nat) :
  forall i lb va p log w log' w',
    dp_init_ap_loop env fuel n dp i lb va p log w = Some (log', w') ->
    exists entries,
      log' = log ++ entries
      /\ scan_rel (Z.land (idcode dp) 0xfff =? 0x477) n i lb va p entries
      /\ forced_probes w' = forced_probes w ++ forced_apsels i entries.
Proof.
  induction n as [|n IH]; intros i lb va p log w log' w' H.
  - injection H as <- <-. exists []. rewrite !app_nil_r.
    repeat split. constructor.
  - cbn [dp_init_ap_loop] in H.
    destruct (Z.ltb_spec va 8) as [Hva|Hva]; cbn [negb] in H.
    2:{ injection H as <- <-. exists []. rewrite !app_nil_r.
        repeat split. constructor. exact Hva. }
    unfold bindF at 1 in H. unfold liftF at 1 in H.
    cbn [adiv5_ap_setup] in H.
    pose proof (mext_new_ap env dp (u8 i) w) as Xn.
    destruct (adiv5_new_ap env dp (u8 i) w) as [[ap|] w1] eqn:En;
      cbn [snd] in Xn; apply ext_forced in Xn.
    + pose proof (new_ap_apsel _ _ _ _ _ En) as Hsel.
      destruct (Z.eqb_spec (base ap) lb) as [Eb|Nb].
      { injection H as <- <-. exists [ApDuplicate lb]. rewrite Eb.
        split; [reflexivity|]. split; [now constructor|].
        cbn. now rewrite app_nil_r. }
      unfold bindF at 1 in H. unfold liftF at 1 in H.
      pose proof (mext_extcall env not_forced (KinetisMdmProbe (apsel ap))
                    (fun _ => eq_refl) w1)
        as X2.
      destruct (extcall env (KinetisMdmProbe (apsel ap)) w1) as [k w2].
      cbn [snd] in X2. apply ext_forced in X2.
      unfold bindF at 1 in H. unfold liftF at 1 in H.
      pose proof (mext_extcall env not_forced (Nrf51MdmProbe (apsel ap))
                    (fun _ => eq_refl) w2)
        as X3.
      destruct (extcall env (Nrf51MdmProbe (apsel ap)) w2) as [k' w3].
      cbn [snd] in X3. apply ext_forced in X3.
      unfold bindF at 1 in H. unfold liftF at 1 in H.
      pose proof (mext_aap_probe env ap w3) as X4.
      destruct (efm32_aap_probe env ap w3) as [t w4].
      cbn [snd] in X4. apply ext_forced in X4.
      destruct ((Z.land (base ap) ADIV5_AP_BASE_PRESENT =? 0)
                || (base ap =? 4294967295)).
      { destruct (IH _ _ _ _ _ _ _ _ H) as [rest [-> [R Fp]]].
        exists (ApNoDebug (base ap) :: rest). rewrite <- app_assoc.
        split; [reflexivity|]. split; [now constructor|].
        cbn [forced_apsels]. congruence. }
      unfold bindF at 1 in H.
      destruct (adiv5_component_probe env fuel ap (base ap) 0 0 w4)
        as [[found w5]|] eqn:Ep; [|discriminate].
      apply fext_component_probe, ext_forced in Ep.
      destruct (negb (p || found) && (Z.land (idcode dp) 4095 =? 1143))
        eqn:Ef.
      * unfold bindF at 1 in H. unfold liftF at 1 in H.
        unfold cortexm_probe, extcall in H.
        destruct (IH _ _ _ _ _ _ _ _ H) as [rest [-> [R Fp]]].
        exists (ApMem (base ap) found true :: rest). rewrite <- app_assoc.
        split; [reflexivity|]. split.
        -- rewrite <- Ef. constructor; [assumption|assumption|].
           rewrite Ef, orb_true_r. exact R.
        -- cbn [forced_apsels]. rewrite Fp, forced_probes_app.
           cbn [forced_probes flat_map ev_call app].
           rewrite <- app_assoc. cbn [app]. congruence.
      * destruct (IH _ _ _ _ _ _ _ _ H) as [rest [-> [R Fp]]].
        exists (ApMem (base ap) found false :: rest). rewrite <- app_assoc.
        split; [reflexivity|]. split.
        -- rewrite <- Ef. constructor; [assumption|assumption|].
           rewrite Ef, orb_false_r. exact R.
        -- cbn [forced_apsels]. congruence.
    + destruct (Z.eqb_spec i 0) as [Ei|Ni].
      { injection H as <- <-. exists [ApAbsent]. subst i.
        split; [reflexivity|]. split; [now constructor|].
        cbn. now rewrite app_nil_r. }
      destruct (IH _ _ _ _ _ _ _ _ H) as [rest [-> [R Fp]]].
      exists (ApAbsent :: rest). rewrite <- app_assoc.
      split; [reflexivity|]. split; [now constructor|].
      cbn [forced_apsels]. congruence.
Qed.

Lemma dp_init_ap_scan_eq (fuel : nat) (dp : ADIv5_DP_t) :
  dp_init_ap_scan env fuel dp
  = dp_init_ap_loop env fuel 256 dp 0 0 0 false [].
Proof. reflexivity. Qed.

Lemma ap_scan_report (fuel : nat) (dp : ADIv5_DP_t) (w : world)
    (log : list ap_outcome) (w' : world) :
  dp_init_ap_scan env fuel dp w = Some (log, w') ->
  stops_after log = true
  /\ report_ok (Z.land (idcode dp) 0xfff =? 0x477) log
  /\ forced_probes w' = forced_probes w ++ forced_apsels 0 log.
Proof.
  intros H. rewrite dp_init_ap_scan_eq in H.
  destruct (ap_loop_rel fuel dp _ _ _ _ _ _ _ _ _ H) as [entries [E [R Fp]]].
  cbn [app] in E. subst entries.
  destruct (scan_rel_report _ _ _ _ _ _ _ R []) as [S1 S2].
  - unfold scan_state.
    do 6 (split; [reflexivity|]). discriminate.
  - split; [intros k Hk; cbn in Hk; lia|].
    intros k e He. destruct k; discriminate.
  - cbn [app] in S1, S2. auto.
Qed.



End ScanFacts.

(** ** The Authentication Access Port *)

Section AapFacts.

Variable env : world -> call -> Z.

Lemma ap_read_run (ap : ADIv5_AP_t) (addr : Z) (w : world) :
  exists evs,
    snd (adiv5_ap_read env ap addr w) = w ++ evs
    /\ map ev_call evs =
       [LowAccess ADIV5_LOW_WRITE ADIV5_DP_SELECT (ap_select ap addr);
        DpRead addr].
Proof.
  unfold adiv5_ap_read, adiv5_dp_write, adiv5_dp_low_access, adiv5_dp_read,
    extcall, bind. cbn [snd]. eexists. rewrite <- app_assoc.
  split; reflexivity.
Qed.

Lemma ap_write_run (ap : ADIv5_AP_t) (addr v : Z) (w : world) :
  exists evs,
    snd (adiv5_ap_write env ap addr v w) = w ++ evs
    /\ map ev_call evs =
       [LowAccess ADIV5_LOW_WRITE ADIV5_DP_SELECT (ap_select ap addr);
        LowAccess ADIV5_LOW_WRITE addr v].
Proof.
  unfold adiv5_ap_write, adiv5_dp_write, adiv5_dp_low_access, extcall, bind.
  cbn [snd]. eexists. rewrite <- app_assoc. split; reflexivity.
Qed.

Lemma aap_poll_world_run (ap : ADIv5_AP_t) (k : nat) :
  forall w,
  exists evs,
    aap_poll_world env ap k w = w ++ evs
    /\ map ev_call evs = concat (repeat (aap_status_read_calls ap) k).
Proof.
  induction k as [|k IH]; intros w.
  - exists []. now rewrite app_nil_r.
  - cbn [aap_poll_world repeat concat].
    destruct (ap_read_run ap AAP_STATUS w) as [e1 [E1 C1]]. rewrite E1.
    destruct (IH (w ++ e1)) as [e2 [E2 C2]]. rewrite E2.
    exists (e1 ++ e2). rewrite <- app_assoc. split; [reflexivity|].
    rewrite map_app, C1, C2. reflexivity.
Qed.

Lemma aap_erase_poll_S (ap : ADIv5_AP_t) (n : nat) (w : world) :
  aap_erase_poll env (S n) ap w =
  let (status, w1) := adiv5_ap_read env ap AAP_STATUS w in
  if negb (Z.land status 1 =? 0) then aap_erase_poll env n ap w1
  else Some (status, w1).
Proof.
  cbn [aap_erase_poll]. unfold bindF, liftF, retF.
  destruct (adiv5_ap_read env ap AAP_STATUS w) as [status w1].
  change AAP_STATUS_ERASEBUSY with 1.
  destruct (negb (Z.land status 1 =? 0)); reflexivity.
Qed.

Lemma aap_erase_poll_run (ap : ADIv5_AP_t) (k : nat) :
  forall w,
    (forall j, (j < k)%nat -> Z.land (aap_poll_status env ap j w) 1 <> 0) ->
    Z.land (aap_poll_status env ap k w) 1 = 0 ->
    aap_erase_poll env (S k) ap w
    = Some (aap_poll_status env ap k w, aap_poll_world env ap (S k) w).
Proof.
  induction k as [|k IH]; intros w Hb Hc.
  - rewrite aap_erase_poll_S.
    unfold aap_poll_status in *. cbn [aap_poll_world] in *.
    destruct (adiv5_ap_read env ap AAP_STATUS w) as [st w1].
    cbn [fst snd] in *. rewrite Hc. reflexivity.
  - assert (Hb' : forall j, (j < k)%nat ->
                Z.land (aap_poll_status env ap j
                          (snd (adiv5_ap_read env ap AAP_STATUS w))) 1 <> 0)
      by (intros j Hj; exact (Hb (S j) ltac:(lia))).
    pose proof (IH _ Hb' Hc) as IH'.
    pose proof (Hb O ltac:(lia)) as H0.
    change (aap_poll_status env ap (S k) w)
      with (aap_poll_status env ap k
              (snd (adiv5_ap_read env ap AAP_STATUS w))).
    change (aap_poll_world env ap (S (S k)) w)
      with (aap_poll_world env ap (S k)
              (snd (adiv5_ap_read env ap AAP_STATUS w))).
    rewrite <- IH'. rewrite (aap_erase_poll_S ap (S k)).
    unfold aap_poll_status in H0. cbn [aap_poll_world] in H0.
    destruct (adiv5_ap_read env ap AAP_STATUS w) as [st w1].
    cbn [fst snd] in *.
    destruct (Z.eqb_spec (Z.land st 1) 0) as [E|_]; [contradiction|].
    reflexivity.
Qed.

(** C9: the AAP driver attaches to an AP exactly when its IDR under the
    mask 0x0FFFFF0F is 0x06E60001.  Its erase command first reads STATUS;
    with ERASEBUSY set it returns failure and has written nothing; with
    ERASEBUSY clear, and an AAP whose STATUS reads busy [k] times and then
    clear, it returns success after exactly: the write of 0xCFACC118 to
    CMDKEY, the write of 1 to CMD, the [k + 1] reads of STATUS of the
    poll, and one more read of STATUS (each access after its bank
    select). *)
Theorem C9_aap_device_erase (t : aap_target) (w : world) (k : nat) :
  let ap := aap_priv t in
  let status0 := fst (adiv5_ap_read env ap AAP_STATUS w) in
  let w1 :=
    snd (adiv5_ap_write env ap AAP_CMD 1
           (snd (adiv5_ap_write env ap AAP_CMDKEY CMDKEY
                   (snd (adiv5_ap_read env ap AAP_STATUS w))))) in
  (forall ap' w0,
      fst (efm32_aap_probe env ap' w0) <> None
      <-> Z.land (idr ap') 0x0FFFFF0F = 0x06E60001)
  /\ (Z.land status0 1 <> 0 ->
      forall fuel,
      exists evs,
        efm32_aap_cmd_device_erase env fuel t w = Some (false, w ++ evs)
        /\ map ev_call evs = aap_status_read_calls ap)
  /\ (Z.land status0 1 = 0 ->
      (forall j, (j < k)%nat -> Z.land (aap_poll_status env ap j w1) 1 <> 0) ->
      Z.land (aap_poll_status env ap k w1) 1 = 0 ->
      exists evs,
        efm32_aap_cmd_device_erase env (S k) t w = Some (true, w ++ evs)
        /\ map ev_call evs =
           aap_status_read_calls ap ++ aap_erase_write_calls ap
             ++ concat (repeat (aap_status_read_calls ap) (k + 2))).
Proof.
  intros ap status0 w1. split; [|split].
  - intros ap' w0. unfold efm32_aap_probe.
    change EFM32_APP_IDR_MASK with 0x0FFFFF0F.
    change EFM32_AAP_IDR with 0x06E60001.
    destruct (Z.eqb_spec (Z.land (idr ap') 0x0FFFFF0F) 0x06E60001) as [E|N].
    + split; [intros _; exact E|intros _].
      unfold bind, extcall, ret. cbn [fst]. discriminate.
    + split; [intros H; exfalso; apply H; reflexivity|intros E; contradiction].
  - intros Hb fuel. unfold efm32_aap_cmd_device_erase. fold ap.
    unfold bindF at 1. unfold liftF at 1.
    destruct (ap_read_run ap AAP_STATUS w) as [e0 [E0 C0]].
    subst status0.
    destruct (adiv5_ap_read env ap AAP_STATUS w) as [st w0].
    cbn [fst snd] in *. subst w0.
    change AAP_STATUS_ERASEBUSY with 1.
    destruct (Z.eqb_spec (Z.land st 1) 0) as [E|_]; [contradiction|].
    cbn [negb]. exists e0. split; [reflexivity|exact C0].
  - intros Hc Hb Hk. unfold efm32_aap_cmd_device_erase. fold ap.
    unfold bindF at 1. unfold liftF at 1.
    destruct (ap_read_run ap AAP_STATUS w) as [e0 [E0 C0]].
    subst status0 w1.
    destruct (adiv5_ap_read env ap AAP_STATUS w) as [st w0].
    cbn [fst snd] in *. subst w0.
    change AAP_STATUS_ERASEBUSY with 1. rewrite Hc.
    change (negb (0 =? 0)) with false. cbv iota.
    unfold bindF at 1. unfold liftF at 1.
    destruct (ap_write_run ap AAP_CMDKEY CMDKEY (w ++ e0)) as [e1 [E1 C1]].
    destruct (adiv5_ap_write env ap AAP_CMDKEY CMDKEY (w ++ e0)) as [x1 w2].
    cbn [snd] in *. subst w2.
    unfold bindF at 1. unfold liftF at 1.
    destruct (ap_write_run ap AAP_CMD 1 ((w ++ e0) ++ e1)) as [e2 [E2 C2]].
    destruct (adiv5_ap_write env ap AAP_CMD 1 ((w ++ e0) ++ e1)) as [x2 w3].
    cbn [snd] in *. subst w3.
    unfold bindF at 1. rewrite (aap_erase_poll_run ap k _ Hb Hk).
    unfold bindF at 1. unfold liftF at 1.
    destruct (aap_poll_world_run ap (S k) (((w ++ e0) ++ e1) ++ e2))
      as [e3 [E3 C3]].
    rewrite E3.
    destruct (ap_read_run ap AAP_STATUS ((((w ++ e0) ++ e1) ++ e2) ++ e3))
      as [e4 [E4 C4]].
    destruct (adiv5_ap_read env ap AAP_STATUS
                ((((w ++ e0) ++ e1) ++ e2) ++ e3)) as [x4 w5].
    cbn [snd] in E4. subst w5. unfold retF.
    exists (e0 ++ e1 ++ e2 ++ e3 ++ e4). rewrite <- !app_assoc.
    split; [reflexivity|].
    rewrite !map_app, C0, C1, C2, C3, C4.
    replace (k + 2)%nat with (S k + 1)%nat by lia.
    rewrite repeat_app, concat_app. cbn [repeat concat app].
    rewrite app_nil_r. unfold aap_erase_write_calls, aap_status_read_calls.
    rewrite <- !app_assoc. reflexivity.
Qed.

End AapFacts.

(** ** The EFM32 page erase *)

Section EraseFacts.

Variable env : world -> call -> Z.

Lemma msc_poll_busy_S (n : nat) (msc : Z) (w : world) :
  msc_poll_busy env (S n) msc w =
  let st := u32 (env w (TargetMemRead32 (EFM32_MSC_STATUS msc))) in
  let w1 := w ++ [Ev (TargetMemRead32 (EFM32_MSC_STATUS msc)) st] in
  if Z.land st EFM32_MSC_STATUS_BUSY =? 0 then Some (false, w1)
  else
    let e := u32 (env w1 TargetCheckError) in
    let w2 := w1 ++ [Ev TargetCheckError e] in
    if e =? 0 then msc_poll_busy env n msc w2 else Some (true, w2).
Proof.
  cbn [msc_poll_busy].
  unfold bindF, liftF, retF, target_mem_read32, target_check_error, bind,
    ret, extcall.
  cbv zeta.
  destruct (Z.land _ EFM32_MSC_STATUS_BUSY =? 0); [reflexivity|].
  cbn [negb]. destruct (_ =? 0); reflexivity.
Qed.

Lemma msc_poll_run (n : nat) (msc : Z) :
  forall w aborted w',
    msc_poll_busy env n msc w = Some (aborted, w') ->
    exists polls, w' = w ++ polls /\ poll_events msc polls aborted.
Proof.
  induction n as [|n IH]; intros w aborted w' H; [discriminate|].
  rewrite msc_poll_busy_S in H. cbv zeta in H.
  set (st := u32 (env w (TargetMemRead32 (EFM32_MSC_STATUS msc)))) in *.
  destruct (Z.eqb_spec (Z.land st EFM32_MSC_STATUS_BUSY) 0) as [E|N].
  - injection H as <- <-. eexists. split; [reflexivity|].
    now constructor.
  - set (w1 := w ++ [Ev (TargetMemRead32 (EFM32_MSC_STATUS msc)) st]) in *.
    set (e := u32 (env w1 TargetCheckError)) in *.
    destruct (Z.eqb_spec e 0) as [Ee|Ne].
    + destruct (IH _ _ _ H) as [polls [-> P]]. rewrite Ee.
      eexists. unfold w1. rewrite <- !app_assoc. split; [reflexivity|].
      cbn [app]. now constructor.
    + injection H as <- <-. eexists. unfold w1. rewrite <- !app_assoc.
      split; [reflexivity|]. cbn [app]. now constructor.
Qed.

Lemma msc_poll_mono (n : nat) (msc : Z) :
  forall w r m,
    msc_poll_busy env n msc w = Some r -> (n <= m)%nat ->
    msc_poll_busy env m msc w = Some r.
Proof.
  induction n as [|n IH]; intros w r m H Hm; [discriminate|].
  destruct m as [|m]; [lia|].
  rewrite msc_poll_busy_S in H |- *. cbv zeta in H |- *.
  destruct (Z.land _ EFM32_MSC_STATUS_BUSY =? 0); [exact H|].
  destruct (_ =? 0); [|exact H].
  apply IH; [exact H|lia].
Qed.

(** The log after the three writes that start the erase of a page. *)
Definition page_cmd_world (msc addr : Z) (w : world) : world :=
  snd (target_mem_write32 env (EFM32_MSC_WRITECMD msc)
         EFM32_MSC_WRITECMD_ERASEPAGE
         (snd (target_mem_write32 env (EFM32_MSC_WRITECMD msc)
                 EFM32_MSC_WRITECMD_LADDRIM
                 (snd (target_mem_write32 env (EFM32_MSC_ADDRB msc) addr
                         w))))).

Lemma page_cmd_world_run (msc addr : Z) (w : world) :
  exists r1 r2 r3,
    page_cmd_world msc addr w =
    w ++ [Ev (TargetMemWrite32 (EFM32_MSC_ADDRB msc) addr) r1;
          Ev (TargetMemWrite32 (EFM32_MSC_WRITECMD msc) 1) r2;
          Ev (TargetMemWrite32 (EFM32_MSC_WRITECMD msc) 2) r3].
Proof.
  unfold page_cmd_world, target_mem_write32, extcall. cbn [snd].
  do 3 eexists. rewrite <- !app_assoc. reflexivity.
Qed.

Lemma erase_loop_S (fuel : nat) (msc bs addr len : Z) (w : world) :
  erase_loop env (S fuel) msc bs addr len w =
  if len =? 0 then Some (0, w)
  else
    match msc_poll_busy env fuel msc (page_cmd_world msc addr w) with
    | Some (aborted, w4) =>
        if aborted then Some (-1, w4)
        else erase_loop env fuel msc bs (u32 (addr + bs))
               (if len >? bs then len - bs else 0) w4
    | None => None
    end.
Proof.
  cbn [erase_loop]. destruct (len =? 0); [reflexivity|].
  unfold bindF, liftF, retF, page_cmd_world.
  destruct (target_mem_write32 env (EFM32_MSC_ADDRB msc) addr w) as [x1 w1].
  cbn [snd].
  destruct (target_mem_write32 env (EFM32_MSC_WRITECMD msc)
              EFM32_MSC_WRITECMD_LADDRIM w1) as [x2 w2].
  cbn [snd].
  destruct (target_mem_write32 env (EFM32_MSC_WRITECMD msc)
              EFM32_MSC_WRITECMD_ERASEPAGE w2) as [x3 w3].
  cbn [snd].
  destruct (msc_poll_busy env fuel msc w3) as [[[|] w4]|]; reflexivity.
Qed.

Lemma erase_loop_mono (n : nat) (msc bs : Z) :
  forall addr len w r m,
    erase_loop env n msc bs addr len w = Some r -> (n <= m)%nat ->
    erase_loop env m msc bs addr len w = Some r.
Proof.
  induction n as [|n IH]; intros addr len w r m H Hm; [discriminate|].
  destruct m as [|m]; [lia|].
  rewrite erase_loop_S in H |- *.
  destruct (len =? 0); [exact H|].
  destruct (msc_poll_busy env n msc (page_cmd_world msc addr w))
    as [[aborted w4]|] eqn:Ep; [|discriminate].
  rewrite (msc_poll_mono n msc _ _ m Ep) by lia.
  destruct aborted; [exact H|].
  apply IH; [exact H|lia].
Qed.

Lemma erase_loop_run (msc bs : Z) :
  0 < bs ->
  (forall w0, exists n, msc_poll_busy env n msc w0 <> None) ->
  forall (pages : nat) addr len w,
    0 <= len <= Z.of_nat pages * bs ->
    exists fuel ret evs,
      erase_loop env fuel msc bs addr len w = Some (ret, w ++ evs)
      /\ erase_events msc bs addr len evs ret.
Proof.
  intros Hbs Live. induction pages as [|pages IH]; intros addr len w Hl.
  - assert (len = 0) as -> by lia.
    exists 1%nat, 0, []. rewrite erase_loop_S, app_nil_r.
    split; [reflexivity|constructor].
  - destruct (Z.eq_dec len 0) as [->|Nl].
    { exists 1%nat, 0, []. rewrite erase_loop_S, app_nil_r.
      split; [reflexivity|constructor]. }
    destruct (Live (page_cmd_world msc addr w)) as [n Hn].
    destruct (msc_poll_busy env n msc (page_cmd_world msc addr w))
      as [[aborted w4]|] eqn:Ep; [clear Hn|contradiction].
    destruct (msc_poll_run n msc _ _ _ Ep) as [polls [-> P]].
    destruct (page_cmd_world_run msc addr w) as [r1 [r2 [r3 Ew]]].
    destruct aborted.
    + exists (S n), (-1). eexists.
      rewrite erase_loop_S, Ep.
      destruct (Z.eqb_spec len 0) as [E|_]; [contradiction|].
      rewrite Ew, <- app_assoc. split; [reflexivity|].
      cbn [app]. now constructor.
    + set (len' := if len >? bs then len - bs else 0).
      assert (Hl' : 0 <= len' <= Z.of_nat pages * bs).
      { unfold len'. destruct (Z.gtb_spec len bs); lia. }
      destruct (IH (u32 (addr + bs)) len' (page_cmd_world msc addr w ++ polls)
                  Hl') as [fuel [ret [evs [Er Ee]]]].
      exists (S (Nat.max n fuel)), ret. eexists.
      rewrite erase_loop_S.
      destruct (Z.eqb_spec len 0) as [E|_]; [contradiction|].
      rewrite (msc_poll_mono n msc _ _ (Nat.max n fuel) Ep) by lia.
      fold len'.
      rewrite (erase_loop_mono fuel msc bs _ _ _ _ (Nat.max n fuel) Er) by lia.
      rewrite Ew, <- !app_assoc. split; [reflexivity|].
      cbn [app]. now constructor.
Qed.

Lemma erase_events_ret (msc bs addr len : Z) (evs : list event) (ret : Z) :
  erase_events msc bs addr len evs ret -> ret = 0 \/ ret = -1.
Proof. induction 1; auto. Qed.

End EraseFacts.

(** C7: on a target whose driver string names a row of the device table,
    with a positive page size and an MSC whose busy poll always ends, the
    erase of [len > 0] bytes returns, and its log is exactly: one write
    LOCK <- 0x1B71, one write WRITECTRL <- 1, then page after page (the
    address advancing by the page size until [len] is used up) the writes
    ADDRB <- addr, WRITECMD <- 1, WRITECMD <- 2 and the poll of STATUS
    with an error check after each busy read.  It returns 0 when every
    poll saw BUSY clear and -1 when an error check aborted a poll. *)
Theorem C7_flash_erase_sequence
    (env : world -> call -> Z) (f : target_flash) (addr len : Z)
    (w : world) (dev : efm32_device_t) :
  efm32_get_device (usize (nth 2 (driver (f_t f)) 0 - 32)) = Some dev ->
  0 < len ->
  0 < f_blocksize f ->
  (forall w0, exists n, msc_poll_busy env n (msc_addr dev) w0 <> None) ->
  exists fuel ret r1 r2 evs,
    efm32_flash_erase env fuel f addr len w =
      Some (ret,
            w ++ Ev (TargetMemWrite32 (EFM32_MSC_LOCK (msc_addr dev)) 0x1B71)
                   r1
              :: Ev (TargetMemWrite32 (EFM32_MSC_WRITECTRL (msc_addr dev)) 1)
                   r2
              :: evs)
    /\ erase_events (msc_addr dev) (f_blocksize f) addr len evs ret
    /\ (ret = 0 \/ ret = -1).
Proof.
  intros Hd Hl Hb Live.
  set (w2 := snd (target_mem_write32 env (EFM32_MSC_WRITECTRL (msc_addr dev)) 1
                    (snd (target_mem_write32 env
                            (EFM32_MSC_LOCK (msc_addr dev))
                            EFM32_MSC_LOCK_LOCKKEY w)))).
  destruct (erase_loop_run env (msc_addr dev) (f_blocksize f) Hb Live
              (Z.to_nat len) addr len w2) as [fuel [ret [evs [Er Ee]]]].
  { split; [lia|]. rewrite Z2Nat.id by lia. nia. }
  exists fuel, ret. do 2 eexists. exists evs.
  split; [|split; [exact Ee|exact (erase_events_ret _ _ _ _ _ _ Ee)]].
  unfold efm32_flash_erase. rewrite Hd.
  unfold bindF at 1 2. unfold liftF at 1 2.
  unfold w2, target_mem_write32, extcall in Er |- *. cbn [snd] in Er |- *.
  rewrite Er. rewrite <- !app_assoc. reflexivity.
Qed.

(** ** The EFM32 probe *)

Section ProbeFacts.

Variable env : world -> call -> Z.

(** Every result of [m] satisfies [Q]. *)
Definition mresult {A : Type} (Q : A -> Prop) (m : M A) : Prop :=
  forall w, Q (fst (m w)).

Lemma mresult_ret {A : Type} (Q : A -> Prop) (a : A) :
  Q a -> mresult Q (ret a).
Proof. intros H w. exact H. Qed.

Lemma mresult_bind {A B : Type} (Q : B -> Prop) (m : M A) (f : A -> M B) :
  (forall a, mresult Q (f a)) -> mresult Q (bind m f).
Proof.
  intros Hf w. unfold bind. destruct (m w) as [a w1]. apply Hf.
Qed.

Variable v : Z.
Hypothesis v_schema : v = 2 \/ v = 3 \/ v = 4.

Lemma di_PART_nonzero : (di_PART v =? 0) = false.
Proof. destruct v_schema as [E|[E|E]]; rewrite E; reflexivity. Qed.

Lemma di_MSIZE_nonzero : (di_MSIZE v =? 0) = false.
Proof. destruct v_schema as [E|[E|E]]; rewrite E; reflexivity. Qed.

Lemma mext_read_PART : mext (di_reads_ok v) (target_mem_read32 env (di_PART v)).
Proof.
  apply mext_extcall. intros r. unfold di_reads_ok. cbn [ev_call].
  now rewrite Z.eqb_refl.
Qed.

Lemma mext_read_MSIZE :
  mext (di_reads_ok v) (target_mem_read32 env (di_MSIZE v)).
Proof.
  apply mext_extcall. intros r. unfold di_reads_ok. cbn [ev_call].
  now rewrite Z.eqb_refl, orb_true_r.
Qed.

Lemma mext_add_flash (a l ps : Z) :
  mext (di_reads_ok v) (efm32_add_flash env a l ps).
Proof.
  unfold efm32_add_flash.
  apply mext_bind; [apply mext_extcall; intros r; reflexivity|]. intros p.
  destruct (p =? 0); [apply mext_ret|].
  apply mext_bind; [apply mext_extcall; intros r; reflexivity|]. intros _.
  apply mext_ret.
Qed.

(** What follows the family lookup in [efm32_probe_di]. *)
Definition probe_di_rest (device_index : Z) : M (option target) :=
  if device_index =? EFM32_UNKNOWN_FAMILY then ret None
  else
    match efm32_get_device device_index with
    | None => ret None
    | Some device =>
        (part_number <- efm32_read_part_number env v ;;
         flash_kib <- efm32_read_flash_size env v ;;
         ram_kib <- efm32_read_ram_size env v ;;
         _ <- extcall env TcPrintf ;;
         _ <- extcall env (TargetAddRam SRAM_BASE (u32 (ram_kib * 0x400))) ;;
         _ <- efm32_add_flash env 0x00000000 (u32 (flash_kib * 0x400))
                (flash_page_size device) ;;
         _ <- (if negb (user_data_size device =? 0)
               then efm32_add_flash env EFM32_USER_DATA
                      (user_data_size device) (flash_page_size device)
               else ret tt) ;;
         _ <- (if negb (bootloader_size device =? 0)
               then efm32_add_flash env EFM32_BOOTLOADER
                      (bootloader_size device) (flash_page_size device)
               else ret tt) ;;
         _ <- extcall env (TargetAddCommands efm32_cmd_list) ;;
         ret (Some (mkTarget
                      [u8 (v + 48); 8; u8 (u8 device_index + 32); 8])))%M
    end.

Lemma probe_di_split (w : world) :
  efm32_probe_di env v w =
  probe_di_rest
    (family_search efm32_devices 0
       (fst (efm32_read_part_family env v w)))
    (snd (efm32_read_part_family env v w)).
Proof.
  unfold efm32_probe_di, efm32_lookup_device_index, bind at 1 2.
  destruct (efm32_read_part_family env v w) as [pf w1]. reflexivity.
Qed.

Lemma read_part_family_run (w : world) :
  exists r,
    snd (efm32_read_part_family env v w)
    = w ++ [Ev (TargetMemRead32 (di_PART v)) r].
Proof.
  unfold efm32_read_part_family, target_mem_read32, bind, extcall, ret.
  destruct v_schema as [E|[E|E]]; rewrite E; cbn [orb Z.eqb Pos.eqb snd];
    eexists; reflexivity.
Qed.

Lemma mext_probe_di_rest (device_index : Z) :
  mext (di_reads_ok v) (probe_di_rest device_index).
Proof.
  unfold probe_di_rest.
  destruct (device_index =? EFM32_UNKNOWN_FAMILY); [apply mext_ret|].
  destruct (efm32_get_device device_index) as [device|]; [|apply mext_ret].
  apply mext_bind.
  { unfold efm32_read_part_number. rewrite di_PART_nonzero. cbn [negb].
    apply mext_bind; [apply mext_read_PART|]. intros x. apply mext_ret. }
  intros part_number. apply mext_bind.
  { unfold efm32_read_flash_size. rewrite di_MSIZE_nonzero. cbn [negb].
    apply mext_bind; [apply mext_read_MSIZE|]. intros x. apply mext_ret. }
  intros flash_kib. apply mext_bind.
  { unfold efm32_read_ram_size. rewrite di_MSIZE_nonzero. cbn [negb].
    apply mext_bind; [apply mext_read_MSIZE|]. intros x. apply mext_ret. }
  intros ram_kib.
  apply mext_bind; [apply mext_extcall; intros r; reflexivity|]. intros _.
  apply mext_bind; [apply mext_extcall; intros r; reflexivity|]. intros _.
  apply mext_bind; [apply mext_add_flash|]. intros _.
  apply mext_bind.
  { destruct (negb _); [apply mext_add_flash|apply mext_ret]. }
  intros _. apply mext_bind.
  { destruct (negb _); [apply mext_add_flash|apply mext_ret]. }
  intros _.
  apply mext_bind; [apply mext_extcall; intros r; reflexivity|]. intros _.
  apply mext_ret.
Qed.

Lemma probe_di_rest_tag (device_index : Z) :
  mresult (fun o => forall t, o = Some t -> nth 0 (driver t) 0 = v + 48)
    (probe_di_rest device_index).
Proof.
  unfold probe_di_rest.
  destruct (device_index =? EFM32_UNKNOWN_FAMILY);
    [apply mresult_ret; discriminate|].
  destruct (efm32_get_device device_index) as [device|];
    [|apply mresult_ret; discriminate].
  do 9 (apply mresult_bind; intros ?).
  apply mresult_ret. intros t H. injection H as <-. cbn [driver nth].
  destruct v_schema as [E|[E|E]]; rewrite E; reflexivity.
Qed.

Lemma probe_di_run (w : world) :
  exists r evs,
    snd (efm32_probe_di env v w)
    = w ++ Ev (TargetMemRead32 (di_PART v)) r :: evs
    /\ forallb (di_reads_ok v) evs = true
    /\ forall t, fst (efm32_probe_di env v w) = Some t ->
                 nth 0 (driver t) 0 = v + 48.
Proof.
  rewrite probe_di_split.
  destruct (read_part_family_run w) as [r E]. rewrite E.
  set (idx := family_search efm32_devices 0 _).
  destruct (mext_probe_di_rest idx (w ++ [Ev (TargetMemRead32 (di_PART v)) r]))
    as [evs [Ee Eo]].
  exists r, evs. rewrite Ee, <- app_assoc.
  split; [reflexivity|]. split; [exact Eo|].
  apply (probe_di_rest_tag idx).
Qed.

End ProbeFacts.

(** C8: the schema of the device information is chosen from the IDCODE
    alone: 0x2BA01477 gives schema 3, 0x0BC11477 schema 2, 0x6BA02477
    schema 4.  With such an IDCODE the probe first reads the PART word of
    that schema, reads no target memory but the PART and MSIZE words of
    that schema, and a target it sets up carries the schema in the first
    byte of its driver string; with any other IDCODE the probe returns
    false and has logged nothing. *)
Theorem C8_di_schema_choice
    (env : world -> call -> Z) (ap_idcode : Z) (w : world) :
  match spec_di_version ap_idcode with
  | None => efm32_probe env ap_idcode w = (None, w)
  | Some v =>
      exists r evs,
        snd (efm32_probe env ap_idcode w)
        = w ++ Ev (TargetMemRead32 (di_PART v)) r :: evs
        /\ forallb (di_reads_ok v) evs = true
        /\ forall t, fst (efm32_probe env ap_idcode w) = Some t ->
                     nth 0 (driver t) 0 = v + 48
  end.
Proof.
  unfold spec_di_version, efm32_probe.
  destruct (ap_idcode =? 0x2BA01477); [apply probe_di_run; auto|].
  destruct (ap_idcode =? 0x0BC11477); [apply probe_di_run; auto|].
  destruct (ap_idcode =? 0x6BA02477); [apply probe_di_run; auto|].
  reflexivity.
Qed.

(** * Further properties *)

(** ** More on the memory engine *)

Lemma lane_shift (x k : Z) :
  0 <= x -> 0 <= k -> x * 2 ^ k < 2 ^ 32 ->
  Z.shiftr (u32 (Z.shiftl x k)) k = x.
Proof.
  intros Hx Hk Hb. rewrite Z.shiftl_mul_pow2 by lia.
  unfold u32. rewrite Z.mod_small.
  - rewrite Z.shiftr_div_pow2 by lia. apply Z.div_mul.
    apply Z.pow_nonzero; lia.
  - split; [|exact Hb]. apply Z.mul_nonneg_nonneg; [lia|].
    apply Z.pow_nonneg. lia.
Qed.

Lemma land_ones_small (x n : Z) :
  0 <= n -> 0 <= x < 2 ^ n -> Z.land x (Z.ones n) = x.
Proof. intros Hn Hx. rewrite Z.land_ones by lia. now apply Z.mod_small. Qed.

Lemma land2_cases (x : Z) : Z.land x 2 = 0 \/ Z.land x 2 = 2.
Proof.
  assert (H2 : forall n, n <> 1 -> Z.testbit 2 n = false).
  { intros n N. change 2 with (2 ^ 1). apply Z.pow2_bits_false. lia. }
  destruct (Z.testbit x 1) eqn:T; [right|left];
    apply Z.bits_inj'; intros n _; rewrite Z.land_spec, ?Z.bits_0;
    (destruct (Z.eq_dec n 1) as [->|N];
     [rewrite T; reflexivity|rewrite (H2 n N); apply andb_false_r]).
Qed.

(** X1: what [adiv5_mem_write_sized] packs into a data lane, [extract]
    takes out again at the same address: a byte, a halfword or a word
    written to [addr] and read back at [addr] through the same lane is the
    unit that was written, whatever the low bits of [addr]. *)
Theorem X1_lane_round_trip (a : align) (d addr v : Z) :
  st_val (fst (extract d addr (pack a addr v) a)) = unit_of a v.
Proof.
  destruct a; cbn [extract pack fst st_val unit_of].
  - assert (Hs : Z.land addr 3 = 0 \/ Z.land addr 3 = 1
                 \/ Z.land addr 3 = 2 \/ Z.land addr 3 = 3).
    { rewrite land3_mod4. pose proof (Z.mod_pos_bound addr 4). lia. }
    assert (Hv : 0 <= u8 v < 2 ^ 8) by (apply Z.mod_pos_bound; lia).
    change 255 with (Z.ones 8).
    destruct Hs as [E|[E|[E|E]]]; rewrite E; cbn [Z.shiftl Pos.iter];
      rewrite lane_shift by lia; apply land_ones_small; lia.
  - pose proof (land2_cases addr) as Hs.
    assert (Hv : 0 <= u16 v < 2 ^ 16) by (apply Z.mod_pos_bound; lia).
    change 65535 with (Z.ones 16).
    destruct Hs as [E|E]; rewrite E; cbn [Z.shiftl Pos.iter];
      rewrite lane_shift by lia; apply land_ones_small; lia.
  - reflexivity.
  - reflexivity.
Qed.

Section MoreTransport.

Variable env : world -> call -> Z.

Lemma drw_writes_app (xs ys : list event) :
  drw_writes (xs ++ ys) = drw_writes xs ++ drw_writes ys.
Proof. apply flat_map_app. Qed.

Lemma mem_write_loop_run (n : nat) (a : align) (ld : align -> Z -> Z) :
  forall dest src odest w,
  exists body,
    snd (mem_write_loop env n a ld dest src odest w) = w ++ body
    /\ drw_writes body = write_units n a ld dest src
    /\ forallb is_low_write body = true.
Proof.
  induction n as [|n IH]; intros dest src odest w.
  - exists []. cbn. now rewrite app_nil_r.
  - cbn [mem_write_loop write_units].
    unfold bind, adiv5_dp_low_access, extcall.
    set (v := pack a dest (ld a src)).
    set (e1 := Ev (LowAccess ADIV5_LOW_WRITE ADIV5_AP_DRW v) _).
    set (dest1 := u32 (dest + align_size a)).
    destruct (Z.land (Z.lxor dest1 odest) 4294966272 =? 0).
    + destruct (IH dest1 (src + align_size a) odest (w ++ [e1]))
        as [body [E [D L]]].
      exists (e1 :: body). rewrite E, <- app_assoc.
      split; [reflexivity|]. split.
      * change (e1 :: body) with ([e1] ++ body).
        rewrite drw_writes_app, D. reflexivity.
      * cbn [forallb]. now rewrite L.
    + set (e2 := Ev (LowAccess ADIV5_LOW_WRITE ADIV5_AP_TAR dest1) _).
      destruct (IH dest1 (src + align_size a) dest1 ((w ++ [e1]) ++ [e2]))
        as [body [E [D L]]].
      exists (e1 :: e2 :: body). rewrite E, <- !app_assoc.
      split; [reflexivity|]. split.
      * change (e1 :: e2 :: body) with ([e1; e2] ++ body).
        rewrite drw_writes_app, D. reflexivity.
      * cbn [forallb]. now rewrite L.
Qed.

Lemma write_units_length (n : nat) (a : align) (ld : align -> Z -> Z) :
  forall dest src, length (write_units n a ld dest src) = n.
Proof.
  induction n as [|n IH]; intros dest src; [reflexivity|].
  cbn [write_units length]. now rewrite IH.
Qed.

Lemma align_size_pow (a : align) : align_size a = 2 ^ align_val a.
Proof. destruct a; reflexivity. Qed.

(** The units of a transfer make up its length: the alignment chosen
    from the length divides it. *)
Lemma units_make_len (x len : Z) :
  0 <= len ->
  let a := MIN (ALIGNOF x) (ALIGNOF len) in
  Z.shiftr len (align_val a) * align_size a = len.
Proof.
  intros Hl a.
  pose proof (align_val_MIN_le (ALIGNOF x) (ALIGNOF len)) as Hle.
  pose proof (align_val_range a) as Hr.
  pose proof (ALIGNOF_divides len Hl) as Hd.
  pose proof (align_val_range (ALIGNOF len)) as Hm.
  fold a in Hle. rewrite align_size_pow, Z.shiftr_div_pow2 by lia.
  set (k := align_val a) in *. set (m := align_val (ALIGNOF len)) in *.
  clearbody k m.
  assert (Hk : 0 < 2 ^ k) by (apply Z.pow_pos_nonneg; lia).
  assert (Hdk : len mod 2 ^ k = 0).
  { apply Z.mod_divide; [lia|].
    apply Z.divide_trans with (2 ^ m).
    - exists (2 ^ (m - k)). rewrite <- Z.pow_add_r by lia. f_equal. lia.
    - apply Z.mod_divide; [|exact Hd].
      apply Z.pow_nonzero; lia. }
  pose proof (Z.div_mod len (2 ^ k) ltac:(lia)). lia.
Qed.

(** X2: a write of [len] bytes programs CSW and TAR once (after the bank
    select) and then does nothing but register writes; the values it
    writes to DRW are the [len >> align] units of the host buffer in
    order, each packed into the lane of its target address, and the units
    make up [len] bytes.  Nothing is read back. *)
Theorem X2_mem_write_units
    (ap : ADIv5_AP_t) (dest : Z) (ld : align -> Z -> Z) (len : Z)
    (w : world) :
  0 <= len ->
  let a := MIN (ALIGNOF dest) (ALIGNOF len) in
  exists setup body,
    adiv5_mem_write env ap dest ld len w = (tt, w ++ setup ++ body)
    /\ map ev_call setup = setup_calls ap dest a
    /\ forallb is_low_write body = true
    /\ drw_writes body =
       write_units (Z.to_nat (Z.shiftr len (align_val a))) a ld dest 0
    /\ Z.of_nat (length (drw_writes body)) * align_size a = len.
Proof.
  intros Hl a. unfold adiv5_mem_write, adiv5_mem_write_sized. fold a.
  unfold bind at 1.
  destruct (setup_run env ap dest a w) as [r1 [r2 [r3 Es]]]. rewrite Es.
  match goal with
  | |- context [mem_write_loop env ?n a ld dest 0 dest ?w1] =>
      destruct (mem_write_loop_run n a ld dest 0 dest w1) as [body [E [D L]]];
      destruct (mem_write_loop env n a ld dest 0 dest w1) as [[] w2]
  end.
  cbn [snd] in E. subst w2.
  eexists. exists body. rewrite <- app_assoc.
  split; [reflexivity|]. split; [reflexivity|]. split; [exact L|].
  split; [exact D|].
  rewrite D, write_units_length, Z2Nat.id.
  - apply units_make_len. exact Hl.
  - apply Z.shiftr_nonneg. exact Hl.
Qed.

Lemma stores_of_length (a : align) (vals : list Z) :
  forall dest src, length (stores_of a dest src vals) = length vals.
Proof.
  induction vals as [|v vals IH]; intros dest src; [reflexivity|].
  cbn [stores_of length]. now rewrite IH.
Qed.

Lemma stores_of_nth (a : align) (vals : list Z) :
  forall dest src k s,
    nth_error (stores_of a dest src vals) k = Some s ->
    st_off s = dest + Z.of_nat k * align_size a /\ st_align s = a.
Proof.
  induction vals as [|v vals IH]; intros dest src k s H.
  - destruct k; discriminate.
  - destruct k as [|k].
    + cbn in H. injection H as <-. destruct a; cbn; split; (lia || reflexivity).
    + cbn [stores_of nth_error] in H. apply IH in H. destruct H as [H1 H2].
      split; [lia|exact H2].
Qed.

Lemma mem_read_stores (ap : ADIv5_AP_t) (dest src len : Z) (w : world) :
  0 < len < 2 ^ size_t_bits ->
  let a := MIN (ALIGNOF src) (ALIGNOF len) in
  exists vals,
    fst (adiv5_mem_read env ap dest src len w) = stores_of a dest src vals
    /\ Z.of_nat (length vals) = Z.shiftr len (align_val a).
Proof.
  intros Hlen a.
  pose proof (transfer_count_pos src len ltac:(lia)) as Hc. fold a in Hc.
  unfold adiv5_mem_read. fold a.
  destruct (Z.eqb_spec len 0) as [E|_]; [lia|].
  rewrite usize_small by lia.
  unfold bind at 1.
  destruct (setup_run env ap src a w) as [r1 [r2 [r3 Es]]]. rewrite Es.
  unfold bind at 1. unfold adiv5_dp_low_access at 1. unfold extcall at 1.
  cbv zeta. unfold bind at 1.
  match goal with
  | |- context [mem_read_loop env ?n a dest src src [] ?w1] =>
      destruct (mem_read_loop_run env n a dest src src [] w1)
        as [body [El [Fb L]]]
  end.
  rewrite El.
  unfold bind, adiv5_dp_low_access, extcall, ret. cbn [fst snd].
  match goal with
  | |- context [extract _ _ ?v a] => exists (data_vals false body ++ [v])
  end.
  split.
  - rewrite stores_of_app, L. cbn [stores_of app]. reflexivity.
  - rewrite length_app, L. cbn [length]. lia.
Qed.

(** X3: the stores of a read of [len] bytes tile the caller's buffer:
    they are [len >> align] units of [1 << align] bytes each, the [k]-th
    one at offset [k << align] from [dest], and together they are [len]
    bytes, neither more nor less. *)
Theorem X3_mem_read_covers
    (ap : ADIv5_AP_t) (dest src len : Z) (w : world) :
  0 < len < 2 ^ size_t_bits ->
  let a := MIN (ALIGNOF src) (ALIGNOF len) in
  let stores := fst (adiv5_mem_read env ap dest src len w) in
  Z.of_nat (length stores) * align_size a = len
  /\ forall k s,
       nth_error stores k = Some s ->
       st_off s = dest + Z.of_nat k * align_size a /\ st_align s = a.
Proof.
  intros Hlen a stores.
  destruct (mem_read_stores ap dest src len w Hlen) as [vals [E L]].
  fold a in E, L. subst stores. rewrite E. split.
  - rewrite stores_of_length, L. apply units_make_len. lia.
  - intros k s. apply stores_of_nth.
Qed.

(** X4: a word read at a word-aligned address is five transactions: the
    bank select, CSW (word size, single increment), TAR, one priming read
    of DRW, and the read of RDBUFF, whose value is the word returned. *)
Theorem X4_mem_read32_word (ap : ADIv5_AP_t) (addr : Z) (w : world) :
  Z.land addr 3 = 0 ->
  exists setup p v,
    adiv5_mem_read32 env ap addr w =
      (v, w ++ setup
            ++ [Ev (LowAccess ADIV5_LOW_READ ADIV5_AP_DRW 0) p;
                Ev (LowAccess ADIV5_LOW_READ ADIV5_DP_RDBUFF 0) v])
    /\ map ev_call setup = setup_calls ap addr ALIGN_WORD
    /\ 0 <= v < 2 ^ 32.
Proof.
  intros Ha.
  assert (Hm : MIN (ALIGNOF addr) (ALIGNOF 4) = ALIGN_WORD).
  { unfold ALIGNOF at 1. rewrite Ha. reflexivity. }
  unfold adiv5_mem_read32, adiv5_mem_read. rewrite !Hm.
  change (4 =? 0) with false. cbv iota.
  change (Z.to_nat (usize (Z.shiftr 4 (align_val ALIGN_WORD) - 1))) with O.
  unfold bind at 1 2.
  destruct (setup_run env ap addr ALIGN_WORD w) as [r1 [r2 [r3 Es]]].
  rewrite Es.
  unfold bind, adiv5_dp_low_access, extcall, ret.
  cbn [mem_read_loop ret fst snd app fold_left extract].
  rewrite apply_store_word by apply u32_range.
  match goal with
  | |- context [(?w0 ++ [?s1; ?s2; ?s3]) ++ [Ev ?c ?p]] =>
      exists [s1; s2; s3], p
  end.
  eexists. rewrite <- !app_assoc. cbn [app].
  split; [reflexivity|]. split; [reflexivity|apply u32_range].
Qed.

End MoreTransport.

(** ** Access-port registers *)

Lemma land_mask_range (x m n : Z) :
  0 <= n -> 0 <= m < 2 ^ n -> 0 <= Z.land x m < 2 ^ n.
Proof.
  intros Hn Hm.
  replace (Z.land x m) with (Z.land (Z.land x m) (Z.ones n)).
  - rewrite Z.land_ones by lia. apply Z.mod_pos_bound.
    apply Z.pow_pos_nonneg; lia.
  - rewrite <- Z.land_assoc. f_equal. now apply land_ones_small.
Qed.

Lemma ap_select_fields (ap : ADIv5_AP_t) (addr : Z) :
  0 <= apsel ap < 256 ->
  Z.shiftr (ap_select ap addr) 24 = apsel ap
  /\ Z.land (ap_select ap addr) 0xFFFFFF = Z.land addr 0xF0.
Proof.
  intros Ha. unfold ap_select.
  pose proof (land_mask_range addr 0xF0 8 ltac:(lia) ltac:(lia)) as Hb.
  split.
  - rewrite Z.shiftr_lor, lane_shift by lia.
    rewrite (Z.shiftr_div_pow2 (Z.land addr 240)) by lia.
    rewrite Z.div_small by lia. apply Z.lor_0_r.
  - rewrite Z.land_lor_distr_l.
    change 16777215 with (Z.ones 24).
    rewrite (land_ones_small (Z.land addr 240)) by lia.
    rewrite Z.land_ones, Z.shiftl_mul_pow2 by lia.
    unfold u32. rewrite (Z.mod_small (apsel ap * 2 ^ 24)) by lia.
    rewrite Z.mod_mul by lia. apply Z.lor_0_l.
Qed.

Section MoreAp.

Variable env : world -> call -> Z.

(** X5: every access to an AP register is a write of SELECT followed by
    the access itself; the value written to SELECT carries the [apsel] in
    its top byte and bits 7:4 of the register address, and nothing else:
    the DP bank (bits 3:0) is always 0. *)
Theorem X5_ap_access_select (ap : ADIv5_AP_t) (addr v : Z) (w : world) :
  0 <= apsel ap < 256 ->
  exists s r0 r r',
    adiv5_ap_read env ap addr w =
      (r, w ++ [Ev (LowAccess ADIV5_LOW_WRITE ADIV5_DP_SELECT s) r0;
                Ev (DpRead addr) r])
    /\ adiv5_ap_write env ap addr v w =
      (r', w ++ [Ev (LowAccess ADIV5_LOW_WRITE ADIV5_DP_SELECT s) r0;
                 Ev (LowAccess ADIV5_LOW_WRITE addr v) r'])
    /\ Z.shiftr s 24 = apsel ap
    /\ Z.land s 0xFFFFFF = Z.land addr 0xF0.
Proof.
  intros Ha. exists (ap_select ap addr).
  unfold adiv5_ap_read, adiv5_ap_write, adiv5_dp_write, adiv5_dp_low_access,
    adiv5_dp_read, extcall, bind.
  do 3 eexists. rewrite <- !app_assoc.
  split; [reflexivity|]. split; [reflexivity|].
  now apply ap_select_fields.
Qed.

Lemma csw_fields_clear (c m t : Z) :
  let c1 := Z.land c (Z.lnot m) in
  let c2 := if negb (Z.land c1 t =? 0) then Z.land c1 (Z.lnot t) else c1 in
  Z.land c2 (Z.lor m t) = 0.
Proof.
  intros c1 c2.
  assert (H1 : Z.land c1 m = 0).
  { unfold c1. rewrite <- Z.land_assoc, (Z.land_comm (Z.lnot m)).
    now rewrite Z.land_lnot_diag, Z.land_0_r. }
  rewrite Z.land_lor_distr_r. unfold c2.
  destruct (Z.eqb_spec (Z.land c1 t) 0) as [E|N]; cbn [negb].
  - now rewrite H1, E.
  - rewrite <- !Z.land_assoc, (Z.land_comm (Z.lnot t) m), Z.land_assoc, H1.
    rewrite (Z.land_comm (Z.lnot t)), Z.land_lnot_diag, Z.land_0_r.
    reflexivity.
Qed.

(** X6: [adiv5_new_ap] looks for an access port by reading its IDR and
    BASE; it touches no register but SELECT.  An IDR of 0 means no access
    port: nothing more is done, nothing is allocated.  An access port
    that is returned has the [apsel] asked for, the IDR that was read
    (not 0), and a CSW in which the size, the address increment and
    TRINPROG are clear, so that a transfer can OR its own in. *)
Theorem X6_new_ap_outcome (dp : ADIv5_DP_t) (a : Z) (w : world) :
  exists s1 idr0 s2 base0 rest,
    snd (adiv5_new_ap env dp a w) =
      w ++ [Ev (LowAccess ADIV5_LOW_WRITE ADIV5_DP_SELECT
                  (ap_select (mkAP a 0 0 0 0) ADIV5_AP_IDR)) s1;
            Ev (DpRead ADIV5_AP_IDR) idr0;
            Ev (LowAccess ADIV5_LOW_WRITE ADIV5_DP_SELECT
                  (ap_select (mkAP a 0 0 0 0) ADIV5_AP_BASE)) s2;
            Ev (DpRead ADIV5_AP_BASE) base0] ++ rest
    /\ forallb new_ap_event rest = true
    /\ (idr0 = 0 -> rest = [] /\ fst (adiv5_new_ap env dp a w) = None)
    /\ (forall ap,
          fst (adiv5_new_ap env dp a w) = Some ap ->
          apsel ap = a /\ idr ap = idr0 /\ idr0 <> 0
          /\ Z.land (csw ap)
               (Z.lor (Z.lor ADIV5_AP_CSW_SIZE_MASK ADIV5_AP_CSW_ADDRINC_MASK)
                  ADIV5_AP_CSW_TRINPROG) = 0).
Proof.
  unfold adiv5_new_ap, adiv5_ap_read, adiv5_dp_write,
    adiv5_dp_low_access, adiv5_dp_read, bind, extcall, ret.
  cbv beta iota zeta.
  set (c1 := LowAccess ADIV5_LOW_WRITE ADIV5_DP_SELECT
               (Z.lor (u32 (Z.shiftl (apsel (mkAP a 0 0 0 0)) 24))
                  (Z.land ADIV5_AP_IDR 240))).
  set (c3 := LowAccess ADIV5_LOW_WRITE ADIV5_DP_SELECT
               (Z.lor (u32 (Z.shiftl (apsel (mkAP a 0 0 0 0)) 24))
                  (Z.land ADIV5_AP_BASE 240))).
  set (e1 := Ev c1 (u32 (env w c1))).
  set (e2 := Ev (DpRead ADIV5_AP_IDR)
               (u32 (env (w ++ [e1]) (DpRead ADIV5_AP_IDR)))).
  set (e3 := Ev c3 (u32 (env ((w ++ [e1]) ++ [e2]) c3))).
  set (e4 := Ev (DpRead ADIV5_AP_BASE)
               (u32 (env (((w ++ [e1]) ++ [e2]) ++ [e3])
                       (DpRead ADIV5_AP_BASE)))).
  set (w4 := (((w ++ [e1]) ++ [e2]) ++ [e3]) ++ [e4]).
  assert (Hw : w4 = w ++ [e1; e2; e3; e4])
    by (unfold w4; now rewrite <- !app_assoc).
  exists (ev_ret e1), (ev_ret e2), (ev_ret e3), (ev_ret e4).
  change (ap_select (mkAP a 0 0 0 0) ADIV5_AP_IDR)
    with (Z.lor (u32 (Z.shiftl (apsel (mkAP a 0 0 0 0)) 24))
            (Z.land ADIV5_AP_IDR 240)).
  change (ap_select (mkAP a 0 0 0 0) ADIV5_AP_BASE)
    with (Z.lor (u32 (Z.shiftl (apsel (mkAP a 0 0 0 0)) 24))
            (Z.land ADIV5_AP_BASE 240)).
  fold c1 c3. change (Ev c1 (ev_ret e1)) with e1.
  change (Ev (DpRead ADIV5_AP_IDR) (ev_ret e2)) with e2.
  change (Ev c3 (ev_ret e3)) with e3.
  change (Ev (DpRead ADIV5_AP_BASE) (ev_ret e4)) with e4.
  change (u32 (env (w ++ [e1]) (DpRead ADIV5_AP_IDR))) with (ev_ret e2).
  destruct (Z.eqb_spec (ev_ret e2) 0) as [Ei|Ni].
  { exists []. cbn [fst snd]. rewrite app_nil_r.
    split; [exact Hw|]. split; [reflexivity|]. split; [auto|]. discriminate. }
  set (e5 := Ev Malloc (u32 (env w4 Malloc))).
  destruct (u32 (env w4 Malloc) =? 0).
  { exists [e5]. cbn [fst snd]. rewrite Hw, <- app_assoc.
    split; [reflexivity|]. split; [reflexivity|].
    split; [contradiction|]. discriminate. }
  cbn [fst snd].
  eexists. rewrite Hw, <- !app_assoc. cbn [app].
  split; [reflexivity|]. split; [reflexivity|].
  split; [contradiction|].
  intros ap H. injection H as <-. cbn [apsel idr csw].
  split; [reflexivity|]. split; [reflexivity|]. split; [exact Ni|].
  apply csw_fields_clear.
Qed.

End MoreAp.

(** ** More on component discovery *)

Section MoreDiscovery.

Variable env : world -> call -> Z.

Lemma probe_ids_trace (ap : ADIv5_AP_t) (a : Z) (w : world) :
  Z.land a 3 = 0 ->
  exists evs,
    snd (probe_ids env ap a w) = w ++ evs
    /\ forallb transport_only evs = true
    /\ tar_writes evs = id_reg_addrs a.
Proof.
  intros Ha. unfold probe_ids, bind.
  destruct (read_pidr_trace env ap a w Ha) as [e1 [E1 [T1 O1]]].
  destruct (adiv5_ap_read_pidr env ap a w) as [pidr w1].
  cbn [snd] in E1. subst w1.
  assert (Hca : Z.land (u32 (a + CIDR0_OFFSET)) 3 = 0)
    by (apply aligned_add; [exact Ha|reflexivity]).
  destruct (read_id_loop_trace env ap _ [0; 1; 2; 3] Hca 0 (w ++ e1))
    as [e2 [E2 [T2 O2]]].
  unfold adiv5_ap_read_id.
  destruct (ap_read_id_loop env [0; 1; 2; 3] ap (u32 (a + CIDR0_OFFSET)) 0
              (w ++ e1)) as [cidr w2].
  cbn [snd] in E2. subst w2.
  unfold adiv5_dp_error, extcall, ret. cbn [snd].
  eexists (e1 ++ e2 ++ [_]). rewrite <- !app_assoc.
  split; [reflexivity|]. split.
  - rewrite !forallb_app, O1, O2. reflexivity.
  - rewrite !tar_writes_app, T1, T2. unfold id_reg_addrs.
    cbn [map app tar_writes flat_map ev_call].
    rewrite !u32_add_idemp.
    repeat (apply (f_equal2 cons);
            [f_equal; unfold PIDR4_OFFSET, PIDR0_OFFSET, CIDR0_OFFSET; lia|]).
    reflexivity.
Qed.

(** One step of [adiv5_component_probe], after its reads. *)
Lemma probe_unfold (fuel : nat) (ap : ADIv5_AP_t)
    (addr recursion num_entry : Z) (w : world) :
  let a := Z.land addr (Z.lnot 3) in
  let ids := fst (probe_ids env ap a w) in
  let pidr := fst (fst ids) in
  let cidr := snd (fst ids) in
  let err := snd ids in
  let w1 := snd (probe_ids env ap a w) in
  adiv5_component_probe env (S fuel) ap addr recursion num_entry w =
  if negb (err =? 0) then Some (false, w1)
  else if negb (Z.land cidr (Z.lnot CID_CLASS_MASK) =? CID_PREAMBLE)
  then Some (false, w1)
  else if Z.shiftr (Z.land cidr CID_CLASS_MASK) CID_CLASS_SHIFT =? cidc_romtab
  then rom_table_loop env (adiv5_component_probe env fuel ap) 960 ap a
         recursion 0 false w1
  else if negb (designer_is_arm pidr) then Some (false, w1)
  else Some (component_dispatch env ap a pidr w1).
Proof.
  intros a ids pidr cidr err w1. subst ids pidr cidr err w1.
  cbn [adiv5_component_probe]. fold a.
  unfold probe_ids, bindF, liftF, bind, retF, ret, designer_is_arm.
  destruct (adiv5_ap_read_pidr env ap a w) as [pidr w1].
  destruct (adiv5_ap_read_id env ap (u32 (a + CIDR0_OFFSET)) w1) as [cidr w2].
  destruct (adiv5_dp_error env w2) as [err w3]. cbn [fst snd].
  destruct (negb (err =? 0)); [reflexivity|].
  destruct (negb (_ =? CID_PREAMBLE)); [reflexivity|].
  destruct (_ =? cidc_romtab); [reflexivity|].
  destruct (negb _); reflexivity.
Qed.

Lemma transport_not_forced (evs : list event) :
  forallb transport_only evs = true -> forallb not_forced evs = true.
Proof.
  induction evs as [|e evs IH]; [reflexivity|].
  cbn [forallb]. intros H. apply andb_prop in H. destruct H as [He Hr].
  rewrite (IH Hr), andb_true_r.
  unfold transport_only in He. unfold not_forced.
  destruct (ev_call e); try discriminate; reflexivity.
Qed.

(** X7: a fault of the debug port while the identification registers
    are read ends the probe of the component: the result is [false]
    whatever was read, and nothing was done but to read the twelve
    identification registers and to ask for the error. *)
Theorem X7_probe_fault_rejects
    (fuel : nat) (ap : ADIv5_AP_t) (addr recursion num_entry : Z)
    (w : world) :
  let a := Z.land addr (Z.lnot 3) in
  snd (fst (probe_ids env ap a w)) <> 0 ->
  exists evs,
    adiv5_component_probe env (S fuel) ap addr recursion num_entry w
    = Some (false, w ++ evs)
    /\ forallb transport_only evs = true
    /\ tar_writes evs = id_reg_addrs a.
Proof.
  intros a He. rewrite probe_unfold. fold a.
  destruct (probe_ids_trace ap a w (aligned_lnot3 addr)) as [evs [E [O T]]].
  exists evs. rewrite E.
  destruct (Z.eqb_spec (snd (fst (probe_ids env ap a w))) 0) as [E0|_];
    [contradiction|].
  cbn [negb]. auto.
Qed.

Ltac found_step :=
  first [ apply mresult_ret; reflexivity
        | apply mresult_bind; intros ? ].

Lemma dispatch_found (ap : ADIv5_AP_t) (a pidr : Z) (row : pidr_pn_row) :
  pn_find pidr_pn_bits (u16 (Z.land pidr PIDR_PN_MASK)) = Some row ->
  mresult (fun b => b = true) (component_dispatch env ap a pidr).
Proof.
  intros H. unfold component_dispatch. rewrite H.
  apply mresult_bind. intros v8.
  destruct (arch row); repeat found_step.
  destruct v8; repeat found_step.
Qed.

(** X8: a component that is no ROM table is accepted exactly when its
    designer is ARM and its part number has a row in the part table; it is
    then handed to a Cortex probe that is never a forced one.  A component
    that is refused has cost the twelve identification reads and the error
    query, and no probe was called. *)
Theorem X8_probe_leaf_outcome
    (fuel : nat) (ap : ADIv5_AP_t) (addr recursion num_entry : Z)
    (w : world) :
  let a := Z.land addr (Z.lnot 3) in
  let pidr := fst (fst (fst (probe_ids env ap a w))) in
  let cidr := snd (fst (fst (probe_ids env ap a w))) in
  snd (fst (probe_ids env ap a w)) = 0 ->
  Z.land cidr (Z.lnot CID_CLASS_MASK) = CID_PREAMBLE ->
  Z.shiftr (Z.land cidr CID_CLASS_MASK) CID_CLASS_SHIFT <> cidc_romtab ->
  exists evs,
    adiv5_component_probe env (S fuel) ap addr recursion num_entry w
    = Some (designer_is_arm pidr && part_known pidr, w ++ evs)
    /\ forallb not_forced evs = true
    /\ (designer_is_arm pidr && part_known pidr = false ->
        forallb transport_only evs = true
        /\ tar_writes evs = id_reg_addrs a).
Proof.
  intros a pidr cidr He Hp Hc. rewrite probe_unfold. fold a pidr cidr.
  destruct (probe_ids_trace ap a w (aligned_lnot3 addr)) as [e1 [E [O T]]].
  rewrite E, He. fold cidr in Hp, Hc. rewrite Hp.
  change (negb (0 =? 0)) with false. cbv iota.
  rewrite Z.eqb_refl. cbn [negb].
  destruct (Z.eqb_spec (Z.shiftr (Z.land cidr CID_CLASS_MASK) CID_CLASS_SHIFT)
              cidc_romtab) as [Er|_]; [contradiction|].
  destruct (designer_is_arm pidr); cbn [negb andb].
  2:{ exists e1. split; [reflexivity|].
      split; [now apply transport_not_forced|auto]. }
  pose proof (mext_dispatch env ap a pidr (w ++ e1)) as [e2 [E2 O2]].
  unfold part_known.
  destruct (pn_find pidr_pn_bits (u16 (Z.land pidr PIDR_PN_MASK)))
    as [row|] eqn:Ef.
  - pose proof (dispatch_found ap a pidr row Ef (w ++ e1)) as Hr.
    cbv beta in Hr.
    destruct (component_dispatch env ap a pidr (w ++ e1)) as [r w3].
    cbn [fst snd] in Hr, E2. subst r w3.
    exists (e1 ++ e2). rewrite <- app_assoc. split; [reflexivity|].
    split; [|discriminate].
    rewrite forallb_app, O2, (transport_not_forced _ O). reflexivity.
  - unfold component_dispatch. rewrite Ef. unfold ret.
    exists e1. split; [reflexivity|].
    split; [now apply transport_not_forced|auto].
Qed.

End MoreDiscovery.

Lemma arch_scan_support (rows : list (Z * arm_arch)) (id : Z) :
  forallb (fun r => match snd r with aa_v8 => false | _ => true end) rows
  = true ->
  arch_scan rows id aa_nosupport = aa_nosupport
  \/ arch_scan rows id aa_nosupport = aa_cortexm
  \/ arch_scan rows id aa_nosupport = aa_cortexa.
Proof.
  induction rows as [|[rid rarch] rows IH]; [auto|].
  cbn [forallb snd arch_scan]. intros H.
  apply andb_prop in H. destruct H as [Hr Hrest].
  destruct rarch; try discriminate; cbn [arm_arch_eqb negb];
    try (destruct (rid =? id); cbn [andb]; auto).
Qed.

Lemma arch_scan_none (rows : list (Z * arm_arch)) (id : Z) :
  forallb (fun r => match snd r with
                    | aa_nosupport | aa_end => true
                    | _ => false
                    end) rows = true ->
  arch_scan rows id aa_nosupport = aa_nosupport.
Proof.
  induction rows as [|[rid rarch] rows IH]; [auto|].
  cbn [forallb snd arch_scan]. intros H.
  apply andb_prop in H. destruct H as [Hr Hrest].
  destruct rarch; try discriminate; cbn [arm_arch_eqb negb].
  - rewrite andb_false_r. auto.
  - reflexivity.
Qed.

Section MoreArmv8.

Variable env : world -> call -> Z.

(** X9: [adiv5_armv8_probe] classifies a component as Cortex-M, as
    Cortex-A or as not supported, and as nothing else.  It consults
    DEVTYPE only when DEVARCH is not present, and then the answer is
    always "not supported": no row of the DEVTYPE table names a probe. *)
Theorem X9_armv8_probe_outcome (ap : ADIv5_AP_t) (addr : Z) (w : world) :
  let rd := adiv5_mem_read32 env ap (u32 (addr + DEVARCH_OFFSET)) w in
  let r := adiv5_armv8_probe env ap addr w in
  (fst r = aa_nosupport \/ fst r = aa_cortexm \/ fst r = aa_cortexa)
  /\ (Z.land (fst rd) DEVARCH_PRESENT_MASK <> 0 -> snd r = snd rd)
  /\ (Z.land (fst rd) DEVARCH_PRESENT_MASK = 0 ->
      fst r = aa_nosupport
      /\ snd r =
         snd (adiv5_mem_read32 env ap (u32 (addr + DEVTYPE_OFFSET)) (snd rd))).
Proof.
  intros rd r. subst rd r. unfold adiv5_armv8_probe, bind, ret.
  destruct (adiv5_mem_read32 env ap (u32 (addr + DEVARCH_OFFSET)) w)
    as [devarch w1].
  cbn [fst snd].
  destruct (Z.eqb_spec (Z.land devarch DEVARCH_PRESENT_MASK) 0) as [E|N];
    cbn [negb].
  - destruct (adiv5_mem_read32 env ap (u32 (addr + DEVTYPE_OFFSET)) w1)
      as [devtype w2].
    cbn [fst snd]. rewrite arch_scan_none by reflexivity.
    split; [auto|]. split; [contradiction|auto].
  - cbn [fst snd]. split; [apply arch_scan_support; reflexivity|].
    split; [reflexivity|contradiction].
Qed.

End MoreArmv8.

(** ** More on the AP scan *)

Create HintDb quiet.

Section Quiet.

Variable env : world -> call -> Z.
Variable P : event -> bool.
Hypothesis P_ok : forall c r, ~ scan_only c -> P (Ev c r) = true.

Ltac quiet_call :=
  apply mext_extcall; intros ?; apply P_ok; cbn; tauto.

Ltac quiet :=
  repeat first
    [ apply mext_ret
    | solve [eauto with quiet nocore]
    | quiet_call
    | apply mext_bind; [|intros ?]
    | match goal with
      | |- mext _ (if ?c then _ else _) => destruct c
      | |- mext _ (match ?x with _ => _ end) => destruct x
      end ].

Lemma quiet_mem_read_loop (n : nat) (a : align) :
  forall dest src osrc log,
    mext P (mem_read_loop env n a dest src osrc log).
Proof.
  induction n as [|n IH]; intros dest src osrc log; [apply mext_ret|].
  cbn [mem_read_loop]. apply mext_bind; [quiet_call|]. intros tmp.
  destruct (_ =? 0); [apply IH|].
  apply mext_bind; [quiet_call|]. intros _.
  apply mext_bind; [quiet_call|]. intros _. apply IH.
Qed.

#[local] Hint Resolve quiet_mem_read_loop : quiet.

Lemma quiet_mem_read32 (ap : ADIv5_AP_t) (addr : Z) :
  mext P (adiv5_mem_read32 env ap addr).
Proof. unfold adiv5_mem_read32, adiv5_mem_read. quiet. Qed.

#[local] Hint Resolve quiet_mem_read32 : quiet.

Lemma quiet_read_id_loop (ap : ADIv5_AP_t) (addr : Z) (idxs : list Z) :
  forall res, mext P (ap_read_id_loop env idxs ap addr res).
Proof.
  induction idxs as [|i idxs IH]; intros res; [apply mext_ret|].
  cbn [ap_read_id_loop]. apply mext_bind; [apply quiet_mem_read32|].
  intros x. apply IH.
Qed.

#[local] Hint Resolve quiet_read_id_loop : quiet.

Lemma quiet_dispatch (ap : ADIv5_AP_t) (addr pidr : Z) :
  mext P (component_dispatch env ap addr pidr).
Proof. unfold component_dispatch, adiv5_armv8_probe. quiet. Qed.

Lemma quiet_rom_table_loop (probe : Z -> Z -> Z -> F bool)
    (ap : ADIv5_AP_t) (addr recursion : Z) :
  (forall a r i, fext P (probe a r i)) ->
  forall n i res,
    fext P (rom_table_loop env probe n ap addr recursion i res).
Proof.
  intros Hp. induction n as [|n IH]; intros i res; [apply fext_ret|].
  cbn [rom_table_loop].
  apply fext_bind; [apply fext_lift, quiet_mem_read32|]. intros entry.
  apply fext_bind; [apply fext_lift; quiet_call|]. intros _.
  destruct (entry =? 0); [apply fext_ret|].
  destruct (_ =? 0); [apply IH|].
  apply fext_bind; [apply Hp|]. intros r. apply IH.
Qed.

Lemma quiet_component_probe (ap : ADIv5_AP_t) (fuel : nat) :
  forall addr recursion num_entry,
    fext P (adiv5_component_probe env fuel ap addr recursion num_entry).
Proof.
  induction fuel as [|fuel IH]; intros addr recursion num_entry.
  - intros w r w' H. discriminate.
  - cbn [adiv5_component_probe].
    apply fext_bind.
    { apply fext_lift. unfold adiv5_ap_read_pidr, adiv5_ap_read_id. quiet. }
    intros pidr. apply fext_bind.
    { apply fext_lift. unfold adiv5_ap_read_id. quiet. }
    intros cidr. apply fext_bind; [apply fext_lift; quiet_call|].
    intros err.
    destruct (negb (err =? 0)); [apply fext_ret|].
    destruct (negb (_ =? CID_PREAMBLE)); [apply fext_ret|].
    destruct (_ =? cidc_romtab).
    + apply quiet_rom_table_loop. exact IH.
    + destruct (negb _); [apply fext_ret|].
      apply fext_lift, quiet_dispatch.
Qed.

Lemma quiet_new_ap (dp : ADIv5_DP_t) (a : Z) :
  mext P (adiv5_new_ap env dp a).
Proof. unfold adiv5_new_ap. quiet. Qed.

Lemma quiet_aap_probe (ap : ADIv5_AP_t) : mext P (efm32_aap_probe env ap).
Proof. unfold efm32_aap_probe. quiet. Qed.

End Quiet.

Section MoreScan.

Variable env : world -> call -> Z.

Lemma not_vendor_ok (c : call) (r : Z) :
  ~ scan_only c -> not_vendor (Ev c r) = true.
Proof. destruct c; cbn; intros H; try reflexivity; exfalso; apply H; exact I. Qed.

Lemma vendor_probes_app (w1 w2 : world) :
  vendor_probes (w1 ++ w2) = vendor_probes w1 ++ vendor_probes w2.
Proof. apply flat_map_app. Qed.

Lemma ext_vendor (w w' : world) :
  ext not_vendor w w' -> vendor_probes w' = vendor_probes w.
Proof.
  intros [evs [-> O]]. rewrite vendor_probes_app.
  rewrite <- app_nil_r. f_equal.
  induction evs as [|e evs IH]; [reflexivity|].
  cbn [forallb] in O. apply andb_prop in O. destruct O as [Oe Or].
  unfold vendor_probes in *. cbn [flat_map]. rewrite (IH Or), app_nil_r.
  unfold not_vendor in Oe. destruct (ev_call e); try reflexivity;
    discriminate.
Qed.

Lemma ap_loop_vendor (fuel : nat) (dp : ADIv5_DP_t) (n : nat) :
  forall i lb va p log w log' w',
    dp_init_ap_loop env fuel n dp i lb va p log w = Some (log', w') ->
    exists entries,
      log' = log ++ entries
      /\ Forall base_rule entries
      /\ vendor_probes w' = vendor_probes w ++ vendor_calls_of i entries.
Proof.
  induction n as [|n IH]; intros i lb va p log w log' w' H.
  - injection H as <- <-. exists []. rewrite !app_nil_r. auto.
  - cbn [dp_init_ap_loop] in H.
    destruct (va <? 8); cbn [negb] in H.
    2:{ injection H as <- <-. exists []. rewrite !app_nil_r. auto. }
    unfold bindF at 1 in H. unfold liftF at 1 in H.
    cbn [adiv5_ap_setup] in H.
    pose proof (quiet_new_ap env not_vendor not_vendor_ok dp (u8 i) w) as Xn.
    destruct (adiv5_new_ap env dp (u8 i) w) as [[ap|] w1] eqn:En;
      cbn [snd] in Xn; apply ext_vendor in Xn.
    + pose proof (new_ap_apsel _ _ _ _ _ _ En) as Hsel.
      destruct (base ap =? lb).
      { injection H as <- <-. exists [ApDuplicate (base ap)].
        split; [reflexivity|]. split; [repeat constructor|].
        cbn. now rewrite app_nil_r. }
      unfold bindF at 1 in H. unfold liftF at 1 in H.
      unfold extcall at 1 in H.
      unfold bindF at 1 in H. unfold liftF at 1 in H.
      unfold extcall at 1 in H.
      unfold bindF at 1 in H. unfold liftF at 1 in H.
      set (k1 := Ev (KinetisMdmProbe (apsel ap)) _) in H.
      set (k2 := Ev (Nrf51MdmProbe (apsel ap)) _) in H.
      assert (Hv : vendor_probes ((w1 ++ [k1]) ++ [k2])
                   = vendor_probes w
                       ++ [KinetisMdmProbe (u8 i); Nrf51MdmProbe (u8 i)]).
      { rewrite !vendor_probes_app, Xn, <- app_assoc, <- Hsel. reflexivity. }
      pose proof (quiet_aap_probe env not_vendor not_vendor_ok ap
                    ((w1 ++ [k1]) ++ [k2])) as X4.
      destruct (efm32_aap_probe env ap ((w1 ++ [k1]) ++ [k2])) as [t w4].
      cbn [snd] in X4. apply ext_vendor in X4.
      destruct ((Z.land (base ap) ADIV5_AP_BASE_PRESENT =? 0)
                || (base ap =? 4294967295)) eqn:Eb.
      { destruct (IH _ _ _ _ _ _ _ _ H) as [rest [-> [R Vp]]].
        exists (ApNoDebug (base ap) :: rest). rewrite <- app_assoc.
        split; [reflexivity|]. split.
        - constructor; [|exact R]. cbn [base_rule].
          apply orb_prop in Eb. destruct Eb as [Eb|Eb]; [left|right];
            now apply Z.eqb_eq.
        - cbn [vendor_calls_of]. rewrite Vp, X4, Hv, <- app_assoc.
          reflexivity. }
      apply orb_false_elim in Eb. destruct Eb as [Eb1 Eb2].
      apply Z.eqb_neq in Eb1, Eb2.
      unfold bindF at 1 in H.
      destruct (adiv5_component_probe env fuel ap (base ap) 0 0 w4)
        as [[found w5]|] eqn:Ep; [|discriminate].
      apply (quiet_component_probe env not_vendor not_vendor_ok),
        ext_vendor in Ep.
      destruct (negb (p || found) && (Z.land (idcode dp) 4095 =? 1143)).
      * unfold bindF at 1 in H. unfold liftF at 1 in H.
        unfold cortexm_probe, extcall in H.
        destruct (IH _ _ _ _ _ _ _ _ H) as [rest [-> [R Vp]]].
        exists (ApMem (base ap) found true :: rest). rewrite <- app_assoc.
        split; [reflexivity|]. split.
        -- constructor; [|exact R]. cbn [base_rule]. auto.
        -- cbn [vendor_calls_of]. rewrite Vp, vendor_probes_app.
           cbn [vendor_probes flat_map ev_call app].
           rewrite app_nil_r.
           change (flat_map _ w5) with (vendor_probes w5).
           rewrite Ep, X4, Hv, <- app_assoc. reflexivity.
      * destruct (IH _ _ _ _ _ _ _ _ H) as [rest [-> [R Vp]]].
        exists (ApMem (base ap) found false :: rest). rewrite <- app_assoc.
        split; [reflexivity|]. split.
        -- constructor; [|exact R]. cbn [base_rule]. auto.
        -- cbn [vendor_calls_of]. rewrite Vp, Ep, X4, Hv, <- app_assoc.
           reflexivity.
    + destruct (i =? 0).
      { injection H as <- <-. exists [ApAbsent].
        split; [reflexivity|]. split; [repeat constructor|].
        cbn. now rewrite app_nil_r. }
      destruct (IH _ _ _ _ _ _ _ _ H) as [rest [-> [R Vp]]].
      exists (ApAbsent :: rest). rewrite <- app_assoc.
      split; [reflexivity|]. split; [constructor; [exact I|exact R]|].
      cbn [vendor_calls_of]. congruence.
Qed.


End MoreScan.

(** X11: the AP scan ends.  On a debug port whose ROM tables nest at
    most [depth] deep, whatever their place, the scan returns a report,
    and the report has at most 256 entries: the loop over [apsel] is
    bounded, and only the walk of the ROM tables could go on for ever. *)
Theorem X11_scan_returns (d : device) (depth : nat) (dp : ADIv5_DP_t)
    (w : world) :
  (forall addr, rom_nesting_ok (dev_mem d) depth addr = true) ->
  exists log w',
    dp_init_ap_scan (env_dev d) (S depth) dp w = Some (log, w')
    /\ (length log <= 256)%nat.
Proof.
  intros Hn. rewrite dp_init_ap_scan_eq.
  apply (ap_loop_returns (env_dev d) (S depth)).
  intros ap addr w0.
  destruct (mock_probe_terminates d ap depth addr 0 0 w0 (Hn addr))
    as [res [w1 E]].
  rewrite E. discriminate.
Qed.

(** ** More on the EFM32 driver *)

Lemma family_search_spec (rows : list efm32_device_t) (pf : Z) :
  forall i0,
    0 <= i0 -> i0 + Z.of_nat (length rows) < EFM32_UNKNOWN_FAMILY ->
    let i := family_search rows i0 pf in
    (i = EFM32_UNKNOWN_FAMILY
     /\ forall d, In d rows -> family_id d <> pf)
    \/ (i0 <= i < i0 + Z.of_nat (length rows)
        /\ (exists d, nth_error rows (Z.to_nat (i - i0)) = Some d
                      /\ family_id d = pf)
        /\ forall j d, i0 <= j < i ->
                       nth_error rows (Z.to_nat (j - i0)) = Some d ->
                       family_id d <> pf).
Proof.
  induction rows as [|r rows IH]; intros i0 H0 Hb.
  - left. split; [reflexivity|]. intros d [].
  - cbn [family_search]. cbn [length] in Hb.
    destruct (Z.eqb_spec (family_id r) pf) as [E|N].
    + right. split; [cbn [length]; lia|]. split.
      * exists r. rewrite Z.sub_diag. auto.
      * intros j d Hj. lia.
    + destruct (IH (i0 + 1) ltac:(lia) ltac:(lia)) as [[E1 E2]|[R1 [R2 R3]]].
      * left. split; [exact E1|]. intros d [<-|Hd]; auto.
      * right. split; [cbn [length]; lia|]. split.
        -- destruct R2 as [d [Hd Hf]]. exists d. split; [|exact Hf].
           replace (Z.to_nat (family_search rows (i0 + 1) pf - i0))
             with (S (Z.to_nat (family_search rows (i0 + 1) pf - (i0 + 1))))
             by lia.
           exact Hd.
        -- intros j d Hj Hd. destruct (Z.eq_dec j i0) as [->|Nj].
           ++ rewrite Z.sub_diag in Hd. injection Hd as <-. exact N.
           ++ apply (R3 j d); [lia|].
              replace (Z.to_nat (j - i0)) with (S (Z.to_nat (j - (i0 + 1))))
                in Hd by lia.
              exact Hd.
Qed.

Lemma get_device_nth (i : Z) (d : efm32_device_t) :
  0 <= i ->
  (efm32_get_device i = Some d
   <-> i < efm32_devices_nb /\ nth_error efm32_devices (Z.to_nat i) = Some d).
Proof.
  intros Hi. unfold efm32_get_device.
  destruct (Z.geb_spec i efm32_devices_nb) as [G|L].
  - split; [discriminate|]. intros [H _]. lia.
  - split; [auto|]. intros [_ H]. exact H.
Qed.

Section MoreProbe.

Variable env : world -> call -> Z.

Lemma lookup_get_family (v : Z) (w : world) (d : efm32_device_t) :
  efm32_get_device (fst (efm32_lookup_device_index env v w)) = Some d ->
  family_id d = fst (efm32_read_part_family env v w).
Proof.
  unfold efm32_lookup_device_index, bind, ret.
  destruct (efm32_read_part_family env v w) as [pf w1]. cbn [fst].
  destruct (family_search_spec efm32_devices pf 0 ltac:(lia)
              ltac:(vm_compute; reflexivity))
    as [[E1 _]|[R1 [[d' [Hd Hf]] _]]]; cbv zeta in *.
  - rewrite E1. discriminate.
  - intros Hg. apply get_device_nth in Hg; [|lia].
    rewrite Z.sub_0_r in Hd. destruct Hg as [_ Hg].
    rewrite Hd in Hg. now injection Hg as <-.
Qed.

(** X12: the row that [efm32_lookup_device_index] finds and
    [efm32_get_device] fetches is the first row of the device table with
    the family read from the PART word; when no row has this family the
    index is [EFM32_UNKNOWN_FAMILY], which [efm32_get_device] answers
    with no row at all. *)
Theorem X12_lookup_then_get (v : Z) (w : world) :
  let pf := fst (efm32_read_part_family env v w) in
  let i := fst (efm32_lookup_device_index env v w) in
  match efm32_get_device i with
  | Some d =>
      family_id d = pf
      /\ 0 <= i < efm32_devices_nb
      /\ forall j d', 0 <= j < i -> efm32_get_device j = Some d' ->
                      family_id d' <> pf
  | None =>
      i = EFM32_UNKNOWN_FAMILY
      /\ forall d, In d efm32_devices -> family_id d <> pf
  end.
Proof.
  intros pf i. subst pf i. unfold efm32_lookup_device_index, bind, ret.
  destruct (efm32_read_part_family env v w) as [pf w1]. cbn [fst].
  destruct (family_search_spec efm32_devices pf 0 ltac:(lia)
              ltac:(vm_compute; reflexivity))
    as [[E1 E2]|[R1 [[d [Hd Hf]] R3]]]; cbv zeta in *.
  - rewrite E1. change (efm32_get_device EFM32_UNKNOWN_FAMILY) with
      (@None efm32_device_t). split; [reflexivity|exact E2].
  - set (i := family_search efm32_devices 0 pf) in *.
    rewrite Z.sub_0_r in Hd. change (0 + Z.of_nat (length efm32_devices))
      with efm32_devices_nb in R1.
    assert (Hg : efm32_get_device i = Some d)
      by (apply get_device_nth; [lia|split; [lia|exact Hd]]).
    rewrite Hg. split; [exact Hf|]. split; [lia|].
    intros j d' Hj Hd'. apply get_device_nth in Hd'; [|lia].
    apply (R3 j d'); [lia|]. rewrite Z.sub_0_r. apply Hd'.
Qed.

Lemma lookup_index_range (v : Z) (w : world) :
  let i := fst (efm32_lookup_device_index env v w) in
  i = EFM32_UNKNOWN_FAMILY \/ 0 <= i < efm32_devices_nb.
Proof.
  intros i. subst i. unfold efm32_lookup_device_index, bind, ret.
  destruct (efm32_read_part_family env v w) as [pf w1]. cbn [fst].
  destruct (family_search_spec efm32_devices pf 0 ltac:(lia)
              ltac:(vm_compute; reflexivity))
    as [[E1 _]|[R1 _]]; cbv zeta in *; [left; exact E1|right; exact R1].
Qed.

Lemma get_device_some (i : Z) :
  0 <= i < efm32_devices_nb -> efm32_get_device i <> None.
Proof.
  intros Hi. unfold efm32_get_device.
  destruct (Z.geb_spec i efm32_devices_nb) as [G|_]; [lia|].
  apply nth_error_Some. unfold efm32_devices_nb in Hi. lia.
Qed.

Lemma probe_di_rest_some (v idx : Z) :
  mresult
    (fun o =>
       forall t, o = Some t ->
         idx <> EFM32_UNKNOWN_FAMILY
         /\ efm32_get_device idx <> None
         /\ driver t = [u8 (v + 48); 8; u8 (u8 idx + 32); 8])
    (probe_di_rest env v idx).
Proof.
  unfold probe_di_rest.
  destruct (Z.eqb_spec idx EFM32_UNKNOWN_FAMILY) as [E|N];
    [apply mresult_ret; discriminate|].
  destruct (efm32_get_device idx) as [device|];
    [|apply mresult_ret; discriminate].
  do 9 (apply mresult_bind; intros ?).
  apply mresult_ret. intros t H. injection H as <-. cbn [driver].
  split; [exact N|]. split; [discriminate|reflexivity].
Qed.

Lemma probe_di_rest_none (v idx : Z) :
  mresult
    (fun o =>
       o = None ->
       idx = EFM32_UNKNOWN_FAMILY \/ efm32_get_device idx = None)
    (probe_di_rest env v idx).
Proof.
  unfold probe_di_rest.
  destruct (Z.eqb_spec idx EFM32_UNKNOWN_FAMILY) as [E|N];
    [apply mresult_ret; auto|].
  destruct (efm32_get_device idx) as [device|];
    [|apply mresult_ret; auto].
  do 9 (apply mresult_bind; intros ?).
  apply mresult_ret. discriminate.
Qed.

Lemma probe_di_index (v : Z) (w : world) :
  fst (efm32_lookup_device_index env v w)
  = family_search efm32_devices 0 (fst (efm32_read_part_family env v w)).
Proof.
  unfold efm32_lookup_device_index, bind, ret.
  destruct (efm32_read_part_family env v w). reflexivity.
Qed.

Lemma driver_index_round_trip (i : Z) :
  0 <= i < efm32_devices_nb -> usize (u8 (u8 i + 32) - 32) = i.
Proof.
  intros Hi. change efm32_devices_nb with 61 in Hi.
  unfold u8, usize, size_t_bits.
  rewrite (Z.mod_small i) by lia. rewrite (Z.mod_small (i + 32)) by lia.
  rewrite Z.mod_small by lia. lia.
Qed.

Lemma probe_some_di (idc : Z) (w : world) (t : target) :
  fst (efm32_probe env idc w) = Some t ->
  exists v,
    (v = 2 \/ v = 3 \/ v = 4)
    /\ spec_di_version idc = Some v
    /\ efm32_probe env idc w = efm32_probe_di env v w.
Proof.
  unfold efm32_probe, spec_di_version.
  destruct (idc =? 0x2BA01477); [exists 3; auto|].
  destruct (idc =? 0x0BC11477); [exists 2; auto|].
  destruct (idc =? 0x6BA02477); [exists 4; auto|].
  discriminate.
Qed.

Lemma probe_driver_index (idc : Z) (w : world) (t : target) :
  fst (efm32_probe env idc w) = Some t ->
  exists v dev,
    (v = 2 \/ v = 3 \/ v = 4)
    /\ spec_di_version idc = Some v
    /\ usize (nth 2 (driver t) 0 - 32)
       = fst (efm32_lookup_device_index env v w)
    /\ efm32_get_device (usize (nth 2 (driver t) 0 - 32)) = Some dev
    /\ efm32_probe env idc w = efm32_probe_di env v w.
Proof.
  intros H. destruct (probe_some_di idc w t H) as [v [Hv [Sv E]]].
  rewrite E, probe_di_split in H.
  apply probe_di_rest_some in H. destruct H as [Hu [Hg Hd]].
  rewrite <- probe_di_index in Hu, Hg, Hd.
  destruct (lookup_index_range v w) as [R|R]; [contradiction|].
  set (i := fst (efm32_lookup_device_index env v w)) in *.
  destruct (efm32_get_device i) as [dev|] eqn:G; [|contradiction].
  exists v, dev. rewrite Hd. cbn [nth].
  rewrite driver_index_round_trip by exact R. auto.
Qed.

(** X13: the driver string that [efm32_probe] leaves on a target is read
    back by the flash functions and the monitor commands as the very
    schema and the very row of the device table that the probe used:
    its byte 0 less 48 is the schema chosen from the IDCODE, its byte 2
    less 32 the index that the part family was found at. *)
Theorem X13_probe_driver_round_trip (idc : Z) (w : world) (t : target) :
  fst (efm32_probe env idc w) = Some t ->
  exists v dev,
    spec_di_version idc = Some v
    /\ u8 (nth 0 (driver t) 0 - 48) = v
    /\ usize (nth 2 (driver t) 0 - 32)
       = fst (efm32_lookup_device_index env v w)
    /\ efm32_get_device (usize (nth 2 (driver t) 0 - 32)) = Some dev
    /\ family_id dev = fst (efm32_read_part_family env v w).
Proof.
  intros H. destruct (probe_some_di idc w t H) as [v [Hv [Sv E]]].
  rewrite E, probe_di_split in H.
  apply probe_di_rest_some in H. destruct H as [Hu [Hg Hd]].
  rewrite <- probe_di_index in Hu, Hg, Hd.
  destruct (lookup_index_range v w) as [R|R]; [contradiction|].
  set (i := fst (efm32_lookup_device_index env v w)) in *.
  destruct (efm32_get_device i) as [dev|] eqn:G; [|contradiction].
  exists v, dev. rewrite Hd. cbn [nth].
  rewrite driver_index_round_trip by exact R.
  split; [exact Sv|]. split.
  - destruct Hv as [E2 | [E2 | E2]]; rewrite E2; reflexivity.
  - split; [reflexivity|]. split; [exact G|].
    apply lookup_get_family. exact G.
Qed.

(** X14: with an IDCODE that names a schema, the probe succeeds exactly
    when the part family read from the device has a row in the device
    table.  Nothing else decides: not the sizes read from MSIZE, not the
    schema that the row lists, not the allocation of the flash regions,
    whose failure leaves the target without that region. *)
Theorem X14_probe_success (idc : Z) (w : world) :
  fst (efm32_probe env idc w) <> None
  <-> exists v,
        spec_di_version idc = Some v
        /\ fst (efm32_lookup_device_index env v w) <> EFM32_UNKNOWN_FAMILY.
Proof.
  split.
  - intros H. destruct (fst (efm32_probe env idc w)) as [t|] eqn:E;
      [clear H|contradiction].
    destruct (probe_some_di idc w t E) as [v [Hv [Sv Ep]]].
    rewrite Ep, probe_di_split in E. apply probe_di_rest_some in E.
    exists v. split; [exact Sv|]. rewrite probe_di_index. apply E.
  - intros [v [Sv Hi]] Hn.
    assert (Ep : efm32_probe env idc w = efm32_probe_di env v w).
    { revert Sv. unfold efm32_probe, spec_di_version.
      destruct (idc =? 0x2BA01477); [intros [= <-]; reflexivity|].
      destruct (idc =? 0x0BC11477); [intros [= <-]; reflexivity|].
      destruct (idc =? 0x6BA02477); [intros [= <-]; reflexivity|].
      discriminate. }
    rewrite Ep, probe_di_split in Hn. apply probe_di_rest_none in Hn.
    rewrite <- probe_di_index in Hn.
    destruct Hn as [Hn|Hn]; [contradiction|].
    destruct (lookup_index_range v w) as [R|R]; [contradiction|].
    now apply get_device_some in R.
Qed.

End MoreProbe.

Lemma kib_u32 (k : Z) : (u32 (k * 1024) mod 1024 =? 0) = true.
Proof.
  apply Z.eqb_eq. unfold u32. change (2 ^ 32) with (1024 * 4194304).
  rewrite Z.rem_mul_r by lia.
  rewrite (Z.mul_comm 1024 (_ mod _)), Z.mod_add by lia.
  rewrite Z.mod_mod by lia. apply Z.mod_mul. lia.
Qed.

Lemma page_size_positive (i : Z) (dev : efm32_device_t) :
  efm32_get_device i = Some dev -> 0 < flash_page_size dev.
Proof.
  unfold efm32_get_device. destruct (i >=? efm32_devices_nb); [discriminate|].
  intros H. apply nth_error_In in H.
  assert (A : forallb (fun d => 0 <? flash_page_size d) efm32_devices = true)
    by reflexivity.
  rewrite forallb_forall in A. apply A in H. now apply Z.ltb_lt.
Qed.

Section MoreRegions.

Variable env : world -> call -> Z.

Lemma mext_add_flash_ok (dev : efm32_device_t) (s l : Z) :
  region_ok dev (Ev (TargetAddFlash s l (flash_page_size dev)) 0) = true ->
  mext (region_ok dev) (efm32_add_flash env s l (flash_page_size dev)).
Proof.
  intros H. unfold efm32_add_flash.
  apply mext_bind; [apply mext_extcall; intros r; reflexivity|]. intros p.
  destruct (p =? 0); [apply mext_ret|].
  apply mext_bind; [apply mext_extcall; intros r; exact H|]. intros _.
  apply mext_ret.
Qed.

Lemma mext_probe_di_regions (v idx : Z) (dev : efm32_device_t) :
  efm32_get_device idx = Some dev ->
  mext (region_ok dev) (probe_di_rest env v idx).
Proof.
  intros Hg. unfold probe_di_rest. rewrite Hg.
  destruct (idx =? EFM32_UNKNOWN_FAMILY); [apply mext_ret|].
  apply mext_bind.
  { unfold efm32_read_part_number. destruct (negb _); [|apply mext_ret].
    apply mext_bind; [apply mext_extcall; intros r; reflexivity|].
    intros x. apply mext_ret. }
  intros part_number. apply mext_bind.
  { unfold efm32_read_flash_size. destruct (negb _); [|apply mext_ret].
    apply mext_bind; [apply mext_extcall; intros r; reflexivity|].
    intros x. apply mext_ret. }
  intros flash_kib. apply mext_bind.
  { unfold efm32_read_ram_size. destruct (negb _); [|apply mext_ret].
    apply mext_bind; [apply mext_extcall; intros r; reflexivity|].
    intros x. apply mext_ret. }
  intros ram_kib.
  apply mext_bind; [apply mext_extcall; intros r; reflexivity|]. intros _.
  apply mext_bind.
  { apply mext_extcall. intros r. unfold region_ok. cbn [ev_call].
    now rewrite Z.eqb_refl, kib_u32. }
  intros _. apply mext_bind.
  { apply mext_add_flash_ok. unfold region_ok. cbn [ev_call].
    now rewrite !Z.eqb_refl, kib_u32. }
  intros _. apply mext_bind.
  { destruct (negb _); [|apply mext_ret].
    apply mext_add_flash_ok. unfold region_ok. cbn [ev_call].
    rewrite !Z.eqb_refl. cbn [andb]. now rewrite orb_true_r. }
  intros _. apply mext_bind.
  { destruct (negb _); [|apply mext_ret].
    apply mext_add_flash_ok. unfold region_ok. cbn [ev_call].
    rewrite !Z.eqb_refl. cbn [andb]. now rewrite orb_true_r. }
  intros _.
  apply mext_bind; [apply mext_extcall; intros r; reflexivity|]. intros _.
  apply mext_ret.
Qed.

(** X15: whatever a successful probe registers with the target layer
    fits the row [dev] of the device table that the commands will fetch
    from the driver string: RAM at 0x20000000 and flash at 0, both in
    whole KiB; the user-data page and the bootloader area with the sizes
    of the row; every flash region in blocks of the row's page size,
    which is not 0, so that the erase loop of [efm32_flash_erase] moves
    on. *)
Theorem X15_probe_regions (idc : Z) (w : world) (t : target) :
  fst (efm32_probe env idc w) = Some t ->
  exists dev evs,
    efm32_get_device (usize (nth 2 (driver t) 0 - 32)) = Some dev
    /\ snd (efm32_probe env idc w) = w ++ evs
    /\ forallb (region_ok dev) evs = true
    /\ 0 < flash_page_size dev.
Proof.
  intros H.
  destruct (probe_driver_index env idc w t H)
    as [v [dev [Hv [_ [Hi [Hg E]]]]]].
  exists dev. rewrite E, probe_di_split.
  pose proof Hg as Hg'. rewrite Hi, probe_di_index in Hg'.
  destruct (mext_probe_di_regions v _ dev Hg'
              (snd (efm32_read_part_family env v w))) as [e2 [E2 O2]].
  destruct (read_part_family_run env v Hv w) as [r E1].
  rewrite E2, E1. eexists. rewrite <- app_assoc.
  split; [exact Hg|]. split; [reflexivity|]. split.
  - rewrite forallb_app, O2. reflexivity.
  - eapply page_size_positive. exact Hg.
Qed.

End MoreRegions.

(** ** The monitor commands *)

Lemma unique_split (h l : Z) :
  0 <= h < 2 ^ 32 -> 0 <= l < 2 ^ 32 ->
  u32 (Z.shiftr (Z.lor (u64 (Z.shiftl h 32)) l) 32) = h
  /\ u32 (Z.lor (u64 (Z.shiftl h 32)) l) = l.
Proof.
  intros Hh Hl.
  assert (Hu : u64 (Z.shiftl h 32) = Z.shiftl h 32).
  { unfold u64. apply Z.mod_small. rewrite Z.shiftl_mul_pow2 by lia. lia. }
  rewrite Hu. split.
  - rewrite Z.shiftr_lor, Z.shiftr_shiftl_l by lia.
    change (32 - 32) with 0. rewrite Z.shiftl_0_r.
    rewrite (Z.shiftr_div_pow2 l) by lia. rewrite Z.div_small by lia.
    rewrite Z.lor_0_r. unfold u32. now apply Z.mod_small.
  - unfold u32. rewrite <- Z.land_ones by lia.
    rewrite Z.land_lor_distr_l, (Z.land_ones (Z.shiftl h 32)) by lia.
    rewrite Z.shiftl_mul_pow2, Z.mod_mul by lia.
    rewrite Z.lor_0_l. now apply land_ones_small.
Qed.

Lemma byte_fields (p : Z) :
  (p / 2 ^ 16) mod 2 ^ 8 * 2 ^ 16 + (p / 2 ^ 8) mod 2 ^ 8 * 2 ^ 8
  + p mod 2 ^ 8 = p mod 2 ^ 24.
Proof.
  change (2 ^ 24) with (2 ^ 16 * 2 ^ 8). rewrite Z.rem_mul_r by lia.
  change (2 ^ 16) with (2 ^ 8 * 2 ^ 8) at 3. rewrite Z.rem_mul_r by lia.
  lia.
Qed.

Lemma byte_of (p k : Z) :
  0 <= k -> u8 (Z.land (Z.shiftr p k) 0xFF) = (p / 2 ^ k) mod 2 ^ 8.
Proof.
  intros Hk. change 255 with (Z.ones 8).
  rewrite Z.land_ones, Z.shiftr_div_pow2 by lia.
  unfold u8. apply Z.mod_mod. lia.
Qed.

Section MoreCommands.

Variable env : world -> call -> Z.

(** X16: [serial] reads the unique number high word first, from the two
    words of the schema named by byte 0 of the driver string, and prints
    exactly the two words read; with a driver string that names no
    schema it reads nothing and prints zeros.  It always succeeds. *)
Theorem X16_serial_words (t : target) (w : world) :
  let v := u8 (nth 0 (driver t) 0 - 48) in
  (1 <= v <= 4 ->
   exists h l r,
     efm32_cmd_serial env t w =
       ((true, (h, l)),
        w ++ [Ev (TargetMemRead32 (di_UNIQUEH v)) h;
              Ev (TargetMemRead32 (di_UNIQUEL v)) l;
              Ev TcPrintf r]))
  /\ (~ 1 <= v <= 4 ->
      exists r,
        efm32_cmd_serial env t w = ((true, (0, 0)), w ++ [Ev TcPrintf r])).
Proof.
  intros v. unfold efm32_cmd_serial. fold v. split.
  - intros Hv. unfold efm32_read_unique.
    assert (Hn : negb (di_UNIQUEL v =? 0) && negb (di_UNIQUEH v =? 0) = true).
    { assert (E : v = 1 \/ v = 2 \/ v = 3 \/ v = 4) by lia.
      destruct E as [E | [E | [E | E]]]; rewrite E; reflexivity. }
    rewrite Hn.
    unfold bind, target_mem_read32, extcall, ret.
    set (h := u32 (env w _)).
    set (l := u32 (env (w ++ [Ev (TargetMemRead32 (di_UNIQUEH v)) h]) _)).
    destruct (unique_split h l (u32_range _) (u32_range _)) as [Eh El].
    rewrite Eh, El. exists h, l. eexists.
    rewrite <- !app_assoc. reflexivity.
  - intros Hv. unfold efm32_read_unique.
    assert (Hn : negb (di_UNIQUEL v =? 0) && negb (di_UNIQUEH v =? 0) = false).
    { unfold di_UNIQUEL.
      destruct (Z.eqb_spec v 1); [lia|]. destruct (Z.eqb_spec v 2); [lia|].
      destruct (Z.eqb_spec v 3); [lia|]. destruct (Z.eqb_spec v 4); [lia|].
      reflexivity. }
    rewrite Hn. unfold bind, extcall, ret. eexists. reflexivity.
Qed.

(** X17: the package information is read from one word, MEMINFO of the
    page of schema 3 or PKGINFO of the page of schema 4, and cut into
    three bytes: the pin count is bits 23:16 of the word, the package
    type bits 15:8, the temperature grade bits 7:0.  Together the three
    fields are the low 24 bits of the word.  Any other schema gives
    three zeros and no read. *)
Theorem X17_miscchip_fields (v : Z) (w : world) :
  let m := fst (efm32_read_miscchip env v w) in
  (v = 3 \/ v = 4 ->
   exists pkginfo,
     snd (efm32_read_miscchip env v w) =
       w ++ [Ev (TargetMemRead32
                   (if v =? 3 then EFM32_DI_V3 + 4 * 13
                    else EFM32_DI_V4 + 4 * 4)) pkginfo]
     /\ pincount m = (pkginfo / 2 ^ 16) mod 2 ^ 8
     /\ pkgtype m = (pkginfo / 2 ^ 8) mod 2 ^ 8
     /\ tempgrade m = pkginfo mod 2 ^ 8
     /\ pincount m * 2 ^ 16 + pkgtype m * 2 ^ 8 + tempgrade m
        = pkginfo mod 2 ^ 24)
  /\ (v <> 3 -> v <> 4 ->
      efm32_read_miscchip env v w = (mkMisc 0 0 0, w)).
Proof.
  intros m. subst m. unfold efm32_read_miscchip. split.
  - intros Hv.
    assert (Hn : negb ((if v =? 3 then di_MEMINFO 3
                        else if v =? 4 then di_v4_PKGINFO else 0) =? 0)
                 = true)
      by (destruct Hv as [E | E]; rewrite E; reflexivity).
    rewrite Hn. unfold bind, target_mem_read32, extcall, ret.
    cbn [fst snd pincount pkgtype tempgrade].
    assert (Ha : (if v =? 3 then di_MEMINFO 3
                  else if v =? 4 then di_v4_PKGINFO else 0)
                 = (if v =? 3 then EFM32_DI_V3 + 4 * 13
                    else EFM32_DI_V4 + 4 * 4))
      by (destruct Hv as [E | E]; rewrite E; reflexivity).
    rewrite Ha. eexists. split; [reflexivity|].
    unfold EFM32_DI_PKGINFO_PINCOUNT_OFST, EFM32_DI_PKGINFO_PKGTYPE_OFST,
      EFM32_DI_PKGINFO_TEMPGRADE_OFST, EFM32_DI_PKGINFO_PINCOUNT_MASK,
      EFM32_DI_PKGINFO_PKGTYPE_MASK, EFM32_DI_PKGINFO_TEMPGRADE_MASK.
    rewrite !byte_of by lia. rewrite Z.pow_0_r, Z.div_1_r.
    do 3 (split; [reflexivity|]). apply byte_fields.
  - intros H3 H4.
    destruct (Z.eqb_spec v 3); [contradiction|].
    destruct (Z.eqb_spec v 4); [contradiction|]. reflexivity.
Qed.

(** X18: the page size that the device reports is read from MEMINFO: the
    byte in bits 31:24 for the schemas 1 to 3, the byte in bits 7:0 for
    schema 4.  A byte [k] of at most 20 stands for [1024 << k] bytes;
    beyond, the shift leaves the range of an [int]. *)
Theorem X18_flash_page_size_decoded (v : Z) (w : world) :
  1 <= v <= 4 ->
  exists meminfo,
    snd (efm32_read_flash_page_size env v w)
    = w ++ [Ev (TargetMemRead32 (di_MEMINFO v)) meminfo]
    /\ let k := if v =? 4 then meminfo mod 2 ^ 8
                else (meminfo / 2 ^ 24) mod 2 ^ 8 in
       fst (efm32_read_flash_page_size env v w)
       = if k <=? 20 then Some (1024 * 2 ^ k) else None.
Proof.
  intros Hv. unfold efm32_read_flash_page_size.
  assert (Hn : negb (di_MEMINFO v =? 0) = true).
  { assert (E : v = 1 \/ v = 2 \/ v = 3 \/ v = 4) by lia.
    destruct E as [E | [E | [E | E]]]; rewrite E; reflexivity. }
  rewrite Hn. unfold bind, target_mem_read32, extcall, ret. cbn [fst snd].
  eexists. split; [reflexivity|].
  set (p := u32 (env w _)).
  assert (Hk : Z.land
                 (Z.shiftr p
                    (if v =? 4 then EFM32_DI_V4_MEMINFO_FLASHPAGESIZE_OFST
                     else EFM32_DI_MEMINFO_FLASHPAGESIZE_OFST))
                 (if v =? 4 then EFM32_DI_V4_MEMINFO_FLASHPAGESIZE_MASK
                  else EFM32_DI_MEMINFO_FLASHPAGESIZE_MASK)
               = (if v =? 4 then p mod 2 ^ 8 else (p / 2 ^ 24) mod 2 ^ 8)).
  { destruct (v =? 4);
      unfold EFM32_DI_V4_MEMINFO_FLASHPAGESIZE_OFST,
        EFM32_DI_MEMINFO_FLASHPAGESIZE_OFST,
        EFM32_DI_V4_MEMINFO_FLASHPAGESIZE_MASK,
        EFM32_DI_MEMINFO_FLASHPAGESIZE_MASK;
      change 255 with (Z.ones 8);
      rewrite Z.land_ones, Z.shiftr_div_pow2 by lia;
      [now rewrite Z.pow_0_r, Z.div_1_r|reflexivity]. }
  rewrite Hk. cbv zeta.
  set (k := if v =? 4 then p mod 2 ^ 8 else (p / 2 ^ 24) mod 2 ^ 8).
  assert (Hr : 0 <= k < 2 ^ 8)
    by (unfold k; destruct (v =? 4); apply Z.mod_pos_bound; lia).
  destruct (Z.ltb_spec (k + 10) 31) as [L|G];
    destruct (Z.leb_spec k 20) as [L'|G']; try lia; [|reflexivity].
  f_equal. rewrite Z.shiftl_mul_pow2, Z.pow_add_r by lia. lia.
Qed.

End MoreCommands.

Lemma land_u32_mask (x m : Z) :
  0 <= x < 2 ^ 32 -> Z.land x (u32 m) = Z.land x m.
Proof.
  intros Hx. unfold u32. rewrite <- Z.land_ones by lia.
  rewrite (Z.land_comm m), Z.land_assoc.
  now rewrite (land_ones_small x 32) by lia.
Qed.

Section MoreMsc.

Variable env : world -> call -> Z.

(** X19: [erase_mass] on a target whose driver string names a row of the
    device table writes WRITECTRL <- 1, MASSLOCK <- 0x631A and
    WRITECMD <- 0x100, polls STATUS with an error check after each busy
    read, and then locks mass erase again (MASSLOCK <- 0), prints and
    succeeds; when an error check aborts the poll it fails at once and
    leaves mass erase unlocked.  With a driver string that names no row
    it does nothing and reports success. *)
Theorem X19_erase_all_sequence (t : target) (w : world) :
  match efm32_get_device (usize (nth 2 (driver t) 0 - 32)) with
  | None => forall fuel, efm32_cmd_erase_all env fuel t w = Some (true, w)
  | Some dev =>
      let msc := msc_addr dev in
      (forall w0, exists n, msc_poll_busy env n msc w0 <> None) ->
      exists fuel ok r1 r2 r3 polls tail,
        efm32_cmd_erase_all env fuel t w =
          Some (ok,
                w ++ [Ev (TargetMemWrite32 (EFM32_MSC_WRITECTRL msc) 1) r1;
                      Ev (TargetMemWrite32 (EFM32_MSC_MASSLOCK msc) 0x631A) r2;
                      Ev (TargetMemWrite32 (EFM32_MSC_WRITECMD msc) 0x100) r3]
                  ++ polls ++ tail)
        /\ poll_events msc polls (negb ok)
        /\ map ev_call tail =
           if ok then [TargetMemWrite32 (EFM32_MSC_MASSLOCK msc) 0; TcPrintf]
           else []
  end.
Proof.
  unfold efm32_cmd_erase_all.
  destruct (efm32_get_device (usize (nth 2 (driver t) 0 - 32))) as [dev|];
    [|reflexivity].
  cbv beta iota zeta. intros Live.
  set (msc := msc_addr dev) in *.
  destruct (Live (snd (target_mem_write32 env (EFM32_MSC_WRITECMD msc)
                         EFM32_MSC_WRITECMD_ERASEMAIN0
                         (snd (target_mem_write32 env (EFM32_MSC_MASSLOCK msc)
                                 EFM32_MSC_MASSLOCK_LOCKKEY
                                 (snd (target_mem_write32 env
                                         (EFM32_MSC_WRITECTRL msc) 1 w)))))))
    as [n Hn].
  unfold target_mem_write32, extcall in Hn. cbn [snd] in Hn.
  match type of Hn with
  | msc_poll_busy env n msc ?w0 <> None => set (w3 := w0) in *
  end.
  destruct (msc_poll_busy env n msc w3) as [[aborted w4]|] eqn:Ep;
    [clear Hn|contradiction].
  destruct (msc_poll_run env n msc _ _ _ Ep) as [polls [-> Pe]].
  exists n, (negb aborted). do 3 eexists. exists polls.
  unfold bindF at 1 2 3 4. unfold liftF at 1 2 3.
  unfold target_mem_write32 at 1 2 3. unfold extcall at 1 2 3.
  cbv beta iota zeta. fold w3. rewrite Ep, negb_involutive.
  destruct aborted; cbn [negb].
  - exists []. unfold retF, w3. rewrite app_nil_r, <- !app_assoc.
    split; [reflexivity|]. split; [exact Pe|reflexivity].
  - unfold bindF, liftF, retF, target_mem_write32, extcall, w3.
    eexists [_; _]. rewrite <- !app_assoc. cbn [app].
    split; [reflexivity|]. split; [exact Pe|reflexivity].
Qed.

(** X20: [bootloader] reads the lock word CLW0 and, asked to change it,
    programs a word in which no bit is set that CLW0 did not have: asked
    to disable, the word is CLW0 with bit 1 cleared; asked to enable
    (argument starting with 'e'), it is CLW0 as read, so a bootloader
    that was disabled stays disabled.  Without an argument it only
    reports; on a device without bootloader it fails before touching the
    target; with a driver string that names no row of the device table
    it does nothing and reports success. *)
Theorem X20_bootloader_outcome (t : target) (argc c : Z) (w : world) :
  match efm32_get_device (usize (nth 2 (driver t) 0 - 32)) with
  | None =>
      forall fuel, efm32_cmd_bootloader env fuel t argc c w = Some (true, w)
  | Some dev =>
      let msc := msc_addr dev in
      if bootloader_size dev =? 0 then
        forall fuel,
        exists r,
          efm32_cmd_bootloader env fuel t argc c w
          = Some (false, w ++ [Ev TcPrintf r])
      else if argc =? 1 then
        forall fuel,
        exists clw0 r,
          efm32_cmd_bootloader env fuel t argc c w
          = Some (true,
                  w ++ [Ev (TargetMemRead32 EFM32_LOCK_BITS_CLW0) clw0;
                        Ev TcPrintf r])
      else
        (forall w0, exists n, msc_poll_busy env n msc w0 <> None) ->
        exists fuel ok clw0 r1 r2 r3 r4 r5 r6 polls,
          efm32_cmd_bootloader env fuel t argc c w =
            Some (ok,
                  w ++ [Ev (TargetMemRead32 EFM32_LOCK_BITS_CLW0) clw0;
                        Ev (TargetMemWrite32 (EFM32_MSC_LOCK msc) 0x1B71) r1;
                        Ev (TargetMemWrite32 (EFM32_MSC_WRITECTRL msc) 1) r2;
                        Ev (TargetMemWrite32 (EFM32_MSC_ADDRB msc)
                              EFM32_LOCK_BITS_CLW0) r3;
                        Ev (TargetMemWrite32 (EFM32_MSC_WRITECMD msc) 1) r4;
                        Ev (TargetMemWrite32 (EFM32_MSC_WDATA msc)
                              (if c =? 101 then clw0
                               else Z.land clw0 (Z.lnot 2))) r5;
                        Ev (TargetMemWrite32 (EFM32_MSC_WRITECMD msc) 8) r6]
                    ++ polls)
          /\ poll_events msc polls (negb ok)
  end.
Proof.
  unfold efm32_cmd_bootloader.
  destruct (efm32_get_device (usize (nth 2 (driver t) 0 - 32))) as [dev|];
    [|reflexivity].
  cbv beta iota zeta. destruct (bootloader_size dev =? 0).
  { intros fuel. unfold bindF, liftF, retF, extcall. eexists. reflexivity. }
  set (msc := msc_addr dev) in *.
  set (clw0 := u32 (env w (TargetMemRead32 EFM32_LOCK_BITS_CLW0))).
  destruct (argc =? 1).
  { intros fuel. unfold bindF, liftF, retF, target_mem_read32, extcall.
    do 2 eexists. rewrite <- app_assoc. reflexivity. }
  intros Live.
  assert (Hd : Z.land clw0
                 (if c =? 101 then u32 (Z.lnot 0)
                  else u32 (Z.lnot EFM32_CLW0_BOOTLOADER_ENABLE))
               = (if c =? 101 then clw0 else Z.land clw0 (Z.lnot 2))).
  { destruct (c =? 101); rewrite land_u32_mask by apply u32_range.
    - change (Z.lnot 0) with (-1). apply Z.land_m1_r.
    - reflexivity. }
  set (data := if c =? 101 then clw0 else Z.land clw0 (Z.lnot 2)) in *.
  set (wr := fun a v w0 => snd (target_mem_write32 env a v w0)).
  destruct (Live
              (wr (EFM32_MSC_WRITECMD msc) EFM32_MSC_WRITECMD_WRITEONCE
                 (wr (EFM32_MSC_WDATA msc) data
                    (wr (EFM32_MSC_WRITECMD msc) EFM32_MSC_WRITECMD_LADDRIM
                       (wr (EFM32_MSC_ADDRB msc) EFM32_LOCK_BITS_CLW0
                          (wr (EFM32_MSC_WRITECTRL msc) 1
                             (wr (EFM32_MSC_LOCK msc) EFM32_MSC_LOCK_LOCKKEY
                                (w ++ [Ev (TargetMemRead32
                                             EFM32_LOCK_BITS_CLW0) clw0]))))))))
    as [n Hn].
  unfold wr, target_mem_write32, extcall in Hn. cbn [snd] in Hn.
  match type of Hn with
  | msc_poll_busy env n msc ?w0 <> None => set (w7 := w0) in *
  end.
  destruct (msc_poll_busy env n msc w7) as [[aborted w8]|] eqn:Ep;
    [clear Hn|contradiction].
  destruct (msc_poll_run env n msc _ _ _ Ep) as [polls [-> Pe]].
  exists n, (negb aborted), clw0. do 6 eexists. exists polls.
  rewrite negb_involutive. split; [|exact Pe].
  unfold bindF at 1. unfold liftF at 1. unfold target_mem_read32 at 1.
  unfold extcall at 1. fold clw0. cbv beta iota zeta. rewrite Hd.
  unfold bindF at 1 2 3 4 5 6 7. unfold liftF at 1 2 3 4 5 6.
  unfold target_mem_write32 at 1 2 3 4 5 6. unfold extcall at 1 2 3 4 5 6.
  cbv beta iota zeta. fold w7. rewrite Ep.
  unfold w7. rewrite <- !app_assoc. cbn [app].
  destruct aborted; reflexivity.
Qed.

End MoreMsc.

(** ** The pages of an erase *)

Lemma u32_add_inj (m a b : Z) :
  0 <= a < 2 ^ 32 -> 0 <= b < 2 ^ 32 -> u32 (m + a) = u32 (m + b) -> a = b.
Proof.
  unfold u32. intros Ha Hb H.
  assert (E : (m + a - (m + b)) mod 2 ^ 32 = 0).
  { rewrite Zminus_mod, H, Z.sub_diag. reflexivity. }
  replace (m + a - (m + b)) with (a - b) in E by lia.
  apply Z.mod_divide in E; [|lia]. destruct E as [q Hq]. nia.
Qed.

Lemma writecmd_not_addrb (msc : Z) :
  (EFM32_MSC_WRITECMD msc =? EFM32_MSC_ADDRB msc) = false.
Proof.
  apply Z.eqb_neq. unfold EFM32_MSC_WRITECMD, EFM32_MSC_ADDRB. intros H.
  destruct (msc =? 0x40030000); apply u32_add_inj in H; lia.
Qed.

Lemma addrb_writes_app (msc : Z) (xs ys : list event) :
  addrb_writes msc (xs ++ ys) = addrb_writes msc xs ++ addrb_writes msc ys.
Proof. apply flat_map_app. Qed.

Lemma poll_no_addrb (msc : Z) (polls : list event) (aborted : bool) :
  poll_events msc polls aborted -> addrb_writes msc polls = [].
Proof. induction 1; cbn; auto. Qed.

Lemma pages_of_step (bs len : Z) :
  0 < bs -> 0 < len ->
  pages_of bs len = S (pages_of bs (if len >? bs then len - bs else 0)).
Proof.
  intros Hb Hl. unfold pages_of.
  destruct (Z.gtb_spec len bs) as [G|L].
  - replace (len + bs - 1) with (len - bs + bs - 1 + 1 * bs) by lia.
    rewrite Z.div_add by lia.
    rewrite Z2Nat.inj_add; [|apply Z.div_pos; lia|lia].
    rewrite Nat.add_comm. reflexivity.
  - replace ((0 + bs - 1) / bs) with 0 by (symmetry; apply Z.div_small; lia).
    replace ((len + bs - 1) / bs) with 1; [reflexivity|].
    apply Z.div_unique with (len - 1); lia.
Qed.

Lemma pages_of_0 (bs : Z) : 0 < bs -> pages_of bs 0 = O.
Proof.
  intros Hb. unfold pages_of. rewrite Z.div_small by lia. reflexivity.
Qed.

Lemma erase_events_pages (msc bs addr len : Z) (evs : list event) (ret : Z) :
  0 < bs -> 0 <= len ->
  erase_events msc bs addr len evs ret ->
  exists k,
    addrb_writes msc evs = page_addrs k bs addr
    /\ (k <= pages_of bs len)%nat
    /\ (ret = 0 -> k = pages_of bs len)
    /\ (len <> 0 -> (1 <= k)%nat).
Proof.
  intros Hb Hl H. induction H as
    [addr|addr len r1 r2 r3 polls Hn Hp
    |addr len r1 r2 r3 polls rest ret Hn Hp Hr IH].
  - exists O. rewrite pages_of_0 by lia.
    split; [reflexivity|]. split; [lia|]. split; [reflexivity|].
    intros N. contradiction.
  - exists 1%nat. rewrite pages_of_step by lia.
    split; [|split; [lia|split; [discriminate|lia]]].
    cbn [addrb_writes flat_map ev_call page_addrs].
    rewrite Z.eqb_refl, writecmd_not_addrb. cbn [app].
    change (flat_map _ polls) with (addrb_writes msc polls).
    now rewrite (poll_no_addrb _ _ _ Hp).
  - destruct IH as [k [Ek [Kl [K0 _]]]].
    { destruct (Z.gtb_spec len bs); lia. }
    exists (S k). rewrite pages_of_step by lia.
    split; [|split; [lia|split; [intros E; now rewrite (K0 E)|lia]]].
    cbn [addrb_writes flat_map ev_call page_addrs].
    rewrite Z.eqb_refl, writecmd_not_addrb. cbn [app].
    change (flat_map ?f (polls ++ rest)) with (addrb_writes msc (polls ++ rest)).
    rewrite addrb_writes_app, (poll_no_addrb _ _ _ Hp), Ek. reflexivity.
Qed.

(** X21: an erase of [len > 0] bytes from [addr] erases the pages at
    [addr], [addr + bs], [addr + 2 bs], ... ([bs] the block size of the
    flash, addresses modulo 2^32): as many as [len] bytes touch, that is
    [len / bs] rounded up, when it returns 0; a first part of them, and
    at least one, when an error check aborted it.  The start address is
    used as it comes: it is not aligned to a page. *)
Theorem X21_erase_page_addresses
    (env : world -> call -> Z) (f : target_flash) (addr len : Z)
    (w : world) (dev : efm32_device_t) :
  efm32_get_device (usize (nth 2 (driver (f_t f)) 0 - 32)) = Some dev ->
  0 < len ->
  0 < f_blocksize f ->
  (forall w0, exists n, msc_poll_busy env n (msc_addr dev) w0 <> None) ->
  exists fuel ret r1 r2 evs k,
    efm32_flash_erase env fuel f addr len w =
      Some (ret,
            w ++ Ev (TargetMemWrite32 (EFM32_MSC_LOCK (msc_addr dev)) 0x1B71)
                   r1
              :: Ev (TargetMemWrite32 (EFM32_MSC_WRITECTRL (msc_addr dev)) 1)
                   r2
              :: evs)
    /\ addrb_writes (msc_addr dev) evs = page_addrs k (f_blocksize f) addr
    /\ (1 <= k <= pages_of (f_blocksize f) len)%nat
    /\ (ret = 0 -> k = pages_of (f_blocksize f) len).
Proof.
  intros Hd Hl Hb Live.
  set (w2 := snd (target_mem_write32 env (EFM32_MSC_WRITECTRL (msc_addr dev)) 1
                    (snd (target_mem_write32 env
                            (EFM32_MSC_LOCK (msc_addr dev))
                            EFM32_MSC_LOCK_LOCKKEY w)))).
  destruct (erase_loop_run env (msc_addr dev) (f_blocksize f) Hb Live
              (Z.to_nat len) addr len w2) as [fuel [ret [evs [Er Ee]]]].
  { split; [lia|]. rewrite Z2Nat.id by lia.
    apply Z.le_trans with (len * 1); [lia|].
    apply Z.mul_le_mono_nonneg_l; lia. }
  destruct (erase_events_pages (msc_addr dev) (f_blocksize f) addr len evs
              ret Hb ltac:(lia) Ee)
    as [k [Ek [Kl [K0 K1]]]].
  exists fuel, ret. do 2 eexists. exists evs, k.
  split; [|split; [exact Ek|split; [split; [apply K1; lia|exact Kl]|exact K0]]].
  unfold efm32_flash_erase. rewrite Hd.
  unfold bindF at 1 2. unfold liftF at 1 2.
  unfold w2, target_mem_write32, extcall in Er |- *. cbn [snd] in Er |- *.
  rewrite Er. rewrite <- !app_assoc. reflexivity.
Qed.

(** ** Edge cases of the erase *)

Section MoreErase.

Variable env : world -> call -> Z.

Lemma erase_loop_stuck (msc : Z) (fuel : nat) :
  forall addr len w ret w',
    0 < len ->
    erase_loop env fuel msc 0 addr len w = Some (ret, w') -> ret = -1.
Proof.
  induction fuel as [|fuel IH]; intros addr len w ret w' Hl H; [discriminate|].
  rewrite erase_loop_S in H.
  destruct (Z.eqb_spec len 0) as [E|_]; [lia|].
  destruct (msc_poll_busy env fuel msc (page_cmd_world env msc addr w))
    as [[aborted w4]|]; [|discriminate].
  destruct aborted; [now injection H as <- _|].
  apply IH in H; [exact H|].
  destruct (Z.gtb_spec len 0); lia.
Qed.

(** X22: the edges of [efm32_flash_erase].  With a driver string that
    names no row of the device table it returns 1 and touches nothing.
    With [len = 0] it unlocks the MSC, sets WREN and returns 0 without
    erasing a page.  With a block size of 0 the length never shrinks: an
    erase of [len > 0] bytes (on a target that names a row) can end only
    by an aborted poll, with -1. *)
Theorem X22_erase_edges (f : target_flash) (addr : Z) (w : world) :
  (efm32_get_device (usize (nth 2 (driver (f_t f)) 0 - 32)) = None ->
   forall fuel len, efm32_flash_erase env fuel f addr len w = Some (1, w))
  /\ (forall dev fuel,
        efm32_get_device (usize (nth 2 (driver (f_t f)) 0 - 32)) = Some dev ->
        exists r1 r2,
          efm32_flash_erase env (S fuel) f addr 0 w =
            Some (0,
                  w ++ [Ev (TargetMemWrite32 (EFM32_MSC_LOCK (msc_addr dev))
                              0x1B71) r1;
                        Ev (TargetMemWrite32
                              (EFM32_MSC_WRITECTRL (msc_addr dev)) 1) r2]))
  /\ (forall dev fuel len ret w',
        efm32_get_device (usize (nth 2 (driver (f_t f)) 0 - 32)) = Some dev ->
        f_blocksize f = 0 -> 0 < len ->
        efm32_flash_erase env fuel f addr len w = Some (ret, w') ->
        ret = -1).
Proof.
  split; [|split].
  - intros Hn fuel len. unfold efm32_flash_erase. now rewrite Hn.
  - intros dev fuel Hd. unfold efm32_flash_erase. rewrite Hd.
    unfold bindF, liftF, target_mem_write32, extcall.
    rewrite erase_loop_S. cbn [Z.eqb]. do 2 eexists.
    rewrite <- app_assoc. reflexivity.
  - intros dev fuel len ret w' Hd Hb Hl. unfold efm32_flash_erase.
    rewrite Hd. unfold bindF at 1 2. unfold liftF at 1 2. rewrite Hb.
    destruct (target_mem_write32 env _ _ w) as [x1 w1].
    destruct (target_mem_write32 env _ _ w1) as [x2 w2].
    now apply erase_loop_stuck.
Qed.

End MoreErase.

(** ** The family of a schema-4 part *)

Section MoreFamily.

Variable env : world -> call -> Z.

Lemma field6_range (x k : Z) : 0 <= u8 (Z.land (Z.shiftr x k) 0x3F) <= 63.
Proof.
  pose proof (land_mask_range (Z.shiftr x k) 0x3F 6 ltac:(lia) ltac:(lia)).
  unfold u8. rewrite Z.mod_small; lia.
Qed.

(** X23: under schema 4 the part family is the sum of two six-bit fields
    of the PART word, bits 21:16 and bits 29:24, so it is at most 126.
    The rows that the device table lists for schema 4 have the family
    ids 128 to 130 and 221 to 223: a probe with the IDCODE of schema 4
    never ends on one of them. *)
Theorem X23_schema4_family (w : world) :
  0 <= fst (efm32_read_part_family env 4 w) <= 126
  /\ forall t dev,
       fst (efm32_probe env 0x6BA02477 w) = Some t ->
       efm32_get_device (usize (nth 2 (driver t) 0 - 32)) = Some dev ->
       di_version dev <> 4.
Proof.
  assert (R : 0 <= fst (efm32_read_part_family env 4 w) <= 126).
  { unfold efm32_read_part_family, bind, target_mem_read32, extcall, ret.
    cbn [Z.eqb Pos.eqb orb fst].
    set (reg := u32 (env w _)).
    pose proof (field6_range reg EFM32_DI_V4_PART_FAMILYNUM_OFST) as H1.
    pose proof (field6_range reg EFM32_DI_V4_PART_FAMILY_OFST) as H2.
    unfold EFM32_DI_V4_PART_FAMILYNUM_MASK, EFM32_DI_V4_PART_FAMILY_MASK.
    set (a := u8 (Z.land (Z.shiftr reg EFM32_DI_V4_PART_FAMILYNUM_OFST) 63))
      in *.
    set (b := u8 (Z.land (Z.shiftr reg EFM32_DI_V4_PART_FAMILY_OFST) 63))
      in *.
    clearbody a b. unfold u8. rewrite Z.mod_small; lia. }
  split; [exact R|].
  intros t dev Ht Hd.
  destruct (probe_driver_index env _ w t Ht)
    as [v [dev' [_ [Sv [Hi [Hd' _]]]]]].
  rewrite Hd in Hd'. injection Hd' as <-.
  injection Sv as <-.
  pose proof Hd as Hf. rewrite Hi in Hf. apply lookup_get_family in Hf.
  rewrite <- Hf in R.
  unfold efm32_get_device in Hd.
  destruct (_ >=? efm32_devices_nb); [discriminate|].
  apply nth_error_In in Hd.
  assert (A : forallb (fun d => negb (di_version d =? 4)
                               || (127 <=? family_id d))
                efm32_devices = true) by reflexivity.
  rewrite forallb_forall in A. apply A in Hd.
  intros E. rewrite E in Hd. cbn [Z.eqb Pos.eqb negb orb] in Hd.
  apply Z.leb_le in Hd. lia.
Qed.

End MoreFamily.

(** ** What a component probe depends on *)

Section MoreWalk.

Variable env : world -> call -> Z.

Lemma rom_table_loop_ext (p p' : Z -> Z -> Z -> F bool)
    (ap : ADIv5_AP_t) (a r r' : Z) :
  (forall x r1 r2 n1 n2 w, p x r1 n1 w = p' x r2 n2 w) ->
  forall n i res w,
    rom_table_loop env p n ap a r i res w
    = rom_table_loop env p' n ap a r' i res w.
Proof.
  intros Hp. induction n as [|n IH]; intros i res w; [reflexivity|].
  cbn [rom_table_loop]. unfold bindF, liftF.
  destruct (adiv5_mem_read32 env ap (u32 (a + i * 4)) w) as [entry w1].
  destruct (adiv5_dp_error env w1) as [e w2].
  destruct (entry =? 0); [reflexivity|].
  destruct (_ =? 0); [apply IH|].
  rewrite (Hp _ (r + 1) (r' + 1) i i w2).
  destruct (p' _ _ _ w2) as [[b w3]|]; [apply IH|reflexivity].
Qed.

(** X24: a component probe depends on its address only up to the two
    low bits, which it clears, and not at all on the recursion depth or
    on the entry number handed down by the ROM-table scan: they serve
    the debug output only, the walk keeps no count of its depth. *)
Theorem X24_probe_depends_on (fuel : nat) (ap : ADIv5_AP_t) :
  forall addr addr' r r' n n' w,
    Z.land addr (Z.lnot 3) = Z.land addr' (Z.lnot 3) ->
    adiv5_component_probe env fuel ap addr r n w
    = adiv5_component_probe env fuel ap addr' r' n' w.
Proof.
  induction fuel as [|fuel IH]; intros addr addr' r r' n n' w H;
    [reflexivity|].
  cbn [adiv5_component_probe]. rewrite H. unfold bindF, liftF.
  destruct (adiv5_ap_read_pidr env ap _ w) as [pidr w1].
  destruct (adiv5_ap_read_id env ap _ w1) as [cidr w2].
  destruct (adiv5_dp_error env w2) as [err w3].
  destruct (negb (err =? 0)); [reflexivity|].
  destruct (negb (_ =? CID_PREAMBLE)); [reflexivity|].
  destruct (_ =? cidc_romtab); [|reflexivity].
  apply rom_table_loop_ext.
  intros x r1 r2 n1 n2 w0. now apply IH.
Qed.

End MoreWalk.

(** ** The width of a transfer *)

Lemma land1_mod2 (x : Z) : Z.land x 1 = x mod 2.
Proof. change 1 with (Z.ones 1). now rewrite Z.land_ones by lia. Qed.

Lemma ALIGNOF_cases (x : Z) :
  (x mod 4 = 0 /\ x mod 2 = 0 /\ ALIGNOF x = ALIGN_WORD)
  \/ (x mod 4 = 2 /\ x mod 2 = 0 /\ ALIGNOF x = ALIGN_HALFWORD)
  \/ (x mod 4 <> 0 /\ x mod 2 = 1 /\ ALIGNOF x = ALIGN_BYTE).
Proof.
  unfold ALIGNOF. rewrite land3_mod4, land1_mod2.
  pose proof (Z.mod_pos_bound x 4 ltac:(lia)) as H4.
  pose proof (Z.mod_pos_bound x 2 ltac:(lia)) as H2.
  pose proof (Z.mod_pos_bound (x / 2) 2 ltac:(lia)) as Hq.
  assert (E : x mod 4 = x mod 2 + 2 * ((x / 2) mod 2)).
  { change 4 with (2 * 2). now rewrite Z.rem_mul_r by lia. }
  destruct (Z.eqb_spec (x mod 4) 0) as [E0|N0];
    [left; split; [lia|split; [lia|reflexivity]]|].
  destruct (Z.eqb_spec (x mod 2) 0) as [E1|N1].
  - right. left. split; [lia|split; [lia|reflexivity]].
  - right. right. split; [lia|split; [lia|reflexivity]].
Qed.

Section MoreWidth.

Variable env : world -> call -> Z.

(** X25: the width of the transfers of a read or a write is chosen from
    the address and the length together: words when both are multiples
    of 4, bytes when one of them is odd, halfwords otherwise; never more
    than a word.  The CSW written at the start of a read carries this
    width. *)
Theorem X25_transfer_width (ap : ADIv5_AP_t) (dest src len : Z) (w : world) :
  let a := MIN (ALIGNOF src) (ALIGNOF len) in
  (a = ALIGN_WORD <-> src mod 4 = 0 /\ len mod 4 = 0)
  /\ (a = ALIGN_BYTE <-> src mod 2 = 1 \/ len mod 2 = 1)
  /\ a <> ALIGN_DWORD
  /\ (len <> 0 ->
      exists r1 r2 rest,
        snd (adiv5_mem_read env ap dest src len w) =
          w ++ Ev (LowAccess ADIV5_LOW_WRITE ADIV5_DP_SELECT
                     (ap_select ap ADIV5_AP_CSW)) r1
            :: Ev (LowAccess ADIV5_LOW_WRITE ADIV5_AP_CSW (csw_for ap a)) r2
            :: rest).
Proof.
  intros a.
  assert (Hw : (a = ALIGN_WORD <-> src mod 4 = 0 /\ len mod 4 = 0)
               /\ (a = ALIGN_BYTE <-> src mod 2 = 1 \/ len mod 2 = 1)
               /\ a <> ALIGN_DWORD).
  { subst a.
    destruct (ALIGNOF_cases src) as [[S4 [S2 E]] | [[S4 [S2 E]] | [S4 [S2 E]]]];
      destruct (ALIGNOF_cases len)
        as [[L4 [L2 F]] | [[L4 [L2 F]] | [L4 [L2 F]]]];
      rewrite E, F; cbv [MIN align_val Z.ltb Z.compare Pos.compare
                           Pos.compare_cont];
      (split; [|split]; [split; intros H| split; intros H|]);
      try discriminate; try reflexivity; lia. }
  destruct Hw as [H1 [H2 H3]].
  split; [exact H1|]. split; [exact H2|]. split; [exact H3|].
  intros Hl. unfold adiv5_mem_read. fold a.
  destruct (Z.eqb_spec len 0) as [E|_]; [contradiction|].
  unfold bind at 1.
  destruct (setup_run env ap src a w) as [r1 [r2 [r3 Es]]]. rewrite Es.
  match goal with
  | |- context [bind ?m ?k ?w1] => destruct (bind m k w1) as [res w2] eqn:Eb
  end.
  assert (X : exists evs,
             w2 = (w ++ [Ev (LowAccess ADIV5_LOW_WRITE ADIV5_DP_SELECT
                               (ap_select ap ADIV5_AP_CSW)) r1;
                         Ev (LowAccess ADIV5_LOW_WRITE ADIV5_AP_CSW
                               (csw_for ap a)) r2;
                         Ev (LowAccess ADIV5_LOW_WRITE ADIV5_AP_TAR src) r3])
                    ++ evs).
  { revert Eb. unfold bind at 1. unfold adiv5_dp_low_access at 1.
    unfold extcall at 1. cbv zeta. unfold bind at 1.
    match goal with
    | |- context [mem_read_loop env ?n a dest src src [] ?w1] =>
        destruct (mem_read_loop_run env n a dest src src [] w1)
          as [body [El _]]
    end.
    rewrite El. unfold bind, adiv5_dp_low_access, extcall, ret.
    intros [= _ <-]. eexists. rewrite <- !app_assoc. reflexivity. }
  destruct X as [evs ->]. cbn [snd]. exists r1, r2. eexists.
  rewrite <- app_assoc. reflexivity.
Qed.

End MoreWidth.

(** ** The fields of MSIZE and PART *)

Lemma half_of (p k : Z) :
  0 <= k -> u16 (Z.land (Z.shiftr p k) 0xFFFF) = (p / 2 ^ k) mod 2 ^ 16.
Proof.
  intros Hk. change 65535 with (Z.ones 16).
  rewrite Z.land_ones, Z.shiftr_div_pow2 by lia.
  unfold u16. apply Z.mod_mod. lia.
Qed.

Section MoreSizes.

Variable env : world -> call -> Z.

(** X26: the sizes come from one word of the device information: the
    flash size in KiB is the low half of MSIZE and the RAM size in KiB
    its high half, each reader fetching the word for itself; the part
    number is the low half of PART.  With a schema outside 1..4 each
    reader answers 0 and reads nothing. *)
Theorem X26_size_fields (v : Z) (w : world) :
  (1 <= v <= 4 ->
   exists m1 m2 p,
     efm32_read_flash_size env v w
     = (m1 mod 2 ^ 16, w ++ [Ev (TargetMemRead32 (di_MSIZE v)) m1])
     /\ efm32_read_ram_size env v w
        = ((m2 / 2 ^ 16) mod 2 ^ 16,
           w ++ [Ev (TargetMemRead32 (di_MSIZE v)) m2])
     /\ efm32_read_part_number env v w
        = (p mod 2 ^ 16, w ++ [Ev (TargetMemRead32 (di_PART v)) p]))
  /\ (~ 1 <= v <= 4 ->
      efm32_read_flash_size env v w = (0, w)
      /\ efm32_read_ram_size env v w = (0, w)
      /\ efm32_read_part_number env v w = (0, w)).
Proof.
  unfold efm32_read_flash_size, efm32_read_ram_size, efm32_read_part_number.
  split.
  - intros Hv.
    assert (E : v = 1 \/ v = 2 \/ v = 3 \/ v = 4) by lia.
    assert (Hm : negb (di_MSIZE v =? 0) = true)
      by (destruct E as [E | [E | [E | E]]]; rewrite E; reflexivity).
    assert (Hp : negb (di_PART v =? 0) = true)
      by (destruct E as [E | [E | [E | E]]]; rewrite E; reflexivity).
    rewrite Hm, Hp. unfold bind, target_mem_read32, extcall, ret.
    unfold EFM32_DI_MSIZE_FLASH_OFST, EFM32_DI_MSIZE_FLASH_MASK,
      EFM32_DI_MSIZE_SRAM_OFST, EFM32_DI_MSIZE_SRAM_MASK,
      EFM32_DI_PART_NUMBER_OFST, EFM32_DI_PART_NUMBER_MASK.
    rewrite !half_of by lia. rewrite Z.pow_0_r, !Z.div_1_r.
    do 3 eexists. split; [reflexivity|]. split; reflexivity.
  - intros Hv.
    assert (Hm : negb (di_MSIZE v =? 0) = false).
    { unfold di_MSIZE.
      destruct (Z.eqb_spec v 1); [lia|]. destruct (Z.eqb_spec v 2); [lia|].
      destruct (Z.eqb_spec v 3); [lia|]. destruct (Z.eqb_spec v 4); [lia|].
      reflexivity. }
    assert (Hp : negb (di_PART v =? 0) = false).
    { unfold di_PART.
      destruct (Z.eqb_spec v 1); [lia|]. destruct (Z.eqb_spec v 2); [lia|].
      destruct (Z.eqb_spec v 3); [lia|]. destruct (Z.eqb_spec v 4); [lia|].
      reflexivity. }
    rewrite Hm, Hp. auto.
Qed.

End MoreSizes.

(** ** The bytes of an identification register *)

Lemma lor_disjoint (x b n : Z) :
  0 <= n -> 0 <= x < 2 ^ n -> 0 <= b ->
  Z.lor x (b * 2 ^ n) = x + b * 2 ^ n.
Proof.
  intros Hn Hx Hb. rewrite <- Z.add_lor_land.
  replace (Z.land x (b * 2 ^ n)) with 0; [lia|].
  symmetry. apply Z.bits_inj'. intros k Hk.
  rewrite Z.land_spec, Z.bits_0.
  destruct (Z.lt_ge_cases k n) as [L|G].
  - rewrite <- Z.shiftl_mul_pow2 by lia.
    rewrite (Z.shiftl_spec_low b n k L). apply andb_false_r.
  - replace (Z.testbit x k) with false; [reflexivity|].
    symmetry. destruct (Z.eq_dec x 0) as [->|Nx]; [apply Z.bits_0|].
    apply Z.bits_above_log2; [lia|].
    apply Z.lt_le_trans with n; [|exact G].
    apply Z.log2_lt_pow2; lia.
Qed.

Lemma id_byte (x i : Z) :
  0 <= i ->  i * 8 + 8 <= 32 ->
  u32 (Z.shiftl (Z.land x 0xff) (i * 8)) = (x mod 2 ^ 8) * 2 ^ (i * 8).
Proof.
  intros Hi Hb. change 255 with (Z.ones 8).
  rewrite Z.land_ones, Z.shiftl_mul_pow2 by lia.
  unfold u32. apply Z.mod_small.
  pose proof (Z.mod_pos_bound x (2 ^ 8) ltac:(lia)) as Hx.
  assert (0 < 2 ^ (i * 8)) by (apply Z.pow_pos_nonneg; lia).
  split; [nia|].
  apply Z.lt_le_trans with (2 ^ 8 * 2 ^ (i * 8)); [nia|].
  rewrite <- Z.pow_add_r by lia. apply Z.pow_le_mono_r; lia.
Qed.

Lemma image_id_sum (mem : Z -> Z) (a : Z) :
  image_id mem a
  = (u32 (mem (u32 (a + 4 * 0)))) mod 2 ^ 8
    + (u32 (mem (u32 (a + 4 * 1)))) mod 2 ^ 8 * 2 ^ 8
    + (u32 (mem (u32 (a + 4 * 2)))) mod 2 ^ 8 * 2 ^ 16
    + (u32 (mem (u32 (a + 4 * 3)))) mod 2 ^ 8 * 2 ^ 24.
Proof.
  unfold image_id. cbn [fold_left].
  rewrite !id_byte by lia.
  set (b0 := _ mod 2 ^ 8). set (b1 := _ mod 2 ^ 8).
  set (b2 := _ mod 2 ^ 8). set (b3 := _ mod 2 ^ 8).
  assert (H0 : 0 <= b0 < 2 ^ 8) by (apply Z.mod_pos_bound; lia).
  assert (H1 : 0 <= b1 < 2 ^ 8) by (apply Z.mod_pos_bound; lia).
  assert (H2 : 0 <= b2 < 2 ^ 8) by (apply Z.mod_pos_bound; lia).
  assert (H3 : 0 <= b3 < 2 ^ 8) by (apply Z.mod_pos_bound; lia).
  clearbody b0 b1 b2 b3.
  change (0 * 8) with 0. change (1 * 8) with 8. change (2 * 8) with 16.
  change (3 * 8) with 24.
  rewrite Z.lor_0_l, Z.pow_0_r, Z.mul_1_r.
  rewrite (lor_disjoint b0 b1 8) by lia.
  rewrite (lor_disjoint (b0 + b1 * 2 ^ 8) b2 16) by lia.
  rewrite (lor_disjoint (b0 + b1 * 2 ^ 8 + b2 * 2 ^ 16) b3 24) by lia.
  reflexivity.
Qed.

(** X27: an identification register of CoreSight is spread over four
    words of which only the low byte counts.  On a debug port with a
    fixed memory image, [adiv5_ap_read_id] at a word-aligned address
    returns the 32-bit value whose byte [k] is the low byte of the word
    at [addr + 4 k], for [k] from 0 to 3; the other 24 bits of each word
    have no effect. *)
Theorem X27_read_id_bytes (d : device) (ap : ADIv5_AP_t) (addr : Z)
    (w : world) :
  Z.land addr 3 = 0 ->
  let id := fst (adiv5_ap_read_id (env_dev d) ap addr w) in
  0 <= id < 2 ^ 32
  /\ forall k, 0 <= k < 4 ->
       (id / 2 ^ (8 * k)) mod 2 ^ 8
       = (dev_mem d (u32 (addr + 4 * k))) mod 2 ^ 8.
Proof.
  intros Ha id. subst id.
  destruct (mock_read_id d ap addr w Ha) as [evs [E _]]. rewrite E.
  cbn [fst]. rewrite image_id_sum.
  assert (Hb : forall x, (u32 x) mod 2 ^ 8 = x mod 2 ^ 8).
  { intros x. unfold u32. change (2 ^ 32) with (2 ^ 8 * 2 ^ 24).
    rewrite Z.rem_mul_r by lia.
    rewrite (Z.mul_comm (2 ^ 8)), Z.mod_add by lia. apply Z.mod_mod. lia. }
  rewrite !Hb.
  set (b0 := _ mod 2 ^ 8). set (b1 := _ mod 2 ^ 8).
  set (b2 := _ mod 2 ^ 8). set (b3 := _ mod 2 ^ 8).
  assert (H0 : 0 <= b0 < 2 ^ 8) by (apply Z.mod_pos_bound; lia).
  assert (H1 : 0 <= b1 < 2 ^ 8) by (apply Z.mod_pos_bound; lia).
  assert (H2 : 0 <= b2 < 2 ^ 8) by (apply Z.mod_pos_bound; lia).
  assert (H3 : 0 <= b3 < 2 ^ 8) by (apply Z.mod_pos_bound; lia).
  split; [lia|].
  intros k Hk.
  assert (C : k = 0 \/ k = 1 \/ k = 2 \/ k = 3) by lia.
  destruct C as [C | [C | [C | C]]]; subst k.
  - fold b0. clearbody b0 b1 b2 b3. change (8 * 0) with 0.
    rewrite Z.pow_0_r, Z.div_1_r.
    replace (b0 + b1 * 2 ^ 8 + b2 * 2 ^ 16 + b3 * 2 ^ 24)
      with (b0 + (b1 + b2 * 2 ^ 8 + b3 * 2 ^ 16) * 2 ^ 8) by lia.
    rewrite Z.mod_add by lia. apply Z.mod_small. lia.
  - fold b1. clearbody b0 b1 b2 b3. change (8 * 1) with 8.
    replace (b0 + b1 * 2 ^ 8 + b2 * 2 ^ 16 + b3 * 2 ^ 24)
      with (b0 + (b1 + (b2 + b3 * 2 ^ 8) * 2 ^ 8) * 2 ^ 8) by lia.
    rewrite Z.div_add, Z.div_small by lia.
    rewrite Z.add_0_l, Z.mod_add by lia. apply Z.mod_small. lia.
  - fold b2. clearbody b0 b1 b2 b3. change (8 * 2) with 16.
    replace (b0 + b1 * 2 ^ 8 + b2 * 2 ^ 16 + b3 * 2 ^ 24)
      with (b0 + b1 * 2 ^ 8 + (b2 + b3 * 2 ^ 8) * 2 ^ 16) by lia.
    rewrite Z.div_add, Z.div_small by lia.
    rewrite Z.add_0_l, Z.mod_add by lia. apply Z.mod_small. lia.
  - fold b3. clearbody b0 b1 b2 b3. change (8 * 3) with 24.
    rewrite Z.div_add, Z.div_small by lia.
    rewrite Z.add_0_l. apply Z.mod_small. lia.
Qed.

(** ** The sizes that the probe registers *)

Lemma kib_exact (k : Z) : 0 <= k < 2 ^ 16 -> u32 (k * 1024) = 1024 * k.
Proof. intros Hk. unfold u32. rewrite Z.mod_small; lia. Qed.

Lemma bind_run {A B : Type} (m : M A) (f : A -> M B) (w : world) :
  bind m f w = f (fst (m w)) (snd (m w)).
Proof. unfold bind. destruct (m w). reflexivity. Qed.

Section MoreProbeSizes.

Variable env : world -> call -> Z.

Lemma mext_add_flash_any (a l ps : Z) :
  mext any_event (efm32_add_flash env a l ps).
Proof.
  unfold efm32_add_flash.
  apply mext_bind; [apply mext_extcall; reflexivity|]. intros p.
  destruct (p =? 0); [apply mext_ret|].
  apply mext_bind; [apply mext_extcall; reflexivity|]. intros _.
  apply mext_ret.
Qed.

Lemma read_part_number_run (v : Z) (w : world) :
  v = 2 \/ v = 3 \/ v = 4 ->
  snd (efm32_read_part_number env v w)
  = w ++ [Ev (TargetMemRead32 (di_PART v))
            (u32 (env w (TargetMemRead32 (di_PART v))))].
Proof.
  intros Hv. unfold efm32_read_part_number.
  rewrite (di_PART_nonzero v Hv). reflexivity.
Qed.

Lemma read_flash_size_run (v : Z) (w : world) :
  v = 2 \/ v = 3 \/ v = 4 ->
  efm32_read_flash_size env v w
  = (u32 (env w (TargetMemRead32 (di_MSIZE v))) mod 2 ^ 16,
     w ++ [Ev (TargetMemRead32 (di_MSIZE v))
             (u32 (env w (TargetMemRead32 (di_MSIZE v))))]).
Proof.
  intros Hv. unfold efm32_read_flash_size.
  rewrite (di_MSIZE_nonzero v Hv).
  unfold bind, target_mem_read32, extcall, ret, negb,
    EFM32_DI_MSIZE_FLASH_OFST, EFM32_DI_MSIZE_FLASH_MASK.
  rewrite half_of by lia. now rewrite Z.pow_0_r, Z.div_1_r.
Qed.

Lemma read_ram_size_run (v : Z) (w : world) :
  v = 2 \/ v = 3 \/ v = 4 ->
  efm32_read_ram_size env v w
  = ((u32 (env w (TargetMemRead32 (di_MSIZE v))) / 2 ^ 16) mod 2 ^ 16,
     w ++ [Ev (TargetMemRead32 (di_MSIZE v))
             (u32 (env w (TargetMemRead32 (di_MSIZE v))))]).
Proof.
  intros Hv. unfold efm32_read_ram_size.
  rewrite (di_MSIZE_nonzero v Hv).
  unfold bind, target_mem_read32, extcall, ret, negb,
    EFM32_DI_MSIZE_SRAM_OFST, EFM32_DI_MSIZE_SRAM_MASK.
  now rewrite half_of by lia.
Qed.

Lemma extcall_run (c : call) (w : world) :
  extcall env c w = (u32 (env w c), w ++ [Ev c (u32 (env w c))]).
Proof. reflexivity. Qed.

Lemma add_flash_run (a l ps : Z) (w : world) :
  snd (efm32_add_flash env a l ps w)
  = if u32 (env w Malloc) =? 0
    then w ++ [Ev Malloc (u32 (env w Malloc))]
    else (w ++ [Ev Malloc (u32 (env w Malloc))])
           ++ [Ev (TargetAddFlash a l ps)
                 (u32 (env (w ++ [Ev Malloc (u32 (env w Malloc))])
                         (TargetAddFlash a l ps)))].
Proof.
  unfold efm32_add_flash. rewrite bind_run, extcall_run. cbn [fst snd].
  destruct (_ =? 0); [reflexivity|].
  rewrite bind_run, extcall_run. reflexivity.
Qed.

Lemma probe_di_rest_sizes (v idx : Z) (dev : efm32_device_t) (w : world) :
  v = 2 \/ v = 3 \/ v = 4 ->
  idx <> EFM32_UNKNOWN_FAMILY ->
  efm32_get_device idx = Some dev ->
  exists p m1 m2 r1 r2 pm rest,
    snd (probe_di_rest env v idx w) =
      w ++ [Ev (TargetMemRead32 (di_PART v)) p;
            Ev (TargetMemRead32 (di_MSIZE v)) m1;
            Ev (TargetMemRead32 (di_MSIZE v)) m2;
            Ev TcPrintf r1;
            Ev (TargetAddRam SRAM_BASE (1024 * ((m2 / 2 ^ 16) mod 2 ^ 16))) r2;
            Ev Malloc pm] ++ rest
    /\ (pm <> 0 ->
        exists r3 rest',
          rest = Ev (TargetAddFlash 0 (1024 * (m1 mod 2 ^ 16))
                       (flash_page_size dev)) r3 :: rest').
Proof.
  intros Hv Hi Hg. unfold probe_di_rest. rewrite Hg.
  destruct (Z.eqb_spec idx EFM32_UNKNOWN_FAMILY) as [E|_]; [contradiction|].
  rewrite bind_run, (read_part_number_run v w Hv).
  set (p := u32 (env w (TargetMemRead32 (di_PART v)))).
  set (w1 := w ++ [Ev (TargetMemRead32 (di_PART v)) p]).
  rewrite bind_run, (read_flash_size_run v w1 Hv). cbn [fst snd].
  set (m1 := u32 (env w1 (TargetMemRead32 (di_MSIZE v)))).
  set (w2 := w1 ++ [Ev (TargetMemRead32 (di_MSIZE v)) m1]).
  rewrite bind_run, (read_ram_size_run v w2 Hv). cbn [fst snd].
  set (m2 := u32 (env w2 (TargetMemRead32 (di_MSIZE v)))).
  set (w3 := w2 ++ [Ev (TargetMemRead32 (di_MSIZE v)) m2]).
  rewrite !kib_exact by (apply Z.mod_pos_bound; lia).
  rewrite bind_run, extcall_run. cbn [fst snd].
  set (r1 := u32 (env w3 TcPrintf)).
  set (w4 := w3 ++ [Ev TcPrintf r1]).
  rewrite bind_run, extcall_run. cbn [fst snd].
  set (ram := TargetAddRam SRAM_BASE (1024 * ((m2 / 2 ^ 16) mod 2 ^ 16))).
  set (r2 := u32 (env w4 ram)).
  set (w5 := w4 ++ [Ev ram r2]).
  rewrite bind_run, add_flash_run.
  set (pm := u32 (env w5 Malloc)).
  set (w6 := w5 ++ [Ev Malloc pm]).
  assert (Hw : w6 = w ++ [Ev (TargetMemRead32 (di_PART v)) p;
                          Ev (TargetMemRead32 (di_MSIZE v)) m1;
                          Ev (TargetMemRead32 (di_MSIZE v)) m2;
                          Ev TcPrintf r1; Ev ram r2; Ev Malloc pm]).
  { unfold w6, w5, w4, w3, w2, w1. now rewrite <- !app_assoc. }
  exists p, m1, m2, r1, r2, pm.
  match goal with
  | |- context [snd (?m (if _ then _ else _))] =>
      assert (T : mext any_event m)
  end.
  { apply mext_bind.
    { destruct (negb _); [apply mext_add_flash_any|apply mext_ret]. }
    intros _. apply mext_bind.
    { destruct (negb _); [apply mext_add_flash_any|apply mext_ret]. }
    intros _. apply mext_bind; [apply mext_extcall; reflexivity|].
    intros _. apply mext_ret. }
  destruct (Z.eqb_spec pm 0) as [E0|N0].
  - destruct (T w6) as [evs [Ee _]]. exists evs. split; [|contradiction].
    rewrite Ee, Hw, <- app_assoc. reflexivity.
  - set (main := TargetAddFlash 0 (1024 * (m1 mod 2 ^ 16))
                   (flash_page_size dev)).
    destruct (T (w6 ++ [Ev main (u32 (env w6 main))])) as [evs [Ee _]].
    exists (Ev main (u32 (env w6 main)) :: evs). split.
    + rewrite Ee, Hw, <- !app_assoc. reflexivity.
    + intros _. eauto.
Qed.

(** X28: a successful probe reads PART twice (family, then number) and
    MSIZE twice (flash, then RAM), prints, and registers the RAM at
    0x20000000 with 1024 times the high half of the second MSIZE word;
    it then allocates the main flash and, when that succeeds, registers
    it at 0 with 1024 times the low half of the first MSIZE word and
    the page size of the table row.  Neither product wraps at 32 bits. *)
Theorem X28_probe_sizes (idc : Z) (w : world) (t : target) :
  fst (efm32_probe env idc w) = Some t ->
  exists v dev pf p m1 m2 r1 r2 pm rest,
    spec_di_version idc = Some v
    /\ efm32_get_device (usize (nth 2 (driver t) 0 - 32)) = Some dev
    /\ snd (efm32_probe env idc w) =
         w ++ [Ev (TargetMemRead32 (di_PART v)) pf;
               Ev (TargetMemRead32 (di_PART v)) p;
               Ev (TargetMemRead32 (di_MSIZE v)) m1;
               Ev (TargetMemRead32 (di_MSIZE v)) m2;
               Ev TcPrintf r1;
               Ev (TargetAddRam SRAM_BASE
                     (1024 * ((m2 / 2 ^ 16) mod 2 ^ 16))) r2;
               Ev Malloc pm] ++ rest
    /\ (pm <> 0 ->
        exists r3 rest',
          rest = Ev (TargetAddFlash 0 (1024 * (m1 mod 2 ^ 16))
                       (flash_page_size dev)) r3 :: rest').
Proof.
  intros H.
  destruct (probe_driver_index env idc w t H)
    as [v [dev [Hv [Sv [Hi [Hg E]]]]]].
  exists v, dev. rewrite E, probe_di_split.
  pose proof Hg as Hg'. rewrite Hi, probe_di_index in Hg'.
  assert (Hu : family_search efm32_devices 0
                 (fst (efm32_read_part_family env v w))
               <> EFM32_UNKNOWN_FAMILY).
  { intros Hu. rewrite Hu in Hg'. discriminate. }
  destruct (read_part_family_run env v Hv w) as [pf E1].
  destruct (probe_di_rest_sizes v _ dev
              (snd (efm32_read_part_family env v w)) Hv Hu Hg')
    as [p [m1 [m2 [r1 [r2 [pm [rest [E2 Hm]]]]]]]].
  exists pf, p, m1, m2, r1, r2, pm, rest.
  split; [exact Sv|]. split; [exact Hg|]. split; [|exact Hm].
  rewrite E2, E1, <- app_assoc. reflexivity.
Qed.

End MoreProbeSizes.

(** ** Instances on concrete inputs *)

Lemma C1_mem_read_sequence_witness :
  0 < 16 < 2 ^ size_t_bits
  /\ exists setup p0 body vlast,
       adiv5_mem_read env_count ap0 0 0x20000FFC 16 [] =
         (stores_of ALIGN_WORD 0 0x20000FFC (data_vals false body ++ [vlast]),
          [] ++ setup
            ++ [Ev (LowAccess ADIV5_LOW_READ ADIV5_AP_DRW 0) p0]
            ++ body
            ++ [Ev (LowAccess ADIV5_LOW_READ ADIV5_DP_RDBUFF 0) vlast])
       /\ map ev_call setup = setup_calls ap0 0x20000FFC ALIGN_WORD
       /\ Z.of_nat (length (data_vals false body)) = 4 - 1.
Proof.
  assert (H : 0 < 16 < 2 ^ size_t_bits) by (unfold size_t_bits; lia).
  split; [exact H|].
  destruct (C1_mem_read_sequence env_count ap0 0 0x20000FFC 16 [] H)
    as [setup [p0 [body [vlast [E [Hs [_ [Hl _]]]]]]]].
  exists setup, p0, body, vlast. repeat split; assumption.
Defined.

Lemma C2_tar_rearm_witness :
  (0 <= 0x20000FFC < 2 ^ 32) /\ (0 <= 0x200003FC < 2 ^ 32)
  /\ (exists evs,
        snd (adiv5_mem_read env_count ap0 0 0x20000FFC 16 []) = [] ++ evs
        /\ tar_discipline true
             (align_size (MIN (ALIGNOF 0x20000FFC) (ALIGNOF 16)))
             0x20000FFC None false evs = true)
  /\ (exists evs,
        snd (adiv5_mem_write_sized env_count ap0 0x200003FC
               (fun _ off => off) 8 ALIGN_WORD []) = [] ++ evs
        /\ tar_discipline false (align_size ALIGN_WORD) 0x200003FC None
             false evs = true).
Proof.
  assert (H1 : 0 <= 0x20000FFC < 2 ^ 32) by lia.
  assert (H2 : 0 <= 0x200003FC < 2 ^ 32) by lia.
  split; [exact H1|]. split; [exact H2|].
  exact (C2_tar_rearm env_count ap0 [] 0 0x20000FFC 16 0x200003FC 8
           (fun _ off => off) ALIGN_WORD H1 H2).
Defined.

Lemma C3_cidr_preamble_reject_witness :
  exists evs,
    adiv5_component_probe (env_dev s1_dev) 1 ap0 0xE00FF003 0 0 []
    = Some (false, [] ++ evs)
    /\ forallb transport_only evs = true
    /\ tar_writes evs = id_reg_addrs (Z.land 0xE00FF003 (Z.lnot 3)).
Proof.
  apply (C3_cidr_preamble_reject (env_dev s1_dev) 0 ap0 0xE00FF003 0 0 []).
  vm_compute. discriminate.
Defined.

Lemma C4_rom_walk_bounded_witness :
  (exists res evs,
      adiv5_component_probe (env_dev s2_dev) 2 ap_s2 0x80000003 0 0 []
      = Some (res, [] ++ evs)
      /\ exists ids scan,
           evs = ids ++ scan
           /\ tar_writes ids = id_reg_addrs (Z.land 0x80000003 (Z.lnot 3))
           /\ forallb transport_only ids = true
           /\ scan_log s2_dev 1 ap_s2 (Z.land 0x80000003 (Z.lnot 3)) 0
                960 0 ([] ++ ids) scan
                (flat_scan_addrs (dev_mem s2_dev) 960
                   (Z.land 0x80000003 (Z.lnot 3)) 0)
                false res
           /\ (length (flat_scan_addrs (dev_mem s2_dev) 960
                         (Z.land 0x80000003 (Z.lnot 3)) 0) <= 960)%nat)
  /\ rom_nesting_ok (dev_mem s2_dev) 2 0x80000003 = true
  /\ (exists evs,
        adiv5_component_probe (env_dev flat_dev) 1 ap_s2 0xE00FF003 0 0 []
        = Some (false, [] ++ evs)
        /\ tar_writes evs =
           id_reg_addrs (Z.land 0xE00FF003 (Z.lnot 3))
             ++ flat_scan_addrs (dev_mem flat_dev) 960
                  (Z.land 0xE00FF003 (Z.lnot 3)) 0)
  /\ (forall fuel,
        adiv5_component_probe (env_dev selfref_dev) fuel ap_s2 0xE00FF003
          0 0 [] = None).
Proof.
  split; [|split; [|split]].
  - destruct (proj1 (C4_rom_walk_bounded s2_dev ap_s2 [] 0x80000003 0 0)
                1%nat eq_refl) as [res [evs [E S0]]].
    exists res, evs. split; [exact E|]. apply S0. reflexivity.
  - destruct (adiv5_component_probe (env_dev s2_dev) 2 ap_s2 0x80000003
                0 0 []) as [x|] eqn:E.
    + exact (proj1 (proj2 (C4_rom_walk_bounded s2_dev ap_s2 [] 0x80000003
                             0 0)) 2%nat x E).
    + vm_compute in E. discriminate.
  - apply (proj1 (proj2 (proj2 (C4_rom_walk_bounded flat_dev ap_s2 []
                                  0xE00FF003 0 0))) 0%nat);
      vm_compute; reflexivity.
  - apply (proj2 (proj2 (proj2 (C4_rom_walk_bounded selfref_dev ap_s2 []
                                  0xE00FF003 0 0)))).
    + lia.
    + reflexivity.
    + vm_compute. discriminate.
    + reflexivity.
Defined.





Lemma C9_aap_device_erase_witness :
  exists evs,
    efm32_aap_cmd_device_erase (env_aap 2) 3 aap_t [] = Some (true, [] ++ evs)
    /\ map ev_call evs =
       aap_status_read_calls aap_ap ++ aap_erase_write_calls aap_ap
         ++ concat (repeat (aap_status_read_calls aap_ap) (2 + 2)).
Proof.
  destruct (C9_aap_device_erase (env_aap 2) aap_t [] 2) as [_ [_ H]].
  apply H.
  - vm_compute. reflexivity.
  - intros j Hj. destruct j as [|[|j]]; [vm_compute; discriminate..|lia].
  - vm_compute. reflexivity.
Defined.

Lemma C7_flash_erase_sequence_witness :
  exists fuel ret r1 r2 evs,
    efm32_flash_erase env_idle fuel s4_flash 0x00008000 2048 [] =
      Some (ret,
            [] ++ Ev (TargetMemWrite32 (EFM32_MSC_LOCK 0x400c0000) 0x1B71) r1
               :: Ev (TargetMemWrite32 (EFM32_MSC_WRITECTRL 0x400c0000) 1) r2
               :: evs)
    /\ erase_events 0x400c0000 2048 0x00008000 2048 evs ret
    /\ (ret = 0 \/ ret = -1).
Proof.
  apply (C7_flash_erase_sequence env_idle s4_flash 0x00008000 2048 []
           (mkDev 72 1 "EFM32GG" 2048 0x400c0000 false 4096 0 "Giant Gecko")).
  - vm_compute. reflexivity.
  - lia.
  - vm_compute. reflexivity.
  - intros w0. exists 1%nat. vm_compute. discriminate.
Defined.

Lemma C8_di_schema_choice_witness :
  exists r evs,
    snd (efm32_probe env_pearl 0x2BA01477 [])
    = [] ++ Ev (TargetMemRead32 (di_PART 3)) r :: evs
    /\ forallb (di_reads_ok 3) evs = true
    /\ nth 0 (driver (mkTarget [51; 8; 42; 8])) 0 = 3 + 48.
Proof.
  destruct (C8_di_schema_choice env_pearl 0x2BA01477 [])
    as [r [evs [E [O T]]]].
  exists r, evs. split; [exact E|]. split; [exact O|].
  apply T. vm_compute. reflexivity.
Defined.

(** ** Instances of the further properties *)

Lemma X2_mem_write_units_witness :
  0 <= 8
  /\ exists setup body,
       adiv5_mem_write env_count ap0 0x20000000 (fun _ off => off) 8 []
       = (tt, [] ++ setup ++ body)
       /\ drw_writes body = [0; 4]
       /\ Z.of_nat (length (drw_writes body)) * 4 = 8.
Proof.
  split; [lia|].
  destruct (X2_mem_write_units env_count ap0 0x20000000 (fun _ off => off) 8
              [] ltac:(lia)) as [setup [body [E [_ [_ [D L]]]]]].
  exists setup, body. split; [exact E|]. split; [exact D|exact L].
Defined.

Lemma X3_mem_read_covers_witness :
  0 < 16 < 2 ^ size_t_bits
  /\ Z.of_nat (length (fst (adiv5_mem_read env_count ap0 0 0x20000FFC 16 [])))
     * 4 = 16.
Proof.
  assert (H : 0 < 16 < 2 ^ size_t_bits) by (unfold size_t_bits; lia).
  split; [exact H|].
  exact (proj1 (X3_mem_read_covers env_count ap0 0 0x20000FFC 16 [] H)).
Defined.

Lemma X4_mem_read32_word_witness :
  Z.land 0xE00FF000 3 = 0
  /\ exists setup p v,
       adiv5_mem_read32 env_count ap0 0xE00FF000 [] =
         (v, [] ++ setup
               ++ [Ev (LowAccess ADIV5_LOW_READ ADIV5_AP_DRW 0) p;
                   Ev (LowAccess ADIV5_LOW_READ ADIV5_DP_RDBUFF 0) v])
       /\ map ev_call setup = setup_calls ap0 0xE00FF000 ALIGN_WORD
       /\ 0 <= v < 2 ^ 32.
Proof.
  split; [reflexivity|].
  apply (X4_mem_read32_word env_count ap0 0xE00FF000 []). reflexivity.
Defined.

Lemma X5_ap_access_select_witness :
  0 <= apsel aap_ap < 256
  /\ exists s r0 r r',
       adiv5_ap_read env_count aap_ap AAP_STATUS [] =
         (r, [] ++ [Ev (LowAccess ADIV5_LOW_WRITE ADIV5_DP_SELECT s) r0;
                    Ev (DpRead AAP_STATUS) r])
       /\ adiv5_ap_write env_count aap_ap AAP_STATUS 0 [] =
         (r', [] ++ [Ev (LowAccess ADIV5_LOW_WRITE ADIV5_DP_SELECT s) r0;
                     Ev (LowAccess ADIV5_LOW_WRITE AAP_STATUS 0) r'])
       /\ Z.shiftr s 24 = apsel aap_ap
       /\ Z.land s 0xFFFFFF = Z.land AAP_STATUS 0xF0.
Proof.
  assert (H : 0 <= apsel aap_ap < 256) by (cbn; lia).
  split; [exact H|].
  apply (X5_ap_access_select env_count aap_ap AAP_STATUS 0 [] H).
Defined.

Lemma X6_new_ap_outcome_witness :
  exists idr0,
    apsel (mkAP 0 0x24770011 0xE00FF003 0 0) = 0
    /\ idr (mkAP 0 0x24770011 0xE00FF003 0 0) = idr0
    /\ idr0 <> 0
    /\ Z.land (csw (mkAP 0 0x24770011 0xE00FF003 0 0))
         (Z.lor (Z.lor ADIV5_AP_CSW_SIZE_MASK ADIV5_AP_CSW_ADDRINC_MASK)
            ADIV5_AP_CSW_TRINPROG) = 0.
Proof.
  destruct (X6_new_ap_outcome (env_dev two_ap_dev) dp_477 0 [])
    as [s1 [idr0 [s2 [base0 [rest [_ [_ [_ H]]]]]]]].
  exists idr0. apply H. vm_compute. reflexivity.
Defined.

Lemma X7_probe_fault_rejects_witness :
  exists evs,
    adiv5_component_probe env_fault 1 ap0 0xE00FF003 0 0 []
    = Some (false, [] ++ evs)
    /\ forallb transport_only evs = true
    /\ tar_writes evs = id_reg_addrs (Z.land 0xE00FF003 (Z.lnot 3)).
Proof.
  apply (X7_probe_fault_rejects env_fault 0 ap0 0xE00FF003 0 0 []).
  vm_compute. discriminate.
Defined.

Lemma X8_probe_leaf_outcome_witness :
  exists evs,
    adiv5_component_probe (env_dev s2_dev) 1 ap_s2 0x80001000 0 0 []
    = Some (true, [] ++ evs)
    /\ forallb not_forced evs = true.
Proof.
  destruct (X8_probe_leaf_outcome (env_dev s2_dev) 0 ap_s2 0x80001000 0 0 [])
    as [evs [E [O _]]]; try (vm_compute; reflexivity).
  { vm_compute. discriminate. }
  exists evs. split; [|exact O].
  rewrite E. f_equal.
Defined.

Lemma X9_armv8_probe_outcome_witness :
  fst (adiv5_armv8_probe env_idle ap0 0xE000E000 []) = aa_nosupport.
Proof.
  destruct (X9_armv8_probe_outcome env_idle ap0 0xE000E000 []) as [_ [_ H]].
  apply H. vm_compute. reflexivity.
Defined.


Lemma X11_scan_returns_witness :
  exists log w',
    dp_init_ap_scan (env_dev two_ap_dev) 1 dp_477 [] = Some (log, w')
    /\ (length log <= 256)%nat.
Proof.
  apply (X11_scan_returns two_ap_dev 0 dp_477 []).
  intros addr. reflexivity.
Defined.

Lemma X12_lookup_then_get_witness :
  match efm32_get_device (fst (efm32_lookup_device_index env_pearl 3 [])) with
  | Some d => family_id d = 81
  | None => False
  end.
Proof.
  generalize (X12_lookup_then_get env_pearl 3 []).
  vm_compute. intros [H _]. exact H.
Defined.

Lemma X13_probe_driver_round_trip_witness :
  exists v dev,
    spec_di_version 0x2BA01477 = Some v
    /\ u8 (nth 0 (driver (mkTarget [51; 8; 42; 8])) 0 - 48) = v
    /\ usize (nth 2 (driver (mkTarget [51; 8; 42; 8])) 0 - 32)
       = fst (efm32_lookup_device_index env_pearl v [])
    /\ efm32_get_device (usize (nth 2 (driver (mkTarget [51; 8; 42; 8])) 0 - 32))
       = Some dev
    /\ family_id dev = fst (efm32_read_part_family env_pearl v []).
Proof.
  apply (X13_probe_driver_round_trip env_pearl 0x2BA01477 []).
  vm_compute. reflexivity.
Defined.

Lemma X14_probe_success_witness :
  fst (efm32_probe env_pearl 0x2BA01477 []) <> None.
Proof.
  apply (proj2 (X14_probe_success env_pearl 0x2BA01477 [])).
  exists 3. split; [reflexivity|]. vm_compute. discriminate.
Defined.

Lemma X15_probe_regions_witness :
  exists dev evs,
    efm32_get_device (usize (nth 2 (driver (mkTarget [51; 8; 42; 8])) 0 - 32))
    = Some dev
    /\ snd (efm32_probe env_pearl 0x2BA01477 []) = [] ++ evs
    /\ forallb (region_ok dev) evs = true
    /\ 0 < flash_page_size dev.
Proof.
  apply (X15_probe_regions env_pearl 0x2BA01477 []).
  vm_compute. reflexivity.
Defined.

Lemma X16_serial_words_witness :
  exists h l r,
    efm32_cmd_serial env_count pearl_target [] =
      ((true, (h, l)),
       [] ++ [Ev (TargetMemRead32 (di_UNIQUEH 3)) h;
              Ev (TargetMemRead32 (di_UNIQUEL 3)) l;
              Ev TcPrintf r]).
Proof.
  apply (proj1 (X16_serial_words env_count pearl_target [])).
  vm_compute. split; discriminate.
Defined.

Lemma X17_miscchip_fields_witness :
  exists pkginfo,
    snd (efm32_read_miscchip env_count 4 []) =
      [] ++ [Ev (TargetMemRead32 (EFM32_DI_V4 + 4 * 4)) pkginfo]
    /\ pincount (fst (efm32_read_miscchip env_count 4 []))
       = (pkginfo / 2 ^ 16) mod 2 ^ 8
    /\ pkgtype (fst (efm32_read_miscchip env_count 4 []))
       = (pkginfo / 2 ^ 8) mod 2 ^ 8
    /\ tempgrade (fst (efm32_read_miscchip env_count 4 []))
       = pkginfo mod 2 ^ 8
    /\ pincount (fst (efm32_read_miscchip env_count 4 [])) * 2 ^ 16
       + pkgtype (fst (efm32_read_miscchip env_count 4 [])) * 2 ^ 8
       + tempgrade (fst (efm32_read_miscchip env_count 4 []))
       = pkginfo mod 2 ^ 24.
Proof.
  apply (proj1 (X17_miscchip_fields env_count 4 [])). right. reflexivity.
Defined.

Lemma X18_flash_page_size_decoded_witness :
  1 <= 3 <= 4
  /\ exists meminfo,
       snd (efm32_read_flash_page_size env_idle 3 [])
       = [] ++ [Ev (TargetMemRead32 (di_MEMINFO 3)) meminfo]
       /\ fst (efm32_read_flash_page_size env_idle 3 [])
          = if (meminfo / 2 ^ 24) mod 2 ^ 8 <=? 20
            then Some (1024 * 2 ^ ((meminfo / 2 ^ 24) mod 2 ^ 8))
            else None.
Proof.
  split; [lia|].
  apply (X18_flash_page_size_decoded env_idle 3 []). lia.
Defined.

Lemma X19_erase_all_sequence_witness :
  exists fuel ok r1 r2 r3 polls tail,
    efm32_cmd_erase_all env_idle fuel pearl_target [] =
      Some (ok,
            [] ++ [Ev (TargetMemWrite32 (EFM32_MSC_WRITECTRL 0x400e0000) 1) r1;
                   Ev (TargetMemWrite32 (EFM32_MSC_MASSLOCK 0x400e0000) 0x631A)
                     r2;
                   Ev (TargetMemWrite32 (EFM32_MSC_WRITECMD 0x400e0000) 0x100)
                     r3]
              ++ polls ++ tail)
    /\ poll_events 0x400e0000 polls (negb ok)
    /\ map ev_call tail =
       if ok
       then [TargetMemWrite32 (EFM32_MSC_MASSLOCK 0x400e0000) 0; TcPrintf]
       else [].
Proof.
  apply (X19_erase_all_sequence env_idle pearl_target []).
  intros w0. exists 1%nat. vm_compute. discriminate.
Defined.

Lemma X20_bootloader_outcome_witness :
  exists fuel ok clw0 r1 r2 r3 r4 r5 r6 polls,
    efm32_cmd_bootloader env_idle fuel pearl_target 2 100 [] =
      Some (ok,
            [] ++ [Ev (TargetMemRead32 EFM32_LOCK_BITS_CLW0) clw0;
                   Ev (TargetMemWrite32 (EFM32_MSC_LOCK 0x400e0000) 0x1B71) r1;
                   Ev (TargetMemWrite32 (EFM32_MSC_WRITECTRL 0x400e0000) 1) r2;
                   Ev (TargetMemWrite32 (EFM32_MSC_ADDRB 0x400e0000)
                         EFM32_LOCK_BITS_CLW0) r3;
                   Ev (TargetMemWrite32 (EFM32_MSC_WRITECMD 0x400e0000) 1) r4;
                   Ev (TargetMemWrite32 (EFM32_MSC_WDATA 0x400e0000)
                         (Z.land clw0 (Z.lnot 2))) r5;
                   Ev (TargetMemWrite32 (EFM32_MSC_WRITECMD 0x400e0000) 8) r6]
              ++ polls)
    /\ poll_events 0x400e0000 polls (negb ok).
Proof.
  apply (X20_bootloader_outcome env_idle pearl_target 2 100 []).
  intros w0. exists 1%nat. vm_compute. discriminate.
Defined.

Lemma X21_erase_page_addresses_witness :
  exists fuel ret r1 r2 evs k,
    efm32_flash_erase env_idle fuel s4_flash 0x00008000 2049 [] =
      Some (ret,
            [] ++ Ev (TargetMemWrite32 (EFM32_MSC_LOCK 0x400c0000) 0x1B71) r1
               :: Ev (TargetMemWrite32 (EFM32_MSC_WRITECTRL 0x400c0000) 1) r2
               :: evs)
    /\ addrb_writes 0x400c0000 evs = page_addrs k 2048 0x00008000
    /\ (1 <= k <= pages_of 2048 2049)%nat
    /\ (ret = 0 -> k = pages_of 2048 2049).
Proof.
  apply (X21_erase_page_addresses env_idle s4_flash 0x00008000 2049 []
           (mkDev 72 1 "EFM32GG" 2048 0x400c0000 false 4096 0 "Giant Gecko")).
  - vm_compute. reflexivity.
  - lia.
  - vm_compute. reflexivity.
  - intros w0. exists 1%nat. vm_compute. discriminate.
Defined.

Lemma X22_erase_edges_witness :
  efm32_flash_erase env_idle 0 (mkFlash stray_target 0 0x1000 2048) 0 2048 []
  = Some (1, []).
Proof.
  apply (proj1 (X22_erase_edges env_idle (mkFlash stray_target 0 0x1000 2048)
                  0 [])).
  vm_compute. reflexivity.
Defined.

Lemma X23_schema4_family_witness :
  di_version
    (mkDev 21 3 "EFR32BG1V" 2048 0x400e0000 true 2048 10240 "Blue Gecko")
  <> 4.
Proof.
  apply (proj2 (X23_schema4_family env_xg21 []) (mkTarget [52; 8; 54; 8]));
    vm_compute; reflexivity.
Defined.

Lemma X24_probe_depends_on_witness :
  adiv5_component_probe (env_dev flat_dev) 1 ap_s2 0xE00FF003 0 0 []
  = adiv5_component_probe (env_dev flat_dev) 1 ap_s2 0xE00FF000 7 5 [].
Proof.
  apply (X24_probe_depends_on (env_dev flat_dev) 1 ap_s2). reflexivity.
Defined.

Lemma X25_transfer_width_witness :
  MIN (ALIGNOF 0x20000001) (ALIGNOF 4) = ALIGN_BYTE.
Proof.
  apply (proj2 (proj1 (proj2 (X25_transfer_width env_count ap0 0 0x20000001 4
                                [])))).
  left. reflexivity.
Defined.

Lemma X26_size_fields_witness :
  exists m1 m2 p,
    efm32_read_flash_size env_pearl 3 []
    = (m1 mod 2 ^ 16, [] ++ [Ev (TargetMemRead32 (di_MSIZE 3)) m1])
    /\ efm32_read_ram_size env_pearl 3 []
       = ((m2 / 2 ^ 16) mod 2 ^ 16,
          [] ++ [Ev (TargetMemRead32 (di_MSIZE 3)) m2])
    /\ efm32_read_part_number env_pearl 3 []
       = (p mod 2 ^ 16, [] ++ [Ev (TargetMemRead32 (di_PART 3)) p]).
Proof.
  apply (proj1 (X26_size_fields env_pearl 3 [])). lia.
Defined.

Lemma X27_read_id_bytes_witness :
  Z.land 0x80001FF0 3 = 0
  /\ (fst (adiv5_ap_read_id (env_dev s2_dev) ap_s2 0x80001FF0 [])
        / 2 ^ (8 * 3)) mod 2 ^ 8
     = dev_mem s2_dev (u32 (0x80001FF0 + 4 * 3)) mod 2 ^ 8.
Proof.
  split; [reflexivity|].
  apply (proj2 (X27_read_id_bytes s2_dev ap_s2 0x80001FF0 [] eq_refl)). lia.
Defined.

Lemma X28_probe_sizes_witness :
  exists v dev pf p m1 m2 r1 r2 pm rest,
    spec_di_version 0x2BA01477 = Some v
    /\ efm32_get_device (usize (nth 2 (driver (mkTarget [51; 8; 42; 8])) 0 - 32))
       = Some dev
    /\ snd (efm32_probe env_pearl 0x2BA01477 []) =
         [] ++ [Ev (TargetMemRead32 (di_PART v)) pf;
                Ev (TargetMemRead32 (di_PART v)) p;
                Ev (TargetMemRead32 (di_MSIZE v)) m1;
                Ev (TargetMemRead32 (di_MSIZE v)) m2;
                Ev TcPrintf r1;
                Ev (TargetAddRam SRAM_BASE
                      (1024 * ((m2 / 2 ^ 16) mod 2 ^ 16))) r2;
                Ev Malloc pm] ++ rest
    /\ (pm <> 0 ->
        exists r3 rest',
          rest = Ev (TargetAddFlash 0 (1024 * (m1 mod 2 ^ 16))
                       (flash_page_size dev)) r3 :: rest').
Proof.
  apply (X28_probe_sizes env_pearl 0x2BA01477 []).
  vm_compute. reflexivity.
Defined.
